(** * Location safety skill: aggregation verdict and escalation check

    A shallow embedding of the JavaScript sources of the repository
    (safety-check.js, self-check.js, escalation-check.js, the webhook server
    and the scenario injector) together with the properties stated about
    them.

    JavaScript values are modelled by the type [value]; the file system is a
    finite map from paths to the parsed JSON content of each file; network
    replies are an oracle indexed by the requested URL; exceptions and the
    mutable process state are threaded through the monad [M]. *)

From Stdlib Require Import ZArith QArith Lia List Bool Ascii String.
From stdpp Require Import base option gmap strings list.
Import ListNotations.

Set Warnings "-register-all".
Local Open Scope string_scope.
Local Open Scope Z_scope.

(** ** JavaScript values *)

(** A number is a finite rational or NaN ([None]).  Every number the scripts
    compare against a constant (2.5, 50, 100, 150, 0) is exactly representable,
    so the comparisons on rationals agree with the ones on doubles. *)
Definition number := option Q.

Inductive value : Type :=
| VUndefined
| VNull
| VBool (b : bool)
| VNum (n : number)
| VStr (s : string)
| VArr (items : list value)
| VObj (fields : list (string * value)).

Definition VInt (z : Z) : value := VNum (Some (inject_Z z)).

(** ToBoolean. *)
Definition truthy (v : value) : bool :=
  match v with
  | VUndefined | VNull => false
  | VBool b => b
  | VNum None => false
  | VNum (Some q) => negb (Qnum q =? 0)
  | VStr s => negb (String.eqb s "")
  | VArr _ | VObj _ => true
  end.

(** [a || b] and [a && b] on values. *)
Definition js_or (a b : value) : value := if truthy a then a else b.
Definition js_and (a b : value) : value := if truthy a then b else a.

Fixpoint assoc (k : string) (fs : list (string * value)) : value :=
  match fs with
  | [] => VUndefined
  | (k', v) :: fs' => if String.eqb k k' then v else assoc k fs'
  end.

(** Outcome of an evaluation step: a result or a thrown exception carrying
    its message. *)
Inductive outcome (A : Type) : Type :=
| Returned (a : A)
| Thrown (message : string).
Arguments Returned {A} a.
Arguments Thrown {A} message.

(** Property read [v.k], for the property names the scripts use (none of them
    is inherited from a prototype): reading a property of [undefined] or
    [null] throws, a missing property reads as [undefined]. *)
Definition getProp (v : value) (k : string) : outcome value :=
  match v with
  | VUndefined | VNull => Thrown ("TypeError: Cannot read properties of " ++
        (if v is VNull then "null" else "undefined") ++ " (reading '" ++ k ++ "')")
  | VObj fs => Returned (assoc k fs)
  | _ => Returned VUndefined
  end.

(** Optional chaining [v?.k]. *)
Definition getPropOpt (v : value) (k : string) : value :=
  match v with
  | VObj fs => assoc k fs
  | _ => VUndefined
  end.

(** Parts of the ECMAScript runtime that are taken as given. *)
Class JSRuntime : Type := {
  (** [Date.parse] on a string; [None] is NaN. *)
  Date_parse : string -> option Z;
  (** [Date.prototype.toISOString] of a valid time value. *)
  toISOString : Z -> string;
  (** StringToNumber. *)
  StringToNumber : string -> number;
  (** Number::toString of a finite number. *)
  NumberToString : Q -> string;
  (** [JSON.parse] of a text received from the network or from a command. *)
  JSON_parse : string -> outcome value
}.

Fixpoint join (sep : string) (l : list string) : string :=
  match l with
  | [] => ""
  | [s] => s
  | s :: l' => s ++ sep ++ join sep l'
  end.

Section Runtime.
Context {rt : JSRuntime}.

(** ToString, as used by template literals and string concatenation. *)
Fixpoint ToString (v : value) : string :=
  match v with
  | VUndefined => "undefined"
  | VNull => "null"
  | VBool true => "true"
  | VBool false => "false"
  | VNum None => "NaN"
  | VNum (Some q) => NumberToString q
  | VStr s => s
  | VArr items =>
      join "," (List.map (fun x => match x with
                                   | VUndefined | VNull => ""
                                   | _ => ToString x
                                   end) items)
  | VObj _ => "[object Object]"
  end.

(** ToNumber. *)
Definition ToNumber (v : value) : number :=
  match v with
  | VUndefined => None
  | VNull => Some 0%Q
  | VBool b => Some (if b then 1%Q else 0%Q)
  | VNum n => n
  | VStr s => StringToNumber s
  | VArr _ | VObj _ => StringToNumber (ToString v)
  end.

(** [a > c] and [a >= c] against a numeric constant [c]. *)
Definition js_gt (a : value) (c : Q) : bool :=
  match ToNumber a with
  | Some q => negb (Qle_bool q c)
  | None => false
  end.

Definition js_ge (a : value) (c : Q) : bool :=
  match ToNumber a with
  | Some q => Qle_bool c q
  | None => false
  end.

(** Time value of [new Date(v)]: [None] is an invalid date. *)
Definition DateValue (v : value) : option Z :=
  match v with
  | VUndefined => None
  | VNull => Some 0
  | VBool b => Some (if b then 1 else 0)
  | VNum None => None
  | VNum (Some q) =>
      if Z.abs (Qnum q) <=? 8640000000000000 * Zpos (Qden q)
      then Some (Z.quot (Qnum q) (Zpos (Qden q)))
      else None
  | VStr s => Date_parse s
  | VArr _ | VObj _ => Date_parse (ToString v)
  end.

End Runtime.

(** ** The process environment *)

(** One entry of an RSS feed, as cut out of the XML by the item, title,
    description, link and pubDate regular expressions of [checkLocalNews]
    (a field that does not match reads as the empty string). *)
Record rssItem : Type := {
  item_title : string;
  item_desc : string;
  item_link : string;
  item_pubDate : string
}.

(** The state a script runs in.  [fs] maps a path to the value its content
    parses to: a file that is missing or is not JSON has no entry, since the
    scripts only ever read files through [JSON.parse(fs.readFileSync(..))].
    [http url] is what [await fetch(url)] evaluates to: the body of the reply,
    or [Thrown] for a rejected request (network error, non-2xx status, the
    10 s timeout).  [exec cmd] is the output of [execSync(cmd)].  [requests]
    records the URLs fetched so far.  The clock does not advance during a
    run. *)
Record world : Type := {
  clock : Z;
  fs : gmap string value;
  http : string -> outcome string;
  exec : string -> outcome string;
  requests : list string;
  stdout : list value;
  stderr : list string
}.

Definition set_fs (f : gmap string value -> gmap string value) (w : world) : world :=
  {| clock := clock w; fs := f (fs w); http := http w; exec := exec w;
     requests := requests w; stdout := stdout w; stderr := stderr w |}.

Definition add_request (url : string) (w : world) : world :=
  {| clock := clock w; fs := fs w; http := http w; exec := exec w;
     requests := requests w ++ [url]; stdout := stdout w; stderr := stderr w |}.

Definition add_requests (urls : list string) (w : world) : world :=
  {| clock := clock w; fs := fs w; http := http w; exec := exec w;
     requests := requests w ++ urls; stdout := stdout w; stderr := stderr w |}.

Definition add_stdout (v : value) (w : world) : world :=
  {| clock := clock w; fs := fs w; http := http w; exec := exec w;
     requests := requests w; stdout := stdout w ++ [v]; stderr := stderr w |}.

Definition add_stderr (s : string) (w : world) : world :=
  {| clock := clock w; fs := fs w; http := http w; exec := exec w;
     requests := requests w; stdout := stdout w; stderr := stderr w ++ [s] |}.

(** Computations: state passing with exceptions.  The state reached when an
    exception is thrown is kept, as in JavaScript. *)
Definition M (A : Type) : Type := world -> outcome A * world.

Definition ret {A} (a : A) : M A := fun w => (Returned a, w).

Definition bind {A B} (c : M A) (k : A -> M B) : M B :=
  fun w => match c w with
           | (Returned a, w') => k a w'
           | (Thrown e, w') => (Thrown e, w')
           end.

Definition throw {A} (e : string) : M A := fun w => (Thrown e, w).

Definition lift {A} (o : outcome A) : M A := fun w => (o, w).

(** [try { c } catch (e) { .. }], with the caught exception handed back. *)
Definition attempt {A} (c : M A) : M (outcome A) :=
  fun w => let (o, w') := c w in (Returned o, w').

Declare Scope js_scope.
Delimit Scope js_scope with js.
Notation "x <- c ;; k" := (bind c (fun x => k))
  (at level 100, c at next level, right associativity) : js_scope.
Notation "c ;;; k" := (bind c (fun _ => k))
  (at level 100, right associativity) : js_scope.
Local Open Scope js_scope.

Definition Date_now : M Z := fun w => (Returned (clock w), w).

(** [JSON.parse(fs.readFileSync(path, 'utf8'))]. *)
Definition readJSON (path : string) : M value :=
  fun w => match fs w !! path with
           | Some v => (Returned v, w)
           | None => (Thrown ("cannot read or parse " ++ path), w)
           end.

Definition unlinkSync (path : string) : M unit :=
  fun w => match fs w !! path with
           | Some _ => (Returned tt, set_fs (delete path) w)
           | None => (Thrown ("ENOENT: no such file, unlink " ++ path), w)
           end.

Definition console_log (v : value) : M unit := fun w => (Returned tt, add_stdout v w).
Definition console_error (s : string) : M unit := fun w => (Returned tt, add_stderr s w).

Definition fetch (url : string) : M string :=
  fun w => (http w url, add_request url w).

Definition execSync (cmd : string) : M string := fun w => (exec w cmd, w).

(** ** Strings and arrays *)

(** A JavaScript string is a sequence of UTF-16 code units.  A [string] here
    holds the text in UTF-8, as the files and the replies of the network hold
    it: one byte for a code unit below 128, two or three bytes for any other
    code unit that is not half of a surrogate pair, four bytes for a pair.
    Half a pair on its own, which only cutting a string can produce, is
    written as the three bytes of its own code.  Positions in a string are
    counted in code units; comparing two strings and searching one string in
    another give the same answer on the bytes and on the code units. *)

(** [s.includes(kw)]. *)
Fixpoint includes (s kw : string) : bool :=
  String.prefix kw s ||
  match s with
  | EmptyString => false
  | String _ s' => includes s' kw
  end.

(** A byte [10xxxxxx], which continues a sequence, and a byte [11110xxx],
    which starts a sequence of four bytes. *)
Definition is_continuation (c : ascii) : bool :=
  ((128 <=? N_of_ascii c) && (N_of_ascii c <? 192))%N.
Definition is_lead4 (c : ascii) : bool := (240 <=? N_of_ascii c)%N.

(** The code units a byte accounts for. *)
Definition utf16_units (c : ascii) : nat :=
  if is_continuation c then 0%nat else if is_lead4 c then 2%nat else 1%nat.

(** [s.length]. *)
Fixpoint utf16_length (s : string) : nat :=
  match s with
  | EmptyString => 0%nat
  | String c s' => (utf16_units c + utf16_length s')%nat
  end.

(** The continuation bytes at the head of a string, and what follows. *)
Fixpoint continuation (s : string) : string * string :=
  match s with
  | EmptyString => ("", "")
  | String c s' =>
      if is_continuation c then
        let (t, r) := continuation s' in (String c t, r)
      else ("", s)
  end.

(** The first half of the pair that the lead byte [c] and the continuation
    bytes [tail] encode: the code point is
    [(c mod 8) * 2^18 + (b1 mod 64) * 2^12 + (b2 mod 64) * 2^6 + b3 mod 64],
    and the high surrogate of a code point [p] is
    [0xD800 + (p - 0x10000) / 2^10]. *)
Definition high_surrogate (c : ascii) (tail : string) : string :=
  let byte k := match String.get k tail with
                | Some b => N_of_ascii b
                | None => 128%N
                end in
  let top := ((N_of_ascii c mod 8) * 256 + (byte 0%nat mod 64) * 4
              + (byte 1%nat mod 64) / 16)%N in
  let high := (55232 + top)%N in
  String (ascii_of_N 237)
    (String (ascii_of_N (128 + (high / 64) mod 64))
       (String (ascii_of_N (128 + high mod 64)) "")).

(** [s.slice(0, n)]: the first [n] code units. *)
Fixpoint slice0 (n : nat) (s : string) : string :=
  match n, s with
  | O, _ | _, EmptyString => ""
  | S n', String c s' =>
      let (tail, rest) := continuation s' in
      if is_lead4 c then
        match n' with
        | O => high_surrogate c tail
        | S n'' => String c (tail ++ slice0 n'' rest)
        end
      else String c (tail ++ slice0 n' rest)
  end.

(** [s.split(c)] for a one-character separator. *)
Fixpoint split_on (c : ascii) (s : string) : list string :=
  match s with
  | EmptyString => [""]
  | String a s' =>
      if Ascii.eqb a c then "" :: split_on c s'
      else match split_on c s' with
           | [] => [String a ""]
           | seg :: segs => String a seg :: segs
           end
  end.

(** [arr.map(f)] with a callback that may throw; a receiver that is not an
    array has no [map] method. *)
Fixpoint mapM {A B} (f : A -> outcome B) (l : list A) : outcome (list B) :=
  match l with
  | [] => Returned []
  | a :: l' =>
      match f a with
      | Thrown e => Thrown e
      | Returned b =>
          match mapM f l' with
          | Thrown e => Thrown e
          | Returned bs => Returned (b :: bs)
          end
      end
  end.

Fixpoint filterM {A} (p : A -> outcome bool) (l : list A) : outcome (list A) :=
  match l with
  | [] => Returned []
  | a :: l' =>
      match p a with
      | Thrown e => Thrown e
      | Returned b =>
          match filterM p l' with
          | Thrown e => Thrown e
          | Returned l'' => Returned (if b then a :: l'' else l'')
          end
      end
  end.

Definition as_array (method : string) (v : value) : outcome (list value) :=
  match v with
  | VArr items => Returned items
  | _ => Thrown ("TypeError: " ++ method ++ " is not a function")
  end.

Definition obind {A B} (o : outcome A) (k : A -> outcome B) : outcome B :=
  match o with
  | Returned a => k a
  | Thrown e => Thrown e
  end.

Notation "x <~ o ;; k" := (obind o (fun x => k))
  (at level 100, o at next level, right associativity) : js_scope.

(** What [JSON.parse(JSON.stringify(v))] gives back: properties holding
    [undefined] are dropped, [undefined] in an array and NaN become [null]. *)
Fixpoint jsonify (v : value) : value :=
  match v with
  | VUndefined => VNull
  | VNum None => VNull
  | VArr items => VArr (List.map jsonify items)
  | VObj fields =>
      VObj ((fix props (fs : list (string * value)) : list (string * value) :=
               match fs with
               | [] => []
               | (_, VUndefined) :: fs' => props fs'
               | (k, x) :: fs' => (k, jsonify x) :: props fs'
               end) fields)
  | _ => v
  end.

(** [fs.writeFileSync(path, JSON.stringify(v, null, 2))]. *)
Definition writeJSON (path : string) (v : value) : M unit :=
  fun w => (Returned tt, set_fs (insert path (jsonify v)) w).

(** [console.log(JSON.stringify(v))]. *)
Definition console_log_json (v : value) : M unit := console_log (jsonify v).

(** ** escalation-check.js *)

Definition STATE_FILE : string := "safety-state.json".
Definition ESCALATION_THRESHOLD_MS : Z := 15 * 60 * 1000.
Definition EMERGENCY_CONTACT : string := "ashuppal@gmail.com".
Definition EMERGENCY_CONTACT_NAME : string := "Ash".

(** [Math.round(x / d)] and [Math.ceil(x / d)] for an integer [x] and a
    positive integer [d]; NaN is propagated.  The script divides doubles: for
    differences of times in the range of [Date] and the divisors used here
    the quotient is off by less than the distance of [x / d] to the next
    rounding boundary, so the results agree. *)
Definition round_div (x : option Z) (d : Z) : option Z :=
  (fun e => (2 * e + d) / (2 * d)) <$> x.
Definition ceil_div (x : option Z) (d : Z) : option Z :=
  (fun e => - ((- e) / d)) <$> x.

Definition VIntN (x : option Z) : value := VNum (inject_Z <$> x).

(** The script prints one JSON object and exits; an exception that escapes
    [run] ends the process without output. *)
Section Escalation.
Context {rt : JSRuntime}.

Definition run : M unit :=
  r <- attempt (readJSON STATE_FILE) ;;
  match r with
  | Thrown _ =>
      console_log_json (VObj [("action", VStr "none"); ("reason", VStr "no state file")])
  | Returned state =>
      (* No pending alert *)
      pendingAlert <- lift (getProp state "pendingAlert") ;;
      noPending <- (if truthy pendingAlert
                    then (sentAt <- lift (getProp state "alertSentAt") ;;
                          ret (negb (truthy sentAt)))
                    else ret true) ;;
      if (noPending : bool) then
        console_log_json (VObj [("action", VStr "none"); ("reason", VStr "no pending alert")])
      else
      (* Already acknowledged *)
      acknowledgedAt <- lift (getProp state "acknowledgedAt") ;;
      if truthy acknowledgedAt then
        console_log_json (VObj [("action", VStr "none"); ("reason", VStr "already acknowledged")])
      else
      alertSentAt <- lift (getProp state "alertSentAt") ;;
      let alertTime := DateValue alertSentAt in
      now <- Date_now ;;
      let elapsed := (fun t => now - t) <$> alertTime in
      let elapsedMinutes := round_div elapsed 60000 in
      if (match elapsed with
          | Some e => ESCALATION_THRESHOLD_MS <=? e
          | None => false
          end)
      then
        (* Time to escalate! *)
        console_log_json (VObj [("action", VStr "escalate");
                           ("alert", pendingAlert);
                           ("alertSentAt", alertSentAt);
                           ("minutesPending", VIntN elapsedMinutes);
                           ("contact", VStr EMERGENCY_CONTACT);
                           ("contactName", VStr EMERGENCY_CONTACT_NAME)])
      else
        (* Still waiting *)
        let remaining :=
          ceil_div ((fun e => ESCALATION_THRESHOLD_MS - e) <$> elapsed) 60000 in
        console_log_json (VObj [("action", VStr "waiting");
                           ("alert", pendingAlert);
                           ("minutesPending", VIntN elapsedMinutes);
                           ("minutesRemaining", VIntN remaining)])
  end.

End Escalation.

(** The two ways a run of the script can end: one object printed, or an
    exception that escapes. *)
Definition emit (r : outcome value) : M unit :=
  match r with
  | Returned out => console_log out
  | Thrown e => throw e
  end.

(** ** safety-check.js *)

Definition LOCATION_FILE : string := "location.json".
Definition TEST_OVERRIDE_FILE : string := "test-override.json".
Definition LOGS_DIR : string := "logs".

(** The [monitoring] section of config.json.  The file is taken to be well
    formed, as setup.js writes it: the feed and keyword lists, when present,
    are arrays of strings.  An absent entry is [None]; [earthquakeRadiusKm]
    is any value. *)
Record monitoring_config : Type := {
  locationKeywords : option (list string);
  newsFeeds : option (list string);
  earthquakeRadiusKm : value
}.

Record config : Type := {
  monitoring : option monitoring_config
}.

(** The configuration [loadConfig] falls back to (Seattle). *)
Definition default_config : config :=
  {| monitoring := Some
       {| locationKeywords :=
            Some ["seattle"; "king county"; "puget sound"; "washington"];
          newsFeeds :=
            Some ["https://www.king5.com/feeds/syndication/rss/news/local";
                  "https://www.seattletimes.com/seattle-news/feed/"];
          earthquakeRadiusKm := VInt 100 |} |}.

Definition concerningKeywords : list string :=
  ["evacuate"; "evacuation order"; "shelter in place";
   "active shooter"; "shooting reported"; "shots fired";
   "wildfire"; "fire spreading"; "structure fire";
   "flash flood"; "flood warning"; "flooding";
   "landslide"; "mudslide"; "road closed";
   "gas leak"; "hazmat"; "chemical spill";
   "police standoff"; "lockdown"; "manhunt";
   "amber alert"; "silver alert"; "emergency alert";
   "power outage"; "outages reported"].

Definition excludeKeywords : list string :=
  ["verdict"; "sentenced"; "convicted"; "trial"; "lawsuit"; "sued";
   "years ago"; "last year"; "memorial"; "anniversary";
   "investigation concludes"; "report finds"; "study shows"].

(** An alert of the news adapter. *)
Record newsAlert : Type := {
  title : string;
  source : value;
  link : string;
  age : string
}.

Definition newsAlert_value (a : newsAlert) : value :=
  VObj [("title", VStr (title a)); ("source", source a);
        ("link", VStr (link a)); ("age", VStr (age a))].

(** The runtime functions the news adapter relies on. *)
Class NewsRuntime : Type := {
  (** [String.prototype.toLowerCase]. *)
  toLowerCase : string -> string;
  (** The items of a feed, as matched by the regular expressions. *)
  rss_items : string -> list rssItem
}.

(** A check result whose [ok] flag tells whether its [alerts] array is
    empty. *)
Definition ok_matches_alerts (check : value) : Prop :=
  exists alerts,
    getPropOpt check "alerts" = VArr alerts /\
    getPropOpt check "ok" = VBool (match alerts with [] => true | _ => false end).

Section SafetyCheck.
Context {rt : JSRuntime} {nrt : NewsRuntime}.
Variable CONFIG : config.

(** A result that reports no hazard because the source could not be read. *)
Definition fail_open (name e : string) : value :=
  VObj [("source", VStr name); ("ok", VBool true);
        ("error", VStr e); ("alerts", VArr [])].

Definition is_empty {A} (l : list A) : bool :=
  match l with [] => true | _ => false end.

(** [f.properties.description?.slice(0, 500)]. *)
Definition description_slice (d : value) : outcome value :=
  match d with
  | VUndefined | VNull => Returned VUndefined
  | VStr s => Returned (VStr (slice0 500 s))
  | VArr items => Returned (VArr (take 500 items))
  | _ => Thrown "TypeError: f.properties.description?.slice is not a function"
  end.

Definition nws_alert (f : value) : outcome value :=
  p <~ getProp f "properties" ;;
  event <~ getProp p "event" ;;
  severity <~ getProp p "severity" ;;
  headline <~ getProp p "headline" ;;
  d <~ getProp p "description" ;;
  description <~ description_slice d ;;
  expires <~ getProp p "expires" ;;
  Returned (VObj [("event", event); ("severity", severity);
                  ("headline", headline); ("description", description);
                  ("expires", expires)]).

Definition nws_url (lat lon : value) : string :=
  "https://api.weather.gov/alerts/active?point=" ++ ToString lat ++ "," ++ ToString lon.

(** NWS Alerts - National Weather Service *)
Definition checkNWSAlerts (lat lon : value) : M value :=
  r <- attempt (
    let url := nws_url lat lon in
    text <- fetch url ;;
    data <- lift (JSON_parse text) ;;
    features <- lift (getProp data "features") ;;
    items <- lift (as_array "(data.features || []).map" (js_or features (VArr []))) ;;
    alerts <- lift (mapM nws_alert items) ;;
    ret (VObj [("source", VStr "NWS"); ("ok", VBool (is_empty alerts));
               ("alerts", VArr alerts)])) ;;
  match r with
  | Returned res => ret res
  | Thrown e => ret (fail_open "NWS" e)
  end.

Definition notable_quake (f : value) : outcome bool :=
  p <~ getProp f "properties" ;;
  mag <~ getProp p "mag" ;;
  Returned (js_ge mag (5 # 2)).

Definition quake_alert (f : value) : outcome value :=
  p <~ getProp f "properties" ;;
  mag <~ getProp p "mag" ;;
  place <~ getProp p "place" ;;
  time <~ getProp p "time" ;;
  iso <~ match DateValue time with
         | Some t => Returned (toISOString t)
         | None => Thrown "RangeError: Invalid time value"
         end ;;
  Returned (VObj [("magnitude", mag); ("place", place);
                  ("time", VStr iso); ("distance", place)]).

Definition radiusKm : value :=
  js_or (match monitoring CONFIG with
         | Some m => earthquakeRadiusKm m
         | None => VUndefined
         end) (VInt 100).

Definition usgs_url (lat lon : value) (now : Z) : string :=
  "https://earthquake.usgs.gov/fdsnws/event/1/query?format=geojson&latitude=" ++
  ToString lat ++ "&longitude=" ++ ToString lon ++
  "&maxradiuskm=" ++ ToString radiusKm ++
  "&starttime=" ++ toISOString (now - 86400000).

(** USGS Earthquakes - past 24h within 100km *)
Definition checkEarthquakes (lat lon : value) : M value :=
  r <- attempt (
    now <- Date_now ;;
    let url := usgs_url lat lon now in
    text <- fetch url ;;
    data <- lift (JSON_parse text) ;;
    features <- lift (getProp data "features") ;;
    items <- lift (as_array "(data.features || []).filter" (js_or features (VArr []))) ;;
    notable <- lift (filterM notable_quake items) ;;
    quakes <- lift (mapM quake_alert notable) ;;
    ret (VObj [("source", VStr "USGS"); ("ok", VBool (is_empty quakes));
               ("alerts", VArr quakes)])) ;;
  match r with
  | Returned res => ret res
  | Thrown e => ret (fail_open "USGS" e)
  end.

Definition aqi_url (lat lon : value) : string :=
  "https://air-quality-api.open-meteo.com/v1/air-quality?latitude=" ++
  ToString lat ++ "&longitude=" ++ ToString lon ++ "&current=us_aqi,pm10,pm2_5".

(** Air Quality (Open-Meteo air quality API) *)
Definition checkAirQuality (lat lon : value) : M value :=
  r <- attempt (
    let url := aqi_url lat lon in
    text <- fetch url ;;
    data <- lift (JSON_parse text) ;;
    current <- lift (getProp data "current") ;;
    let aqi := js_or (getPropOpt current "us_aqi") (VInt 0) in
    let '(level, concern) :=
      if js_gt aqi 150 then ("Unhealthy", true)
      else if js_gt aqi 100 then ("Unhealthy for Sensitive Groups", true)
      else if js_gt aqi 50 then ("Moderate", false)
      else ("Good", false) in
    ret (VObj [("source", VStr "AirQuality");
               ("ok", VBool (negb concern));
               ("alerts", VArr (if concern : bool
                                then [VObj [("aqi", aqi); ("level", VStr level);
                                            ("pm25", getPropOpt current "pm2_5")]]
                                else []));
               ("current", VObj [("aqi", aqi); ("level", VStr level)])])) ;;
  match r with
  | Returned res => ret res
  | Thrown e => ret (fail_open "AirQuality" e)
  end.

(** Local News RSS - check local feeds for concerning keywords *)

Definition feeds : list string :=
  default ["https://www.king5.com/feeds/syndication/rss/news/local";
           "https://www.seattletimes.com/seattle-news/feed/"]
          (m ← monitoring CONFIG; newsFeeds m).

Definition keywords : list string :=
  default ["seattle"; "king county"] (m ← monitoring CONFIG; locationKeywords m).

(** The body of the loop over the items of one feed: the alert the item
    gives rise to, if it is concerning, local, recent and not historical. *)
Definition item_alert (now : Z) (feedUrl : string) (item : rssItem) : option newsAlert :=
  let content := toLowerCase (item_title item ++ " " ++ item_desc item) in
  let isConcerning := existsb (includes content) concerningKeywords in
  let isHistorical := existsb (includes content) excludeKeywords in
  let isLocal := existsb (includes content) keywords in
  let pubTime := Date_parse (item_pubDate item) in
  let elapsed := (fun t => now - t) <$> pubTime in
  let isRecent := match elapsed with
                  | Some e => e <? 86400000
                  | None => false
                  end in
  if isConcerning && isLocal && isRecent && negb isHistorical then
    Some {| title := slice0 200 (item_title item);
            source := match nth_error (split_on "/" feedUrl) 2 with
                      | Some host => VStr host
                      | None => VUndefined
                      end;
            link := item_link item;
            age := ToString (VIntN (round_div elapsed 3600000)) ++ "h ago" |}
  else None.

(** One iteration of the loop over the feeds: a feed that cannot be fetched
    is skipped silently. *)
Definition feed_alerts (feedUrl : string) : M (list newsAlert) :=
  r <- attempt (
    xml <- fetch feedUrl ;;
    now <- Date_now ;;
    ret (omap (item_alert now feedUrl) (take 15 (rss_items xml)))) ;;
  match r with
  | Returned found => ret found
  | Thrown _ => ret []
  end.

Fixpoint all_feed_alerts (urls : list string) : M (list newsAlert) :=
  match urls with
  | [] => ret []
  | feedUrl :: urls' =>
      found <- feed_alerts feedUrl ;;
      more <- all_feed_alerts urls' ;;
      ret (found ++ more)%list
  end.

Definition dedupe_key (a : newsAlert) : string :=
  toLowerCase (slice0 50 (title a)).

(** Dedupe by title similarity: the [filter] whose callback consults and
    extends the set [seen]. *)
Fixpoint dedupe (seen : gset string) (alerts : list newsAlert) : list newsAlert :=
  match alerts with
  | [] => []
  | a :: alerts' =>
      let key := dedupe_key a in
      if decide (key ∈ seen) then dedupe seen alerts'
      else a :: dedupe ({[key]} ∪ seen) alerts'
  end.

Definition checkLocalNews (lat lon : value) : M value :=
  alerts <- all_feed_alerts feeds ;;
  let unique := dedupe ∅ alerts in
  ret (VObj [("source", VStr "LocalNews"); ("ok", VBool (is_empty unique));
             ("alerts", VArr (newsAlert_value <$> take 5 unique))]).

(** Brave Search for breaking news (fallback) *)
Definition searchBreakingNews (lat lon : value) : M value :=
  ret (VObj [("source", VStr "WebSearch"); ("ok", VBool true);
             ("alerts", VArr []); ("skipped", VBool true)]).

(** Get current location *)
Definition getLocation : M value :=
  r <- attempt (readJSON LOCATION_FILE) ;;
  match r with
  | Returned location => ret location
  | Thrown _ => ret VNull
  end.

(** [new Date(v) < new Date()]. *)
Definition date_before (v : value) (now : Z) : bool :=
  match DateValue v with
  | Some t => t <? now
  | None => false
  end.

(** Check for test overrides *)
Definition getTestOverride : M value :=
  r <- attempt (
    override <- readJSON TEST_OVERRIDE_FILE ;;
    expiresAt <- lift (getProp override "_expiresAt") ;;
    now <- Date_now ;;
    (* Check if expired *)
    if truthy expiresAt && date_before expiresAt now then
      unlinkSync TEST_OVERRIDE_FILE ;;;
      ret VNull
    else
      scenario <- lift (getProp override "_scenario") ;;
      console_error ("TEST MODE: Using injected test scenario: " ++ ToString scenario) ;;;
      ret override) ;;
  match r with
  | Returned override => ret override
  | Thrown _ => ret VNull
  end.

(** [if (testOverride.k) c = testOverride.k]: the override, when it has a
    truthy entry for the source, replaces the adapter's result. *)
Definition apply_override (testOverride : value) (k : string) (c : value) : value :=
  if truthy (getPropOpt testOverride k) then getPropOpt testOverride k else c.

(** [iso.replace(/[:.]/g, '-')]. *)
Fixpoint replace_colon_dot (s : string) : string :=
  match s with
  | EmptyString => EmptyString
  | String c s' =>
      String (if Ascii.eqb c ":" || Ascii.eqb c "." then "-"%char else c)
             (replace_colon_dot s')
  end.

(** The report of a run that went through. *)
Definition report (now : Z) (location nws usgs aqi news : value) : list (string * value) :=
  let allClear :=
    js_and (js_and (js_and (getPropOpt nws "ok") (getPropOpt usgs "ok"))
                   (getPropOpt aqi "ok"))
           (getPropOpt news "ok") in
  [("timestamp", VStr (toISOString now));
   ("location", VObj [("lat", getPropOpt location "lat");
                      ("lon", getPropOpt location "lon");
                      ("updatedAt", getPropOpt location "receivedAt")]);
   ("status", VStr (if truthy allClear then "ALL_CLEAR" else "ALERTS_FOUND"));
   ("checks", VObj [("nws", nws); ("usgs", usgs); ("aqi", aqi); ("news", news)])].

(** Main safety check.  The four adapters started by [Promise.all] share no
    state, so they are run one after the other.  Property reads on [location]
    after the guard, on a truthy [testOverride] and on the four checks cannot
    throw, and are written with [getPropOpt]. *)
Definition runSafetyCheck : M value :=
  location <- getLocation ;;
  if negb (truthy location) || negb (truthy (getPropOpt location "lat"))
     || negb (truthy (getPropOpt location "lon"))
  then
    now <- Date_now ;;
    ret (VObj [("error", VStr "No location data available");
               ("timestamp", VStr (toISOString now))])
  else
    let lat := getPropOpt location "lat" in
    let lon := getPropOpt location "lon" in
    testOverride <- getTestOverride ;;
    console_error ("Running safety check for " ++ ToString lat ++ ", " ++
                   ToString lon ++ "...") ;;;
    nws <- checkNWSAlerts lat lon ;;
    usgs <- checkEarthquakes lat lon ;;
    aqi <- checkAirQuality lat lon ;;
    news <- checkLocalNews lat lon ;;
    (* Apply test overrides if present *)
    let '(nws, usgs, aqi, news) :=
      if truthy testOverride then
        (apply_override testOverride "nws" nws,
         apply_override testOverride "usgs" usgs,
         apply_override testOverride "aqi" aqi,
         apply_override testOverride "news" news)
      else (nws, usgs, aqi, news) in
    now <- Date_now ;;
    let result := report now location nws usgs aqi news in
    (* Write to timestamped log file *)
    let timestamp := slice0 19 (replace_colon_dot (toISOString now)) in
    let logFile := LOGS_DIR ++ "/" ++ timestamp ++ "_safety.json" in
    let logEntry :=
      (result ++
       [("meta", VObj [("logFile", VStr logFile);
          ("checksPerformed", VObj [
             ("nws", VStr ("https://api.weather.gov/alerts/active?point=" ++
                           ToString lat ++ "," ++ ToString lon));
             ("usgs", VStr ("https://earthquake.usgs.gov/fdsnws/event/1/query?format=geojson&latitude=" ++
                            ToString lat ++ "&longitude=" ++ ToString lon ++
                            "&maxradiuskm=100"));
             ("aqi", VStr ("https://air-quality-api.open-meteo.com/v1/air-quality?latitude=" ++
                           ToString lat ++ "&longitude=" ++ ToString lon));
             ("news", VStr "king5.com, seattletimes.com, patch.com/redmond")])])])%list in
    writeJSON logFile (VObj logEntry) ;;;
    console_error ("Log written: " ++ logFile) ;;;
    (* Output JSON *)
    console_log_json (VObj result) ;;;
    ret (VObj result).

End SafetyCheck.

(** ** self-check.js *)

Definition MY_LOCATION_FILE : string := "my-location.json".

Definition dq : string := String (ascii_of_nat 34) "".

(** The commands of the system health probes. *)
Definition MEMORY_CMD : string :=
  "memory_pressure 2>&1 | grep " ++ dq ++ "free percentage" ++ dq.
Definition DISK_CMD : string := "df -h / | tail -1".
Definition TEMPERATURE_CMD : string :=
  "sudo powermetrics --samplers smc -i1 -n1 2>/dev/null | grep -i " ++
  dq ++ "CPU die temperature" ++ dq ++ " || echo " ++ dq ++ "temp: 50" ++ dq.
Definition UPTIME_CMD : string := "uptime".

Definition is_digit (c : ascii) : bool :=
  let n := nat_of_ascii c in (48 <=? n)%nat && (n <=? 57)%nat.

(** The longest run of digits at the head of a string, and what follows. *)
Fixpoint span_digits (s : string) : string * string :=
  match s with
  | EmptyString => ("", "")
  | String c s' =>
      if is_digit c then
        let (d, r) := span_digits s' in (String c d, r)
      else ("", s)
  end.

(** [parseInt] of a run of digits. *)
Fixpoint digits_value (acc : Z) (s : string) : Z :=
  match s with
  | EmptyString => acc
  | String c s' => digits_value (10 * acc + (Z.of_nat (nat_of_ascii c) - 48)) s'
  end.

(** Group 1 of the leftmost match of [/(\d+)%/]. *)
Fixpoint match_percent (s : string) : option string :=
  match s with
  | EmptyString => None
  | String _ s' =>
      match span_digits s with
      | (String _ _ as d, String "%" _) => Some d
      | _ => match_percent s'
      end
  end.

(** Group 1 of the leftmost match of the temperature pattern (digits, an
    optional point, digits), as its integer and fractional digits. *)
Fixpoint match_decimal (s : string) : option (string * string) :=
  match s with
  | EmptyString => None
  | String _ s' =>
      match span_digits s with
      | (String _ _ as d, r) =>
          Some (d, match r with
                   | String "." r' => fst (span_digits r')
                   | _ => ""
                   end)
      | _ => match_decimal s'
      end
  end.

(** Group 1 of the leftmost match of [/up (\d+) days/]. *)
Fixpoint match_up_days (s : string) : option string :=
  match s with
  | EmptyString => None
  | String _ s' =>
      match s with
      | String "u" (String "p" (String " " r)) =>
          match span_digits r with
          | (String _ _ as d, r') =>
              if String.prefix " days" r' then Some d else match_up_days s'
          | _ => match_up_days s'
          end
      | _ => match_up_days s'
      end
  end.

(** [parseFloat] of the digits matched by [match_decimal]. *)
Definition decimal_value (d f : string) : Q :=
  (inject_Z (digits_value 0 d) +
   inject_Z (digits_value 0 f) / inject_Z (10 ^ Z.of_nat (String.length f)))%Q.

(** An alert of the self check. *)
Record hostAlert : Type := {
  alert_type : string;
  alert_severity : string;
  alert_message : value
}.

Definition hostAlert_value (a : hostAlert) : value :=
  VObj [("type", VStr (alert_type a)); ("severity", VStr (alert_severity a));
        ("message", alert_message a)].

Definition host_alert (ty sev msg : string) : hostAlert :=
  {| alert_type := ty; alert_severity := sev; alert_message := VStr msg |}.

(** [try { out = execSync(cmd); .. } catch (e) {}] around a block that
    pushes the alerts [k out]. *)
Definition probe (cmd : string) (k : string -> list hostAlert) : M (list hostAlert) :=
  r <- attempt (execSync cmd) ;;
  match r with
  | Returned out => ret (k out)
  | Thrown _ => ret []
  end.

Section SelfCheck.
Context {rt : JSRuntime} {nrt : NewsRuntime}.

Definition show (z : Z) : string := NumberToString (inject_Z z).

Definition memory_alerts (memOutput : string) : list hostAlert :=
  let memFree := match match_percent memOutput with
                 | Some d => digits_value 0 d
                 | None => 100
                 end in
  if memFree <? 20 then
    [host_alert "memory" "critical" ("Memory critically low: " ++ show memFree ++ "% free")]
  else if memFree <? 40 then
    [host_alert "memory" "warning" ("Memory getting low: " ++ show memFree ++ "% free")]
  else [].

Definition disk_alerts (dfOutput : string) : list hostAlert :=
  let diskUsed := match match_percent dfOutput with
                  | Some d => digits_value 0 d
                  | None => 0
                  end in
  if 95 <? diskUsed then
    [host_alert "disk" "critical" ("Disk almost full: " ++ show diskUsed ++ "% used")]
  else if 85 <? diskUsed then
    [host_alert "disk" "warning" ("Disk getting full: " ++ show diskUsed ++ "% used")]
  else [].

Definition temperature_alerts (tempOutput : string) : list hostAlert :=
  let temp := match match_decimal tempOutput with
              | Some (d, f) => decimal_value d f
              | None => 50%Q
              end in
  if negb (Qle_bool temp 95) then
    [host_alert "temperature" "critical" ("CPU overheating: " ++ NumberToString temp ++ "°C")]
  else if negb (Qle_bool temp 85) then
    [host_alert "temperature" "warning" ("CPU running hot: " ++ NumberToString temp ++ "°C")]
  else [].

Definition uptime_alerts (uptimeOutput : string) : list hostAlert :=
  let days := match match_up_days uptimeOutput with
              | Some d => digits_value 0 d
              | None => 0
              end in
  if 30 <? days then
    [host_alert "uptime" "info"
       ("System has been up " ++ show days ++ " days - consider a restart soon")]
  else [].

Definition is_info (a : hostAlert) : bool := String.eqb (alert_severity a) "info".
Definition is_critical (a : hostAlert) : bool := String.eqb (alert_severity a) "critical".

Definition host_result (name : string) (ok : bool) (alerts : list hostAlert) : value :=
  VObj [("source", VStr name); ("ok", VBool ok);
        ("alerts", VArr (hostAlert_value <$> alerts))].

(** System health checks: the adapter's result is [host_result "System"]
    of the pair computed here. *)
Definition systemHealth : M (bool * list hostAlert) :=
  mem <- probe MEMORY_CMD memory_alerts ;;
  disk <- probe DISK_CMD disk_alerts ;;
  temp <- probe TEMPERATURE_CMD temperature_alerts ;;
  up <- probe UPTIME_CMD uptime_alerts ;;
  let alerts := (mem ++ disk ++ temp ++ up)%list in
  ret (is_empty (List.filter (fun a => negb (is_info a)) alerts), alerts).

Definition checkSystemHealth : M value :=
  r <- systemHealth ;;
  ret (host_result "System" (fst r) (snd r)).

(** The values a [for .. of] loop ranges over. *)
Definition iterate (v : value) : outcome (list value) :=
  match v with
  | VArr items => Returned items
  | VStr s => Returned ((fun c => VStr (String c "")) <$> list_ascii_of_string s)
  | _ => Thrown "TypeError: object is not iterable"
  end.

(** A loop that pushes alerts inside a [try]: what was pushed before an
    exception stays in the array. *)
Fixpoint push_each (body : value -> outcome (list hostAlert)) (items : list value)
  : list hostAlert :=
  match items with
  | [] => []
  | x :: items' =>
      match body x with
      | Returned pushed => (pushed ++ push_each body items')%list
      | Thrown _ => []
      end
  end.

Definition weather_threat (feature : value) : outcome (list hostAlert) :=
  props <~ getProp feature "properties" ;;
  severity <~ getProp props "severity" ;;
  match severity with
  | VStr sev =>
      if String.eqb sev "Extreme" || String.eqb sev "Severe" then
        Returned [{| alert_type := "weather";
                     alert_severity := toLowerCase sev;
                     alert_message := js_or (getPropOpt props "headline")
                                            (getPropOpt props "event") |}]
      else Returned []
  | _ => Returned []
  end.

Definition quake_threat (feature : value) : outcome (list hostAlert) :=
  props <~ getProp feature "properties" ;;
  mag <~ getProp props "mag" ;;
  Returned [host_alert "earthquake"
              (if js_ge mag 5 then "critical" else "warning")
              ("M" ++ ToString mag ++ " earthquake: " ++
               ToString (getPropOpt props "place"))].

(** One of the two guarded blocks of [checkEnvironmentalThreats]. *)
Definition threats_from (url : string) (body : value -> outcome (list hostAlert))
  : M (list hostAlert) :=
  r <- attempt (
    text <- fetch url ;;
    data <- lift (JSON_parse text) ;;
    features <- lift (getProp data "features") ;;
    items <- lift (iterate (js_or features (VArr []))) ;;
    ret (push_each body items)) ;;
  match r with
  | Returned pushed => ret pushed
  | Thrown _ => ret []
  end.

(** Environmental threats at my location: the adapter's result is
    [host_result "Environmental"] of the pair computed here. *)
Definition environmentalThreats (lat lon : value) : M (bool * list hostAlert) :=
  weather <- threats_from ("https://api.weather.gov/alerts/active?point=" ++
                           ToString lat ++ "," ++ ToString lon) weather_threat ;;
  now <- Date_now ;;
  quakes <- threats_from
    ("https://earthquake.usgs.gov/fdsnws/event/1/query?format=geojson&latitude=" ++
     ToString lat ++ "&longitude=" ++ ToString lon ++
     "&maxradiuskm=50&starttime=" ++ toISOString (now - 3600000) ++
     "&minmagnitude=4") quake_threat ;;
  let alerts := (weather ++ quakes)%list in
  ret (is_empty alerts, alerts).

Definition checkEnvironmentalThreats (lat lon : value) : M value :=
  r <- environmentalThreats lat lon ;;
  ret (host_result "Environmental" (fst r) (snd r)).

(** Network connectivity check: the adapter's result is
    [host_result "Network"] of the pair computed here. *)
Definition connectivity : M (bool * list hostAlert) :=
  ts <- attempt (
    tsOutput <- execSync ("tailscale status --json 2>/dev/null || echo " ++
                          dq ++ "{}" ++ dq) ;;
    tsData <- lift (JSON_parse tsOutput) ;;
    state <- lift (getProp tsData "BackendState") ;;
    ret (if truthy state &&
            negb (match state with VStr s => String.eqb s "Running" | _ => false end)
         then [host_alert "network" "warning"
                 ("Tailscale not running: " ++ ToString state)]
         else [])) ;;
  let tailscale := match ts with Returned pushed => pushed | Thrown _ => [] end in
  net <- attempt (fetch "https://api.weather.gov/") ;;
  let internet := match net with
                  | Returned _ => []
                  | Thrown _ => [host_alert "network" "critical"
                                   "Internet connectivity issues detected"]
                  end in
  let alerts := (tailscale ++ internet)%list in
  ret (is_empty alerts, alerts).

Definition checkConnectivity : M value :=
  r <- connectivity ;;
  ret (host_result "Network" (fst r) (snd r)).

(** Main self check.  Destructuring [lat] and [lon] out of a [null] location
    throws. *)
Definition runSelfCheck : M value :=
  r <- attempt (readJSON MY_LOCATION_FILE) ;;
  match r with
  | Thrown _ =>
      now <- Date_now ;;
      ret (VObj [("error", VStr "No location configured for self");
                 ("timestamp", VStr (toISOString now))])
  | Returned myLocation =>
      lat <- lift (getProp myLocation "lat") ;;
      lon <- lift (getProp myLocation "lon") ;;
      console_error ("Running self-check for Mac mini at " ++ ToString lat ++ ", " ++
                     ToString lon ++ "...") ;;;
      system <- systemHealth ;;
      environment <- environmentalThreats lat lon ;;
      network <- connectivity ;;
      let allClear := fst system && fst environment && fst network in
      let criticalAlerts :=
        (List.filter is_critical (snd system) ++
         List.filter is_critical (snd environment) ++
         List.filter is_critical (snd network))%list in
      now <- Date_now ;;
      let result :=
        VObj [("timestamp", VStr (toISOString now));
              ("location", myLocation);
              ("status", VStr (if negb (is_empty criticalAlerts) then "CRITICAL"
                               else if allClear then "ALL_CLEAR" else "WARNINGS"));
              ("checks", VObj [
                 ("system", host_result "System" (fst system) (snd system));
                 ("environment",
                  host_result "Environmental" (fst environment) (snd environment));
                 ("network", host_result "Network" (fst network) (snd network))])] in
      console_log_json result ;;;
      ret result
  end.

End SelfCheck.

(** ** A concrete runtime

    An instance of the runtime interfaces on which the scripts can be
    evaluated: dates in the format [toISOString] prints, decimal numerals,
    ASCII case folding.  The statements below hold for every runtime; this
    one serves to run the scripts on concrete inputs. *)
Module Sample.

(** Days since 1970-01-01 of a civil date, and back. *)
Definition days_from_civil (y m d : Z) : Z :=
  let y := if m <=? 2 then y - 1 else y in
  let era := y / 400 in
  let yoe := y - era * 400 in
  let doy := (153 * (if 2 <? m then m - 3 else m + 9) + 2) / 5 + d - 1 in
  let doe := yoe * 365 + yoe / 4 - yoe / 100 + doy in
  era * 146097 + doe - 719468.

Definition civil_from_days (z : Z) : Z * Z * Z :=
  let z := z + 719468 in
  let era := z / 146097 in
  let doe := z - era * 146097 in
  let yoe := (doe - doe / 1460 + doe / 36524 - doe / 146096) / 365 in
  let doy := doe - (365 * yoe + yoe / 4 - yoe / 100) in
  let mp := (5 * doy + 2) / 153 in
  let d := doy - (153 * mp + 2) / 5 + 1 in
  let m := if mp <? 10 then mp + 3 else mp - 9 in
  ((yoe + era * 400 + (if m <=? 2 then 1 else 0)), m, d).

Definition all_digits (s : string) : bool :=
  forallb is_digit (list_ascii_of_string s).

Definition field (s : string) (start len : nat) : option Z :=
  let f := substring start len s in
  if (String.length f =? len)%nat && all_digits f then Some (digits_value 0 f) else None.

Definition char_at (s : string) (i : nat) (c : ascii) : bool :=
  match String.get i s with
  | Some c' => Ascii.eqb c c'
  | None => false
  end.

(** [YYYY-MM-DDTHH:MM:SSZ] and [YYYY-MM-DDTHH:MM:SS.mmmZ]. *)
Definition parse_iso (s : string) : option Z :=
  y ← field s 0 4; mo ← field s 5 2; d ← field s 8 2;
  h ← field s 11 2; mi ← field s 14 2; sec ← field s 17 2;
  ms ← (if (String.length s =? 20)%nat && char_at s 19 "Z" then Some 0
        else if (String.length s =? 24)%nat && char_at s 19 "." && char_at s 23 "Z"
             then field s 20 3 else None);
  if char_at s 4 "-" && char_at s 7 "-" && char_at s 10 "T" &&
     char_at s 13 ":" && char_at s 16 ":" &&
     (1 <=? mo) && (mo <=? 12) && (1 <=? d) && (d <=? 31) &&
     (h <? 24) && (mi <? 60) && (sec <? 60)
  then Some ((((days_from_civil y mo d * 24 + h) * 60 + mi) * 60 + sec) * 1000 + ms)
  else None.

Fixpoint digits_of (fuel : nat) (n : Z) (acc : string) : string :=
  match fuel with
  | O => acc
  | S fuel' =>
      let acc' := String (ascii_of_nat (48 + Z.to_nat (n mod 10))) acc in
      if n <? 10 then acc' else digits_of fuel' (n / 10) acc'
  end.

Definition show_nat (n : Z) : string := digits_of (S (Z.to_nat (Z.log2 n))) n "".

Definition show_int (z : Z) : string :=
  if z <? 0 then "-" ++ show_nat (- z) else show_nat z.

Fixpoint zeros (n : nat) : string :=
  match n with
  | O => ""
  | S n' => String "0" (zeros n')
  end.

Definition pad (width : nat) (s : string) : string :=
  zeros (width - String.length s) ++ s.

Definition print_iso (t : Z) : string :=
  let days := t / 86400000 in
  let ms := t mod 86400000 in
  let '(y, m, d) := civil_from_days days in
  pad 4 (show_int y) ++ "-" ++ pad 2 (show_int m) ++ "-" ++ pad 2 (show_int d) ++
  "T" ++ pad 2 (show_int (ms / 3600000)) ++ ":" ++
  pad 2 (show_int (ms / 60000 mod 60)) ++ ":" ++
  pad 2 (show_int (ms / 1000 mod 60)) ++ "." ++ pad 3 (show_int (ms mod 1000)) ++ "Z".

Fixpoint fraction_digits (fuel : nat) (r den : Z) : string :=
  match fuel with
  | O => ""
  | S fuel' =>
      if r =? 0 then ""
      else String (ascii_of_nat (48 + Z.to_nat (10 * r / den)))
                  (fraction_digits fuel' (10 * r mod den) den)
  end.

(** Decimal notation, with at most 17 digits after the point. *)
Definition show_number (q : Q) : string :=
  let n := Z.abs (Qnum q) in
  let den := Zpos (Qden q) in
  let frac := fraction_digits 17 (n mod den) den in
  (if (Qnum q <? 0) && negb (n =? 0) then "-" else "") ++ show_nat (n / den) ++
  (if String.eqb frac "" then "" else "." ++ frac).

Definition parse_number (s : string) : number :=
  if negb (String.eqb s "") && all_digits s then Some (inject_Z (digits_value 0 s))
  else None.

Definition lower (c : ascii) : ascii :=
  let n := nat_of_ascii c in
  if (65 <=? n)%nat && (n <=? 90)%nat then ascii_of_nat (n + 32) else c.

Fixpoint lowercase (s : string) : string :=
  match s with
  | EmptyString => EmptyString
  | String c s' => String (lower c) (lowercase s')
  end.

(** Only the empty object is recognised. *)
Definition parse_json (s : string) : outcome value :=
  if String.eqb s "{}" then Returned (VObj [])
  else Thrown "SyntaxError: Unexpected token".

#[export] Instance runtime : JSRuntime :=
  {| Date_parse := parse_iso;
     toISOString := print_iso;
     StringToNumber := parse_number;
     NumberToString := show_number;
     JSON_parse := parse_json |}.

#[export] Instance news_runtime : NewsRuntime :=
  {| toLowerCase := lowercase;
     rss_items := fun _ => [] |}.

(** A machine with the given files at the given time, cut off from the
    network and unable to run commands. *)
Definition offline (now : Z) (files : gmap string value) : world :=
  {| clock := now; fs := files;
     http := fun _ => Thrown "getaddrinfo ENOTFOUND";
     exec := fun _ => Thrown "spawnSync /bin/sh ENOENT";
     requests := []; stdout := []; stderr := [] |}.

(** safety-state.json as the skill's documentation shows it: an alert sent
    at 22:00:00 and not acknowledged. *)
Definition pending_state : value :=
  VObj [("pendingAlert", VStr "Flood warning in your area");
        ("alertSentAt", VStr "2026-01-29T22:00:00Z");
        ("acknowledgedAt", VNull)].

(** The same alert, acknowledged at 22:19:00. *)
Definition acknowledged_state : value :=
  VObj [("pendingAlert", VStr "Flood warning in your area");
        ("alertSentAt", VStr "2026-01-29T22:00:00Z");
        ("acknowledgedAt", VStr "2026-01-29T22:19:00Z")].

(** 2026-01-29T22:00:00Z. *)
Definition t0 : Z := 1769724000000.

(** location.json for a fix in Seattle, and for one on the prime meridian
    (the Royal Observatory, Greenwich). *)
Definition seattle : value :=
  VObj [("lat", VNum (Some (476062 # 10000))); ("lon", VNum (Some (-1223321 # 10000)));
        ("receivedAt", VStr "2026-01-29T21:58:00.000Z")].

Definition greenwich : value :=
  VObj [("lat", VNum (Some (514779 # 10000))); ("lon", VInt 0);
        ("receivedAt", VStr "2026-01-29T21:58:00.000Z")].

(** test-override.json as [node test-scenarios.js earthquake] writes it at
    22:00:00: it expires one hour later. *)
Definition earthquake_override : value :=
  VObj [("usgs", VObj [("source", VStr "USGS"); ("ok", VBool false);
                       ("alerts", VArr [VObj [
                          ("magnitude", VNum (Some (52 # 10)));
                          ("place", VStr "TEST: 3km NE of Redmond, Washington");
                          ("time", VStr "2026-01-29T22:00:00.000Z");
                          ("distance", VStr "3km away")]])]);
        ("_test", VBool true);
        ("_scenario", VStr "earthquake");
        ("_createdAt", VStr "2026-01-29T22:00:00.000Z");
        ("_expiresAt", VStr "2026-01-29T23:00:00.000Z")].

Definition headline (t : string) : newsAlert :=
  {| title := t; source := VStr "www.king5.com";
     link := "https://www.king5.com/article"; age := "1h ago" |}.

(** The titles of seven items of a feed: five stories, then one story twice,
    the second time with another capitalisation and a suffix.  Each title
    holds a concerning keyword and one of the location keywords of the
    default configuration, and no excluding keyword. *)
Definition busy_titles : list string :=
  ["Flash flood warning in effect for King County rivers";
   "Wildfire near Seattle suburbs is spreading east";
   "Power outage hits downtown Seattle after storm";
   "Landslide leaves road closed in King County foothills";
   "Police standoff in Seattle ends with lockdown lifted";
   "Gas leak prompts evacuation order in the Ballard area of Seattle";
   "GAS LEAK prompts evacuation order in the Ballard area of Seattle - update"].

(** The alerts these items give rise to when they are found, one hour after
    their publication, in the first feed of the default configuration. *)
Definition busy_feed : list newsAlert := headline <$> busy_titles.

(** The items themselves, published at 21:00:00, and the feed they are in. *)
Definition story (t : string) : rssItem :=
  {| item_title := t; item_desc := "";
     item_link := "https://www.king5.com/article";
     item_pubDate := "2026-01-29T21:00:00Z" |}.

Definition busy_items : list rssItem := story <$> busy_titles.

Definition king5_feed : string :=
  "https://www.king5.com/feeds/syndication/rss/news/local".

(** The default configuration with this feed alone. *)
Definition king5_only : config :=
  {| monitoring := Some
       {| locationKeywords :=
            Some ["seattle"; "king county"; "puget sound"; "washington"];
          newsFeeds := Some [king5_feed];
          earthquakeRadiusKm := VInt 100 |} |}.

(** A runtime for which the text of every feed holds the items of
    [busy_items]. *)
Definition busy_news_runtime : NewsRuntime :=
  {| toLowerCase := lowercase;
     rss_items := fun _ => busy_items |}.

(** A healthy Mac mini that was last restarted 31 days ago, not connected
    to the network. *)
Definition long_uptime : world :=
  {| clock := t0; fs := ∅;
     http := fun _ => Thrown "getaddrinfo ENOTFOUND";
     exec := fun cmd =>
       if String.eqb cmd MEMORY_CMD then
         Returned "System-wide memory free percentage: 62%"
       else if String.eqb cmd DISK_CMD then
         Returned "/dev/disk3s1s1   460Gi   10Gi  230Gi     5%  404167 2412817720    0%   /"
       else if String.eqb cmd TEMPERATURE_CMD then Returned "temp: 50"
       else if String.eqb cmd UPTIME_CMD then
         Returned "10:02  up 31 days,  2:11, 2 users, load averages: 1.20 1.31 1.10"
       else Thrown "Command failed";
     requests := []; stdout := []; stderr := [] |}.

End Sample.

(** ** server.js *)

(** A request as the handler sees it: the method, the path and the [key]
    query parameter of the URL ([None] when the URL has none), and the
    body. *)
Record request : Type := {
  method : string;
  pathname : string;
  key : option string;
  body : string
}.

(** What is sent back: the status, the headers, and the body, a JSON text
    that is represented by the value it parses to ([VUndefined] for an empty
    body). *)
Record response : Type := {
  statusCode : Z;
  headers : list (string * string);
  payload : value
}.

(** The headers set on every response before routing. *)
Definition CORS_HEADERS : list (string * string) :=
  [("Access-Control-Allow-Origin", "*");
   ("Access-Control-Allow-Methods", "GET, POST, OPTIONS");
   ("Access-Control-Allow-Headers", "Content-Type")].

(** [res.writeHead(code, {'Content-Type': 'application/json'}); res.end(text)]
    for a text that parses to [v]. *)
Definition send (code : Z) (v : value) : response :=
  {| statusCode := code;
     headers := CORS_HEADERS ++ [("Content-Type", "application/json")];
     payload := v |}.

(** [res.end(JSON.stringify(v))]. *)
Definition send_json (code : Z) (v : value) : response := send code (jsonify v).

(** [a * c] for a numeric constant [c]. *)
Definition js_times (a : number) (c : Q) : number := (fun q => Qmult q c) <$> a.

(** A request as it arrives: the method, the target of the request line and
    the body. *)
Record incoming : Type := {
  in_method : string;
  in_url : string;
  in_body : string
}.

(** [new URL(target, `http://localhost:${PORT}`)]: the [pathname] and
    [searchParams.get('key')] of the result, or the exception thrown for a
    target that is not a URL. *)
Class WebRuntime : Type := {
  URL_parse : string -> outcome (string * option string)
}.

Section Server.
Context {rt : JSRuntime} {web : WebRuntime}.
Variable SECRET_KEY : string.

(** [key !== SECRET_KEY]. *)
Definition wrong_key (k : option string) : bool :=
  match k with
  | Some k => negb (String.eqb k SECRET_KEY)
  | None => true
  end.

(** The record built from a message; [data] is not [null] here.  The
    product [data.tst * 1000] is exact in this model, as it is on doubles for
    a whole number of seconds. *)
Definition location_record (data : value) (now : Z) : outcome value :=
  let tst := getPropOpt data "tst" in
  timestamp <~ (if truthy tst then
                  match DateValue (VNum (js_times (ToNumber tst) 1000)) with
                  | Some t => Returned (VStr (toISOString t))
                  | None => Thrown "Invalid time value"
                  end
                else Returned (js_or (getPropOpt data "timestamp")
                                     (VStr (toISOString now)))) ;;
  Returned (VObj [
    ("lat", js_or (js_or (js_or (getPropOpt data "lat") (getPropOpt data "Lat"))
                         (getPropOpt data "latitude"))
                  (getPropOpt data "Latitude"));
    ("lon", js_or (js_or (js_or (getPropOpt data "lon") (getPropOpt data "Lon"))
                         (getPropOpt data "longitude"))
                  (getPropOpt data "Longitude"));
    ("accuracy", js_or (getPropOpt data "acc") (getPropOpt data "accuracy"));
    ("altitude", js_or (getPropOpt data "alt") (getPropOpt data "altitude"));
    ("battery", getPropOpt data "batt");
    ("timestamp", timestamp);
    ("receivedAt", VStr (toISOString now))]).

(** The body of the [try] of the update route. *)
Definition update_location (text : string) : M response :=
  data <- lift (JSON_parse text) ;;
  console_log (VArr [VStr "Received data:"; jsonify data]) ;;;
  (* Skip non-location messages (OwnTracks sends dumps, waypoints, etc.) *)
  type <- lift (getProp data "_type") ;;
  if truthy type &&
     negb (match type with VStr s => String.eqb s "location" | _ => false end)
  then
    console_log (VStr ("Skipping non-location message type: " ++ ToString type)) ;;;
    ret (send_json 200 (VObj [("success", VBool true); ("skipped", type)]))
  else
    now <- Date_now ;;
    location <- lift (location_record data now) ;;
    writeJSON LOCATION_FILE location ;;;
    console_log (VStr ("[" ++ toISOString now ++ "] Location updated: " ++
                       ToString (getPropOpt location "lat") ++ ", " ++
                       ToString (getPropOpt location "lon"))) ;;;
    ret (send_json 200 (VObj [("success", VBool true); ("location", location)])).

(** The request handler, from the point where the target of the request has
    been parsed: [req] holds the path and the [key] parameter that [new URL]
    found.  The body of a POST is handled once it has arrived in full.
    location.json is written by this handler only, so that its content, sent
    as it is by the GET route, is JSON. *)
Definition handle (req : request) : M response :=
  if String.eqb (method req) "OPTIONS" then
    ret {| statusCode := 204; headers := CORS_HEADERS; payload := VUndefined |}
  (* Health check *)
  else if String.eqb (pathname req) "/health" then
    ret (send_json 200 (VObj [("status", VStr "ok")]))
  (* Get current location *)
  else if String.eqb (method req) "GET" && String.eqb (pathname req) "/location" then
    if wrong_key (key req) then
      ret (send_json 401 (VObj [("error", VStr "unauthorized")]))
    else
      r <- attempt (readJSON LOCATION_FILE) ;;
      match r with
      | Returned data => ret (send 200 data)
      | Thrown _ => ret (send_json 404 (VObj [("error", VStr "no location data")]))
      end
  (* Update location *)
  else if String.eqb (method req) "POST" && String.eqb (pathname req) "/location" then
    if wrong_key (key req) then
      ret (send_json 401 (VObj [("error", VStr "unauthorized")]))
    else
      r <- attempt (update_location (body req)) ;;
      match r with
      | Returned res => ret res
      | Thrown e => ret (send_json 400 (VObj [("error", VStr "invalid json");
                                              ("message", VStr e)]))
      end
  (* 404 for everything else *)
  else ret (send_json 404 (VObj [("error", VStr "not found")])).

(** The callback of [createServer], on a request as it arrives.  The
    cross-origin headers are set and an OPTIONS request is answered before
    the target is looked at.  [new URL(req.url, ..)] is outside any [try]: on
    a target that is not a URL its exception escapes the callback, and the
    request is not answered. *)
Definition on_request (req : incoming) : M response :=
  if String.eqb (in_method req) "OPTIONS" then
    ret {| statusCode := 204; headers := CORS_HEADERS; payload := VUndefined |}
  else
    url <- lift (URL_parse (in_url req)) ;;
    handle {| method := in_method req; pathname := fst url; key := snd url;
              body := in_body req |}.

End Server.

(** ** test-scenarios.js *)

(** The names every object inherits from [Object.prototype]: looked up in an
    object literal, each of them reads as a function. *)
Definition Object_prototype_functions : list string :=
  ["constructor"; "hasOwnProperty"; "isPrototypeOf"; "propertyIsEnumerable";
   "toLocaleString"; "toString"; "valueOf"; "__defineGetter__";
   "__defineSetter__"; "__lookupGetter__"; "__lookupSetter__"].

Section TestScenarios.
Context {rt : JSRuntime}.

(** The table [scenarios], built when the script is loaded at time [now]. *)
Definition scenarios (now : Z) : list (string * value) :=
  [("weather", VObj [
      ("source", VStr "NWS");
      ("ok", VBool false);
      ("alerts", VArr [VObj [
         ("event", VStr "Severe Thunderstorm Warning");
         ("severity", VStr "Severe");
         ("headline", VStr "TEST: Severe Thunderstorm Warning for King County");
         ("description", VStr "This is a TEST alert. A severe thunderstorm is approaching your area with 60mph winds and quarter-size hail.");
         ("expires", VStr (toISOString (now + 3600000)))]])]);
   ("earthquake", VObj [
      ("source", VStr "USGS");
      ("ok", VBool false);
      ("alerts", VArr [VObj [
         ("magnitude", VNum (Some (52 # 10)));
         ("place", VStr "TEST: 3km NE of Redmond, Washington");
         ("time", VStr (toISOString now));
         ("distance", VStr "3km away")]])]);
   ("aqi", VObj [
      ("source", VStr "AirQuality");
      ("ok", VBool false);
      ("alerts", VArr [VObj [("aqi", VInt 175); ("level", VStr "Unhealthy");
                             ("pm25", VNum (Some (955 # 10)))]]);
      ("current", VObj [("aqi", VInt 175); ("level", VStr "Unhealthy")])]);
   ("news", VObj [
      ("source", VStr "LocalNews");
      ("ok", VBool false);
      ("alerts", VArr [VObj [
         ("title", VStr "TEST: Structure fire reported near Overlake area in Redmond");
         ("source", VStr "test-news.com");
         ("link", VStr "https://example.com/test-fire");
         ("age", VStr "10m ago")]])]);
   ("disk", VObj [
      ("source", VStr "System");
      ("ok", VBool false);
      ("alerts", VArr [VObj [("type", VStr "disk"); ("severity", VStr "critical");
                             ("message", VStr "TEST: Disk almost full: 94% used")]])]);
   ("memory", VObj [
      ("source", VStr "System");
      ("ok", VBool false);
      ("alerts", VArr [VObj [("type", VStr "memory"); ("severity", VStr "warning");
                             ("message", VStr "TEST: Memory getting low: 25% free")]])])].

(** The table that maps a scenario to the key of the check it replaces. *)
Definition scenario_keys : list (string * string) :=
  [("weather", "nws"); ("earthquake", "usgs"); ("aqi", "aqi"); ("news", "news");
   ("disk", "system"); ("memory", "system")].

Fixpoint lookup_name {A} (k : string) (table : list (string * A)) : option A :=
  match table with
  | [] => None
  | (k', a) :: table' => if String.eqb k k' then Some a else lookup_name k table'
  end.

(** The entries [override] holds before the [_test] marks are added: [None]
    when the scenario is unknown.  A name inherited from [Object.prototype]
    passes the test [scenarios[scenario]]; the property it adds holds a
    function, which [JSON.stringify] leaves out, or, for [__proto__], the
    prototype itself, which is written as an empty object under the key the
    prototype converts to. *)
Definition override_entries (now : Z) (scenario : string)
  : option (list (string * value)) :=
  if String.eqb scenario "all" then
    Some [("nws", assoc "weather" (scenarios now));
          ("usgs", assoc "earthquake" (scenarios now));
          ("aqi", assoc "aqi" (scenarios now));
          ("news", assoc "news" (scenarios now))]
  else
    match lookup_name scenario (scenarios now), lookup_name scenario scenario_keys with
    | Some content, Some k => Some [(k, content)]
    | _, _ =>
        if existsb (String.eqb scenario) Object_prototype_functions then Some []
        else if String.eqb scenario "__proto__" then Some [("[object Object]", VObj [])]
        else None
    end.

Definition usage : list string :=
  ["Usage: node test-scenarios.js <scenario>";
   "";
   "Available scenarios:";
   "  weather    - Severe weather alert";
   "  earthquake - Nearby earthquake";
   "  aqi        - Unhealthy air quality";
   "  news       - Concerning local news";
   "  disk       - Disk almost full (self-check)";
   "  memory     - Low memory (self-check)";
   "  all        - Multiple alerts at once";
   "  clear      - Clear all test overrides"].

Fixpoint console_log_lines (lines : list string) : M unit :=
  match lines with
  | [] => ret tt
  | line :: lines' => console_log (VStr line) ;;; console_log_lines lines'
  end.

(** The script, run with [process.argv[2]] equal to [arg]; the result is the
    exit code. *)
Definition test_scenarios (arg : option string) : M Z :=
  match arg with
  | None | Some EmptyString =>
      console_log_lines usage ;;;
      ret 1
  | Some scenario =>
      if String.eqb scenario "clear" then
        r <- attempt (unlinkSync TEST_OVERRIDE_FILE) ;;
        match r with
        | Returned _ => console_log (VStr "✅ Test overrides cleared")
        | Thrown _ => console_log (VStr "✅ No test overrides to clear")
        end ;;;
        ret 0
      else
        now <- Date_now ;;
        match override_entries now scenario with
        | None =>
            console_error ("Unknown scenario: " ++ scenario) ;;;
            ret 1
        | Some entries =>
            let expiresAt := toISOString (now + 3600000) in (* 1 hour *)
            let override :=
              VObj (entries ++
                    [("_test", VBool true);
                     ("_scenario", VStr scenario);
                     ("_createdAt", VStr (toISOString now));
                     ("_expiresAt", VStr expiresAt)])%list in
            writeJSON TEST_OVERRIDE_FILE override ;;;
            console_log_lines
              ["✅ Test scenario '" ++ scenario ++ "' injected";
               "";
               "Override file: " ++ TEST_OVERRIDE_FILE;
               "Expires: " ++ expiresAt;
               "";
               "Now run safety-check.js or self-check.js to see the simulated alert.";
               "";
               "To clear: node test-scenarios.js clear"] ;;;
            ret 0
        end
  end.

End TestScenarios.

(** ** A runtime that reads JSON

    The runtime of [Sample] with a [JSON.parse] for texts made of objects,
    arrays, strings without escapes, decimal numbers without exponent,
    [true], [false] and [null]. *)
Module Wire.

Definition is_space (c : ascii) : bool :=
  let n := nat_of_ascii c in
  (n =? 32)%nat || (n =? 9)%nat || (n =? 10)%nat || (n =? 13)%nat.

Fixpoint skip_spaces (s : string) : string :=
  match s with
  | String c s' => if is_space c then skip_spaces s' else s
  | EmptyString => s
  end.

(** The characters up to the closing quote, and what follows it. *)
Fixpoint string_body (s : string) : option (string * string) :=
  match s with
  | EmptyString => None
  | String c s' =>
      if (nat_of_ascii c =? 34)%nat then Some ("", s')
      else if (nat_of_ascii c =? 92)%nat then None
      else match string_body s' with
           | Some (text, rest) => Some (String c text, rest)
           | None => None
           end
  end.

(** Digits, then optionally a point and digits. *)
Definition unsigned_number (s : string) : option (Q * string) :=
  match span_digits s with
  | (String _ _ as d, String "." r) =>
      match span_digits r with
      | (String _ _ as f, rest) => Some (decimal_value d f, rest)
      | _ => None
      end
  | (String _ _ as d, rest) => Some (inject_Z (digits_value 0 d), rest)
  | _ => None
  end.

Fixpoint elements (item : string -> option (value * string)) (fuel : nat) (s : string)
  : option (list value * string) :=
  match fuel with
  | O => None
  | S fuel' =>
      match item s with
      | None => None
      | Some (v, rest) =>
          match skip_spaces rest with
          | String "]" rest' => Some ([v], rest')
          | String "," rest' =>
              match elements item fuel' rest' with
              | Some (vs, rest'') => Some (v :: vs, rest'')
              | None => None
              end
          | _ => None
          end
      end
  end.

Fixpoint members (item : string -> option (value * string)) (fuel : nat) (s : string)
  : option (list (string * value) * string) :=
  match fuel with
  | O => None
  | S fuel' =>
      match skip_spaces s with
      | String q rest =>
          if (nat_of_ascii q =? 34)%nat then
            match string_body rest with
            | Some (name, rest1) =>
                match skip_spaces rest1 with
                | String ":" rest2 =>
                    match item rest2 with
                    | Some (v, rest3) =>
                        match skip_spaces rest3 with
                        | String "}" rest4 => Some ([(name, v)], rest4)
                        | String "," rest4 =>
                            match members item fuel' rest4 with
                            | Some (fields, rest5) => Some ((name, v) :: fields, rest5)
                            | None => None
                            end
                        | _ => None
                        end
                    | None => None
                    end
                | _ => None
                end
            | None => None
            end
          else None
      | EmptyString => None
      end
  end.

Fixpoint parse_value (fuel : nat) (s : string) : option (value * string) :=
  match fuel with
  | O => None
  | S fuel' =>
      match skip_spaces s with
      | String "{" rest =>
          match skip_spaces rest with
          | String "}" rest' => Some (VObj [], rest')
          | _ => match members (parse_value fuel') fuel' rest with
                 | Some (fields, rest') => Some (VObj fields, rest')
                 | None => None
                 end
          end
      | String "[" rest =>
          match skip_spaces rest with
          | String "]" rest' => Some (VArr [], rest')
          | _ => match elements (parse_value fuel') fuel' rest with
                 | Some (items, rest') => Some (VArr items, rest')
                 | None => None
                 end
          end
      | String "-" rest =>
          match unsigned_number rest with
          | Some (q, rest') => Some (VNum (Some (Qopp q)), rest')
          | None => None
          end
      | String c rest as text =>
          if (nat_of_ascii c =? 34)%nat then
            match string_body rest with
            | Some (str, rest') => Some (VStr str, rest')
            | None => None
            end
          else if String.prefix "true" text then Some (VBool true, substring 4 (String.length text) text)
          else if String.prefix "false" text then Some (VBool false, substring 5 (String.length text) text)
          else if String.prefix "null" text then Some (VNull, substring 4 (String.length text) text)
          else match unsigned_number text with
               | Some (q, rest') => Some (VNum (Some q), rest')
               | None => None
               end
      | EmptyString => None
      end
  end.

Definition parse_json (s : string) : outcome value :=
  match parse_value (S (String.length s)) s with
  | Some (v, rest) =>
      if String.eqb (skip_spaces rest) "" then Returned v
      else Thrown "SyntaxError: Unexpected non-whitespace character after JSON"
  | None => Thrown "SyntaxError: Unexpected token"
  end.

#[export] Instance runtime : JSRuntime :=
  {| Date_parse := Sample.parse_iso;
     toISOString := Sample.print_iso;
     StringToNumber := Sample.parse_number;
     NumberToString := Sample.show_number;
     JSON_parse := parse_json |}.

(** A name or a string of a JSON text, between quotes. *)
Definition quoted (s : string) : string := dq ++ s ++ dq.

(** The message OwnTracks posts for a fix in Seattle taken at
    2026-01-29T22:00:00Z, the same message for a fix on the equator, and a
    message that is not a fix. *)
Definition seattle_fix : string :=
  "{" ++ quoted "_type" ++ ":" ++ quoted "location" ++ "," ++
  quoted "lat" ++ ":47.6062," ++ quoted "lon" ++ ":-122.3321," ++
  quoted "acc" ++ ":12," ++ quoted "batt" ++ ":87," ++
  quoted "tst" ++ ":1769724000}".



(** The text before the first occurrence of a character, and the text after
    it if there is one. *)
Fixpoint cut_at (c : ascii) (s : string) : string * option string :=
  match s with
  | EmptyString => ("", None)
  | String a s' =>
      if Ascii.eqb a c then ("", Some s')
      else let (before, after) := cut_at c s' in (String a before, after)
  end.

(** The value of the first parameter of a query that has the given name. *)
Fixpoint parameter (name : string) (params : list string) : option string :=
  match params with
  | [] => None
  | p :: params' =>
      match cut_at "=" p with
      | (n, v) => if String.eqb n name then Some (default "" v)
                  else parameter name params'
      end
  end.

(** The targets recognised are those of the form [/path] or
    [/path?name=value&..], with a path whose second character is neither a
    slash nor a backslash and without escapes, dot segments or fragment; and
    the target [//], in which the host is missing and which is not a URL.
    On other targets this function is not meant to agree with the URL
    parser. *)
Definition parse_target (target : string) : outcome (string * option string) :=
  match target with
  | String "/" (String "/" _) | String "/" (String "\" _) => Thrown "Invalid URL"
  | String "/" _ =>
      match cut_at "?" target with
      | (path, Some query) => Returned (path, parameter "key" (split_on "&" query))
      | (path, None) => Returned (path, None)
      end
  | _ => Thrown "Invalid URL"
  end.

#[export] Instance web_runtime : WebRuntime := {| URL_parse := parse_target |}.

(** Requests to a server whose secret key is [secret]. *)
Definition secret : string := "3f9c2ab47d10e8a65b0c9d2e4f718a36".

Definition post (k : option string) (text : string) : request :=
  {| method := "POST"; pathname := "/location"; key := k; body := text |}.

Definition get (k : option string) : request :=
  {| method := "GET"; pathname := "/location"; key := k; body := "" |}.

(** A machine with no file, five seconds after [Sample.t0]. *)
Definition fresh : world := Sample.offline (Sample.t0 + 5000) ∅.

(** A machine on which every request is answered with the same text, and no
    command can be run. *)
Definition serving (now : Z) (files : gmap string value) (reply : string) : world :=
  {| clock := now; fs := files;
     http := fun _ => Returned reply;
     exec := fun _ => Thrown "spawnSync /bin/sh ENOENT";
     requests := []; stdout := []; stderr := [] |}.

(** Replies of the services: two earthquakes, of magnitude 5.2 and 1.8; the
    first of them followed by a feature that has no properties; one weather
    advisory of minor severity; an air quality index of 120. *)
Definition quake_reply : string :=
  "{" ++ quoted "features" ++ ":[{" ++ quoted "properties" ++ ":{" ++
  quoted "mag" ++ ":5.2," ++
  quoted "place" ++ ":" ++ quoted "3km NE of Redmond, Washington" ++ "," ++
  quoted "time" ++ ":1769720400000}},{" ++ quoted "properties" ++ ":{" ++
  quoted "mag" ++ ":1.8," ++
  quoted "place" ++ ":" ++ quoted "7km W of Duvall, Washington" ++ "," ++
  quoted "time" ++ ":1769716800000}}]}".

Definition broken_reply : string :=
  "{" ++ quoted "features" ++ ":[{" ++ quoted "properties" ++ ":{" ++
  quoted "mag" ++ ":5.2," ++
  quoted "place" ++ ":" ++ quoted "3km NE of Redmond, Washington" ++ "," ++
  quoted "time" ++ ":1769720400000}},{" ++
  quoted "id" ++ ":" ++ quoted "uw62071141" ++ "}]}".

Definition advisory_reply : string :=
  "{" ++ quoted "features" ++ ":[{" ++ quoted "properties" ++ ":{" ++
  quoted "event" ++ ":" ++ quoted "Wind Advisory" ++ "," ++
  quoted "severity" ++ ":" ++ quoted "Minor" ++ "," ++
  quoted "headline" ++ ":" ++ quoted "Wind Advisory until 10PM PST" ++ "," ++
  quoted "description" ++ ":" ++ quoted "South winds 20 to 30 mph." ++ "," ++
  quoted "expires" ++ ":" ++ quoted "2026-01-30T06:00:00Z" ++ "}}]}".



End Wire.

(** ** What a computation depends on *)

(** The part of the world a script cannot change: the clock, the replies of
    the network and the output of the commands. *)
Definition surroundings (w : world)
  : Z * (string -> outcome string) * (string -> outcome string) :=
  (clock w, http w, exec w).

(** A computation that reads no file and looks at nothing it or another
    computation wrote: its result is a function of the surroundings. *)
Definition reads_only_surroundings {A} (c : M A) : Prop :=
  (forall w, surroundings (snd (c w)) = surroundings w) /\
  (forall w1 w2, surroundings w1 = surroundings w2 -> fst (c w1) = fst (c w2)).

(** A computation that leaves every file as it found it. *)
Definition keeps_files {A} (c : M A) : Prop :=
  forall w, fs (snd (c w)) = fs w.

(** * Properties *)

(** ** Values *)


Lemma getPropOpt_truthy_obj (v : value) (k : string) :
  truthy (getPropOpt v k) = true -> exists fields, v = VObj fields.
Proof. destruct v; simpl; try discriminate. eauto. Qed.

Lemma truthy_zero (q : Q) : (q == 0)%Q -> truthy (VNum (Some q)) = false.
Proof.
  unfold Qeq. simpl. intros H.
  replace (Qnum q) with 0 by lia. reflexivity.
Qed.

(** ** The escalation check *)

Section EscalationFacts.
Context {rt : JSRuntime}.

Lemma run_acknowledged w fields :
  fs w !! STATE_FILE = Some (VObj fields) ->
  truthy (assoc "acknowledgedAt" fields) = true ->
  exists reason,
    run w = (Returned tt,
             add_stdout (VObj [("action", VStr "none"); ("reason", VStr reason)]) w).
Proof.
  intros Hfs Hack.
  unfold run, bind, attempt, readJSON, lift, ret, console_log_json, console_log.
  rewrite Hfs. simpl.
  destruct (truthy (assoc "pendingAlert" fields)); simpl.
  - destruct (truthy (assoc "alertSentAt" fields)); simpl.
    + rewrite Hack. eauto.
    + eauto.
  - eauto.
Qed.

Lemma run_pending w fields t :
  fs w !! STATE_FILE = Some (VObj fields) ->
  truthy (assoc "pendingAlert" fields) = true ->
  truthy (assoc "alertSentAt" fields) = true ->
  truthy (assoc "acknowledgedAt" fields) = false ->
  DateValue (assoc "alertSentAt" fields) = Some t ->
  let elapsed := clock w - t in
  run w = (Returned tt, add_stdout (jsonify (
    if ESCALATION_THRESHOLD_MS <=? elapsed then
      VObj [("action", VStr "escalate");
            ("alert", assoc "pendingAlert" fields);
            ("alertSentAt", assoc "alertSentAt" fields);
            ("minutesPending", VInt ((2 * elapsed + 60000) / 120000));
            ("contact", VStr EMERGENCY_CONTACT);
            ("contactName", VStr EMERGENCY_CONTACT_NAME)]
    else
      VObj [("action", VStr "waiting");
            ("alert", assoc "pendingAlert" fields);
            ("minutesPending", VInt ((2 * elapsed + 60000) / 120000));
            ("minutesRemaining",
             VInt (- ((- (ESCALATION_THRESHOLD_MS - elapsed)) / 60000)))])) w).
Proof.
  intros Hfs Hp Hs Ha Ht elapsed.
  unfold run, bind, attempt, readJSON, lift, ret, console_log_json, console_log, Date_now.
  rewrite Hfs. cbn [getProp]. rewrite Hp, Hs. cbn [negb]. rewrite Ha, Ht.
  cbn [fmap option_fmap option_map]. fold elapsed.
  destruct (ESCALATION_THRESHOLD_MS <=? elapsed); reflexivity.
Qed.

End EscalationFacts.

Section EscalationClaims.
Context {rt : JSRuntime}.

Lemma run_depends (st : option value) (now : Z) :
  exists r, forall w,
    fs w !! STATE_FILE = st -> clock w = now -> run w = emit r w.
Proof.
  destruct st as [state|].
  2:{ eexists (Returned _). intros w Hfs _.
      unfold run, bind, attempt, readJSON. rewrite Hfs. reflexivity. }
  assert (Hprim : getProp state "pendingAlert" = Returned VUndefined ->
            exists r, forall w, fs w !! STATE_FILE = Some state -> clock w = now ->
                                run w = emit r w).
  { intros Hp. eexists (Returned _). intros w Hfs _.
    unfold run, bind, attempt, readJSON, lift. rewrite Hfs, Hp. reflexivity. }
  destruct state as [| |b|n|s|items|fields]; try (apply Hprim; reflexivity).
  1,2: eexists (Thrown _); intros w Hfs _;
       unfold run, bind, attempt, readJSON, lift; rewrite Hfs; reflexivity.
  clear Hprim.
  destruct (truthy (assoc "pendingAlert" fields)) eqn:Hp.
  2:{ eexists (Returned _). intros w Hfs _.
      unfold run, bind, attempt, readJSON, lift. rewrite Hfs. cbn [getProp].
      rewrite Hp. reflexivity. }
  destruct (truthy (assoc "alertSentAt" fields)) eqn:Hs.
  2:{ eexists (Returned _). intros w Hfs _.
      unfold run, bind, attempt, readJSON, lift. rewrite Hfs. cbn [getProp].
      rewrite Hp, Hs. reflexivity. }
  destruct (truthy (assoc "acknowledgedAt" fields)) eqn:Ha.
  { eexists (Returned _). intros w Hfs _.
    unfold run, bind, attempt, readJSON, lift. rewrite Hfs. cbn [getProp].
    rewrite Hp, Hs. cbn [negb ret]. rewrite Ha. reflexivity. }
  destruct (DateValue (assoc "alertSentAt" fields)) as [t|] eqn:Ht.
  - eexists (Returned _). intros w Hfs Hc.
    rewrite (run_pending w fields t Hfs Hp Hs Ha Ht). rewrite Hc. reflexivity.
  - eexists (Returned _). intros w Hfs _.
    unfold run, bind, attempt, readJSON, lift, Date_now. rewrite Hfs. cbn [getProp].
    rewrite Hp, Hs. cbn [negb ret]. rewrite Ha, Ht.
    unfold round_div, ceil_div. cbn [fmap option_fmap option_map]. reflexivity.
Qed.

Lemma emit_world (r : outcome value) (w : world) :
  fs (snd (emit r w)) = fs w /\ clock (snd (emit r w)) = clock w.
Proof. destruct r; split; reflexivity. Qed.

(** C9: the escalation check is a function of the content of the state file
    and of the current time: any two runs that see the same state file and
    the same clock end the same way (the same object printed, or the same
    exception); a run leaves every file as it found it, so that a second run
    right after the first one repeats its output. *)
Theorem escalation_check_is_a_pure_read (w : world) :
  exists r,
    (forall w', fs w' !! STATE_FILE = fs w !! STATE_FILE -> clock w' = clock w ->
                run w' = emit r w') /\
    fs (snd (run w)) = fs w /\
    run (snd (run w)) = emit r (snd (run w)).
Proof.
  destruct (run_depends (fs w !! STATE_FILE) (clock w)) as [r Hr].
  exists r. split; [exact Hr|].
  pose proof (emit_world r w) as [Hfs Hclock].
  rewrite (Hr w eq_refl eq_refl). split; [exact Hfs|].
  apply Hr; [rewrite Hfs; reflexivity | exact Hclock].
Qed.

(** C4: when [acknowledgedAt] is set the check prints action [none],
    whatever the clock and whatever the time the alert was sent at. *)
Theorem acknowledged_alert_never_escalates (w : world) (state : value) :
  fs w !! STATE_FILE = Some state ->
  truthy (getPropOpt state "acknowledgedAt") = true ->
  exists out,
    run w = (Returned tt, add_stdout out w) /\
    getPropOpt out "action" = VStr "none".
Proof.
  intros Hfs Hack.
  destruct (getPropOpt_truthy_obj _ _ Hack) as [fields ->].
  destruct (run_acknowledged w fields Hfs Hack) as [reason Hrun].
  eexists. split; [exact Hrun | reflexivity].
Qed.

(** C3: for a pending alert that is not acknowledged and whose [alertSentAt]
    denotes the time [t], the check prints action [escalate] exactly when
    [now - t] is at least 15 minutes; before that it prints action [waiting]
    with [minutesRemaining] the least number of whole minutes that covers the
    time left.  At 14 min 59 s that is 1 minute. *)
Theorem escalation_threshold (w : world) (state : value) (t : Z) :
  fs w !! STATE_FILE = Some state ->
  truthy (getPropOpt state "pendingAlert") = true ->
  truthy (getPropOpt state "alertSentAt") = true ->
  truthy (getPropOpt state "acknowledgedAt") = false ->
  DateValue (getPropOpt state "alertSentAt") = Some t ->
  let elapsed := clock w - t in
  exists out,
    run w = (Returned tt, add_stdout out w) /\
    (getPropOpt out "action" = VStr "escalate" <-> 15 * 60 * 1000 <= elapsed) /\
    (elapsed < 15 * 60 * 1000 ->
       getPropOpt out "action" = VStr "waiting" /\
       exists r, getPropOpt out "minutesRemaining" = VInt r /\
                 60000 * (r - 1) < 15 * 60 * 1000 - elapsed <= 60000 * r) /\
    (elapsed = 14 * 60 * 1000 + 59 * 1000 ->
       getPropOpt out "minutesRemaining" = VInt 1).
Proof.
  intros Hfs Hp Hs Ha Ht elapsed.
  destruct (getPropOpt_truthy_obj _ _ Hp) as [fields ->].
  cbn [getPropOpt] in *.
  pose proof (run_pending w fields t Hfs Hp Hs Ha Ht) as Hrun.
  cbv zeta in Hrun. fold elapsed in Hrun.
  eexists. split; [exact Hrun|].
  unfold ESCALATION_THRESHOLD_MS.
  assert (Hdef : assoc "pendingAlert" fields <> VUndefined)
    by (intros E; rewrite E in Hp; discriminate).
  destruct (Z.leb_spec (15 * 60 * 1000) elapsed) as [Hle|Hlt].
  - split; [split; [lia | reflexivity]|].
    split; intros; lia.
  - assert (Hrem : getPropOpt (jsonify (VObj
        [("action", VStr "waiting"); ("alert", assoc "pendingAlert" fields);
         ("minutesPending", VInt ((2 * elapsed + 60000) / 120000));
         ("minutesRemaining", VInt (- (- (15 * 60 * 1000 - elapsed) / 60000)))]))
        "minutesRemaining" = VInt (- (- (15 * 60 * 1000 - elapsed) / 60000))).
    { destruct (assoc "pendingAlert" fields); try congruence; reflexivity. }
    split; [split; [discriminate | lia]|].
    split.
    + intros _. split; [reflexivity|].
      eexists. split; [exact Hrem|].
      pose proof (Z.div_mod (- (15 * 60 * 1000 - elapsed)) 60000 ltac:(lia)).
      pose proof (Z.mod_pos_bound (- (15 * 60 * 1000 - elapsed)) 60000 ltac:(lia)).
      lia.
    + intros E. rewrite Hrem, E. reflexivity.
Qed.

End EscalationClaims.

(** ** The adapters of the safety check *)

Lemma add_requests_nil w : add_requests [] w = w.
Proof. destruct w. unfold add_requests. simpl. rewrite app_nil_r. reflexivity. Qed.

Lemma add_requests_add_requests u1 u2 w :
  add_requests u2 (add_requests u1 w) = add_requests (u1 ++ u2) w.
Proof. unfold add_requests. simpl. rewrite app_assoc. reflexivity. Qed.

Lemma add_request_add_requests url w : add_request url w = add_requests [url] w.
Proof. reflexivity. Qed.

Lemma clock_add_requests urls w : clock (add_requests urls w) = clock w.
Proof. reflexivity. Qed.

Lemma clock_add_stderr msg w : clock (add_stderr msg w) = clock w.
Proof. reflexivity. Qed.

Lemma attempt_spec {A} (c : M A) w :
  exists o w', attempt c w = (Returned o, w').
Proof. unfold attempt. destruct (c w). eauto. Qed.

Lemma fail_open_matches name e : ok_matches_alerts (fail_open name e).
Proof. exists []. split; reflexivity. Qed.

Ltac fails_open := eexists; split; [reflexivity | apply fail_open_matches].

Section Adapters.
Context {rt : JSRuntime} {nrt : NewsRuntime}.
Variable CONFIG : config.

Lemma checkNWSAlerts_spec lat lon w :
  exists v, checkNWSAlerts lat lon w = (Returned v, add_requests [nws_url lat lon] w) /\
            ok_matches_alerts v.
Proof.
  unfold checkNWSAlerts, bind, attempt, fetch, lift, ret.
  rewrite add_request_add_requests.
  destruct (http w (nws_url lat lon)) as [text|e]; [|fails_open].
  destruct (JSON_parse text) as [data|e]; [|fails_open].
  destruct (getProp data "features") as [features|e]; [|fails_open].
  destruct (as_array _ (js_or features (VArr []))) as [items|e]; [|fails_open].
  destruct (mapM nws_alert items) as [alerts|e]; [|fails_open].
  eexists. split; [reflexivity|].
  exists alerts. split; [reflexivity|]. destruct alerts; reflexivity.
Qed.

Lemma checkEarthquakes_spec lat lon w :
  exists v, checkEarthquakes CONFIG lat lon w
            = (Returned v, add_requests [usgs_url CONFIG lat lon (clock w)] w) /\
            ok_matches_alerts v.
Proof.
  unfold checkEarthquakes, bind, attempt, fetch, lift, ret, Date_now.
  rewrite add_request_add_requests.
  destruct (http w (usgs_url CONFIG lat lon (clock w))) as [text|e]; [|fails_open].
  destruct (JSON_parse text) as [data|e]; [|fails_open].
  destruct (getProp data "features") as [features|e]; [|fails_open].
  destruct (as_array _ (js_or features (VArr []))) as [items|e]; [|fails_open].
  destruct (filterM notable_quake items) as [notable|e]; [|fails_open].
  destruct (mapM quake_alert notable) as [quakes|e]; [|fails_open].
  eexists. split; [reflexivity|].
  exists quakes. split; [reflexivity|]. destruct quakes; reflexivity.
Qed.

Lemma checkAirQuality_spec lat lon w :
  exists v, checkAirQuality lat lon w = (Returned v, add_requests [aqi_url lat lon] w) /\
            ok_matches_alerts v.
Proof.
  unfold checkAirQuality, bind, attempt, fetch, lift, ret.
  rewrite add_request_add_requests.
  destruct (http w (aqi_url lat lon)) as [text|e]; [|fails_open].
  destruct (JSON_parse text) as [data|e]; [|fails_open].
  destruct (getProp data "current") as [current|e]; [|fails_open].
  destruct (js_gt _ 150); [|destruct (js_gt _ 100); [|destruct (js_gt _ 50)]];
    (eexists; split; [reflexivity|]; eexists; split; reflexivity).
Qed.

Lemma feed_alerts_spec url w :
  exists found, feed_alerts CONFIG url w = (Returned found, add_requests [url] w).
Proof.
  unfold feed_alerts, bind, attempt, fetch, ret, Date_now.
  rewrite add_request_add_requests.
  destruct (http w url); eauto.
Qed.


Lemma all_feed_alerts_spec urls w :
  exists found, all_feed_alerts CONFIG urls w = (Returned found, add_requests urls w).
Proof.
  revert w. induction urls as [|url urls IH]; intros w.
  - exists []. simpl. unfold ret. rewrite add_requests_nil. reflexivity.
  - destruct (feed_alerts_spec url w) as [found Hf].
    destruct (IH (add_requests [url] w)) as [more Hm].
    exists (found ++ more)%list.
    simpl. unfold bind, ret. rewrite Hf, Hm, add_requests_add_requests. reflexivity.
Qed.


Lemma checkLocalNews_spec lat lon w :
  exists v, checkLocalNews CONFIG lat lon w = (Returned v, add_requests (feeds CONFIG) w) /\
            ok_matches_alerts v.
Proof.
  destruct (all_feed_alerts_spec (feeds CONFIG) w) as [found Hf].
  unfold checkLocalNews, bind, ret. rewrite Hf.
  eexists. split; [reflexivity|].
  eexists. split; [reflexivity|].
  destruct (dedupe ∅ found); reflexivity.
Qed.


Lemma getLocation_spec w :
  getLocation w = (Returned (match fs w !! LOCATION_FILE with
                             | Some location => location
                             | None => VNull
                             end), w).
Proof.
  unfold getLocation, bind, attempt, readJSON, ret.
  destruct (fs w !! LOCATION_FILE); reflexivity.
Qed.

Lemma getTestOverride_absent w :
  fs w !! TEST_OVERRIDE_FILE = None -> getTestOverride w = (Returned VNull, w).
Proof.
  intros H. unfold getTestOverride, bind, attempt, readJSON. rewrite H. reflexivity.
Qed.

Lemma getTestOverride_expired w override :
  fs w !! TEST_OVERRIDE_FILE = Some override ->
  truthy (getPropOpt override "_expiresAt") = true ->
  date_before (getPropOpt override "_expiresAt") (clock w) = true ->
  getTestOverride w = (Returned VNull, set_fs (delete TEST_OVERRIDE_FILE) w).
Proof.
  intros Hfs Hexp Hpast.
  destruct (getPropOpt_truthy_obj _ _ Hexp) as [fields ->]. cbn [getPropOpt] in *.
  unfold getTestOverride, bind, attempt, readJSON, lift, Date_now, unlinkSync, ret.
  rewrite Hfs. cbn [getProp]. rewrite Hexp, Hpast. cbn [andb]. rewrite Hfs. reflexivity.
Qed.


Lemma getTestOverride_spec w :
  exists ov w1,
    getTestOverride w = (Returned ov, w1) /\
    clock w1 = clock w /\ http w1 = http w /\ requests w1 = requests w /\
    stdout w1 = stdout w.
Proof.
  unfold getTestOverride, bind, attempt, readJSON, lift, Date_now, ret,
    console_error, unlinkSync.
  destruct (fs w !! TEST_OVERRIDE_FILE) as [override|] eqn:Hfs; [|eauto 10].
  destruct (getProp override "_expiresAt") as [expiresAt|]; [|eauto 10].
  destruct (truthy expiresAt && date_before expiresAt (clock w)).
  - rewrite Hfs. eauto 10.
  - destruct (getProp override "_scenario"); eauto 10.
Qed.

Lemma apply_override_falsy ov k c : truthy ov = false -> apply_override ov k c = c.
Proof. destruct ov; simpl; intros H; try discriminate; reflexivity. Qed.

(** The run of the aggregator on a location that passes the guard: the
    override is read, the four adapters run in turn, and the report is built
    from their results, each replaced by the override's entry if there is
    one. *)
Lemma runSafetyCheck_report w location :
  fs w !! LOCATION_FILE = Some location ->
  truthy location = true ->
  truthy (getPropOpt location "lat") = true ->
  truthy (getPropOpt location "lon") = true ->
  let lat := getPropOpt location "lat" in
  let lon := getPropOpt location "lon" in
  exists ov w1 msg nws w2 usgs w3 aqi w4 news w5 wf,
    getTestOverride w = (Returned ov, w1) /\
    checkNWSAlerts lat lon (add_stderr msg w1) = (Returned nws, w2) /\
    checkEarthquakes CONFIG lat lon w2 = (Returned usgs, w3) /\
    checkAirQuality lat lon w3 = (Returned aqi, w4) /\
    checkLocalNews CONFIG lat lon w4 = (Returned news, w5) /\
    runSafetyCheck CONFIG w =
      (Returned (VObj (report (clock w) location
                         (apply_override ov "nws" nws)
                         (apply_override ov "usgs" usgs)
                         (apply_override ov "aqi" aqi)
                         (apply_override ov "news" news))), wf).
Proof.
  intros Hfs Hloc Hlat Hlon lat lon.
  destruct (getTestOverride_spec w) as (ov & w1 & Hov & Hclock & _).
  set (msg := "Running safety check for " ++ ToString lat ++ ", " ++
              ToString lon ++ "...").
  destruct (checkNWSAlerts_spec lat lon (add_stderr msg w1)) as (nws & Hnws & _).
  destruct (checkEarthquakes_spec lat lon
              (add_requests [nws_url lat lon] (add_stderr msg w1))) as (usgs & Husgs & _).
  destruct (checkAirQuality_spec lat lon
              (add_requests [usgs_url CONFIG lat lon
                               (clock (add_requests [nws_url lat lon] (add_stderr msg w1)))]
                 (add_requests [nws_url lat lon] (add_stderr msg w1))))
    as (aqi & Haqi & _).
  match type of Haqi with _ = (_, ?w4) =>
    destruct (checkLocalNews_spec lat lon w4) as (news & Hnews & _) end.
  do 12 eexists.
  repeat (split; [eassumption|]).
  unfold runSafetyCheck, bind.
  rewrite getLocation_spec, Hfs.
  rewrite Hloc, Hlat, Hlon. cbn [negb orb]. rewrite Hov.
  unfold console_error at 1. fold lat lon msg.
  rewrite Hnws, Husgs, Haqi, Hnews.
  unfold Date_now, writeJSON, console_error, console_log_json, console_log, ret.
  destruct (truthy ov) eqn:Hov_truthy; cbv beta iota zeta;
    rewrite !clock_add_requests, clock_add_stderr, Hclock.
  - reflexivity.
  - rewrite !(apply_override_falsy ov _ _ Hov_truthy). reflexivity.
Qed.








Lemma runSafetyCheck_no_location w :
  (let location := match fs w !! LOCATION_FILE with
                   | Some location => location
                   | None => VNull
                   end in
   truthy location && truthy (getPropOpt location "lat")
     && truthy (getPropOpt location "lon") = false) ->
  runSafetyCheck CONFIG w
  = (Returned (VObj [("error", VStr "No location data available");
                     ("timestamp", VStr (toISOString (clock w)))]), w).
Proof.
  cbv zeta. intros H. unfold runSafetyCheck, bind. rewrite getLocation_spec.
  rewrite <- !negb_andb, H. reflexivity.
Qed.

End Adapters.

(** ** The adapters of the self check *)

Section HostAdapters.
Context {rt : JSRuntime} {nrt : NewsRuntime}.

Lemma host_result_matches name (alerts : list hostAlert) :
  ok_matches_alerts (host_result name (is_empty alerts) alerts).
Proof.
  exists (hostAlert_value <$> alerts). split; [reflexivity|].
  destruct alerts; reflexivity.
Qed.

Lemma no_alert_but_info (alerts : list hostAlert) :
  is_empty (List.filter (fun a => negb (is_info a)) alerts) = forallb is_info alerts.
Proof.
  induction alerts as [|a alerts IH]; [reflexivity|].
  simpl. destruct (is_info a); simpl; [exact IH | reflexivity].
Qed.

Lemma probe_spec cmd k w :
  exists pushed, probe cmd k w = (Returned pushed, w).
Proof.
  unfold probe, bind, attempt, execSync, ret. destruct (exec w cmd); eauto.
Qed.

Lemma systemHealth_spec w :
  exists alerts, systemHealth w = (Returned (forallb is_info alerts, alerts), w).
Proof.
  unfold systemHealth, bind.
  destruct (probe_spec MEMORY_CMD memory_alerts w) as [mem ->].
  destruct (probe_spec DISK_CMD disk_alerts w) as [disk ->].
  destruct (probe_spec TEMPERATURE_CMD temperature_alerts w) as [temp ->].
  destruct (probe_spec UPTIME_CMD uptime_alerts w) as [up ->].
  exists (mem ++ disk ++ temp ++ up)%list.
  unfold ret. rewrite no_alert_but_info. reflexivity.
Qed.

Lemma threats_from_spec url body w :
  exists pushed, threats_from url body w = (Returned pushed, add_requests [url] w).
Proof.
  unfold threats_from, bind, attempt, fetch, lift, ret.
  rewrite add_request_add_requests.
  destruct (http w url) as [text|]; [|eauto].
  destruct (JSON_parse text) as [data|]; [|eauto].
  destruct (getProp data "features") as [features|]; [|eauto].
  destruct (iterate (js_or features (VArr []))); eauto.
Qed.

Lemma checkEnvironmentalThreats_spec lat lon w :
  exists v w', checkEnvironmentalThreats lat lon w = (Returned v, w') /\
               ok_matches_alerts v.
Proof.
  unfold checkEnvironmentalThreats, environmentalThreats, bind, Date_now, ret.
  match goal with |- context [threats_from ?u ?b w] =>
    destruct (threats_from_spec u b w) as [weather ->] end.
  match goal with |- context [threats_from ?u ?b ?w'] =>
    destruct (threats_from_spec u b w') as [quakes ->] end.
  do 2 eexists. split; [reflexivity | apply host_result_matches].
Qed.

Lemma checkConnectivity_spec w :
  exists v w', checkConnectivity w = (Returned v, w') /\ ok_matches_alerts v.
Proof.
  unfold checkConnectivity, connectivity, bind.
  match goal with |- context [attempt ?c w] =>
    destruct (attempt_spec c w) as (ts & w1 & ->) end.
  destruct (attempt_spec (fetch "https://api.weather.gov/") w1) as (net & w2 & ->).
  do 2 eexists. split; [reflexivity | apply host_result_matches].
Qed.

End HostAdapters.

(** ** Deduplication of the news alerts *)

Section Dedupe.
Context {nrt : NewsRuntime}.

Lemma dedupe_filter (k : string) (alerts : list newsAlert) : forall seen : gset string,
  filter (fun b => dedupe_key b = k) (dedupe seen alerts)
  = if decide (k ∈ seen) then []
    else option_list (head (filter (fun b => dedupe_key b = k) alerts)).
Proof.
  induction alerts as [|a alerts IH]; intros seen.
  - simpl. destruct (decide (k ∈ seen)); reflexivity.
  - cbn [dedupe]. destruct (decide (dedupe_key a ∈ seen)) as [Hin|Hout].
    + rewrite IH. destruct (decide (k ∈ seen)) as [|Hk]; [reflexivity|].
      rewrite (filter_cons_False (fun b => dedupe_key b = k)); [reflexivity|].
      intros E. apply Hk. rewrite <- E. exact Hin.
    + destruct (decide (dedupe_key a = k)) as [E|Hne].
      * rewrite !(filter_cons_True (fun b => dedupe_key b = k)) by exact E.
        rewrite IH.
        rewrite decide_True
          by (rewrite E; apply elem_of_union_l, elem_of_singleton; reflexivity).
        rewrite decide_False by (rewrite <- E; exact Hout). reflexivity.
      * rewrite !(filter_cons_False (fun b => dedupe_key b = k)) by exact Hne.
        rewrite IH.
        destruct (decide (k ∈ seen)) as [Hk|Hk].
        -- rewrite decide_True by (apply elem_of_union_r; exact Hk). reflexivity.
        -- rewrite decide_False; [reflexivity|].
           intros [Hka|Hseen]%elem_of_union; [|exact (Hk Hseen)].
           apply elem_of_singleton in Hka. exact (Hne (eq_sym Hka)).
Qed.

Lemma filter_take {A} (P : A -> Prop) `{!forall x, Decision (P x)} (n : nat) (l : list A) :
  exists m, filter P (take n l) = take m (filter P l).
Proof.
  revert n. induction l as [|x l IH]; intros n.
  - exists 0%nat. destruct n; reflexivity.
  - destruct n as [|n]; [exists 0%nat; reflexivity|].
    cbn [take]. destruct (IH n) as [m Hm].
    destruct (decide (P x)) as [HP|HP].
    + exists (S m). rewrite !filter_cons_True by exact HP. cbn [take]. rewrite Hm. reflexivity.
    + exists m. rewrite !filter_cons_False by exact HP. exact Hm.
Qed.

Lemma filter_mem_head {A} (P : A -> Prop) `{!forall x, Decision (P x)} (l : list A) (a : A) :
  a ∈ l -> P a -> exists first, head (filter P l) = Some first.
Proof.
  intros Hin HP.
  assert (Ha : a ∈ filter P l) by (apply list_elem_of_filter; split; assumption).
  destruct (filter P l) as [|first rest]; [|eauto].
  inversion Ha.
Qed.

End Dedupe.

(** ** The aggregator *)

Section AggregatorClaims.
Context {rt : JSRuntime} {nrt : NewsRuntime}.
Variable CONFIG : config.

(** C8: when location.json cannot be read, or holds a falsy value, or a value
    whose [lat] or [lon] is falsy, the run returns an object with an [error]
    field and neither [status] nor [checks], and leaves the world as it was:
    no request is made, no log is written, nothing is printed. *)
Theorem no_location_is_a_distinct_error (w : world) :
  (fs w !! LOCATION_FILE = None \/
   exists location,
     fs w !! LOCATION_FILE = Some location /\
     (truthy location = false \/ truthy (getPropOpt location "lat") = false \/
      truthy (getPropOpt location "lon") = false)) ->
  exists r,
    runSafetyCheck CONFIG w = (Returned r, w) /\
    getPropOpt r "error" = VStr "No location data available" /\
    getPropOpt r "status" = VUndefined /\
    getPropOpt r "checks" = VUndefined.
Proof.
  intros H. eexists. split.
  - apply runSafetyCheck_no_location. cbv zeta.
    destruct H as [->|(location & -> & [->|[->| ->]])];
      rewrite ?andb_false_r; reflexivity.
  - repeat split.
Qed.

(** C10: a stored location whose [lat] or [lon] is the number 0 does not
    pass the guard: the run returns the 'No location data available' error
    and runs no check. *)
Theorem zero_coordinate_is_no_location (w : world) (location : value) (q : Q) :
  fs w !! LOCATION_FILE = Some location ->
  getPropOpt location "lat" = VNum (Some q) \/
  getPropOpt location "lon" = VNum (Some q) ->
  (q == 0)%Q ->
  runSafetyCheck CONFIG w
  = (Returned (VObj [("error", VStr "No location data available");
                     ("timestamp", VStr (toISOString (clock w)))]), w).
Proof.
  intros Hfs Hzero Hq.
  apply runSafetyCheck_no_location. rewrite Hfs. cbv zeta.
  destruct Hzero as [-> | ->]; rewrite (truthy_zero q Hq).
  - rewrite andb_false_r. reflexivity.
  - rewrite andb_false_r. reflexivity.
Qed.



(** C7, as amended: the news adapter returns the first five alerts of the
    deduplicated list of the alerts found in the feeds.  Among the alerts
    found that share the first 50 code units of their title up to case, the
    deduplicated list holds exactly one, the first of them; the returned list
    holds that one or none of them (at most one), and holds it whenever the
    deduplicated list has at most five alerts.  At most 5 alerts are
    returned. *)
Theorem dedupe_first_wins_then_cap (alerts : list newsAlert) :
  let unique := dedupe ∅ alerts in
  let surfaced := take 5 unique in
  (forall lat lon w w',
     all_feed_alerts CONFIG (feeds CONFIG) w = (Returned alerts, w') ->
     checkLocalNews CONFIG lat lon w
     = (Returned (VObj [("source", VStr "LocalNews");
                        ("ok", VBool (is_empty unique));
                        ("alerts", VArr (newsAlert_value <$> surfaced))]), w')) /\
  (length surfaced <= 5)%nat /\
  forall a, a ∈ alerts ->
    let same b := dedupe_key b = dedupe_key a in
    exists first,
      head (filter same alerts) = Some first /\
      filter same unique = [first] /\
      (filter same surfaced = [first] \/ filter same surfaced = []) /\
      ((length unique <= 5)%nat -> filter same surfaced = [first]).
Proof.
  intros unique surfaced. split; [|split].
  - intros lat lon w w' Hfound.
    unfold checkLocalNews, bind, ret. rewrite Hfound. reflexivity.
  - unfold surfaced. rewrite length_take. lia.
  - intros a Ha same.
    destruct (filter_mem_head same alerts a Ha eq_refl) as [first Hfirst].
    assert (Hunique : filter same unique = [first]).
    { unfold unique, same. rewrite dedupe_filter.
      rewrite decide_False by apply not_elem_of_empty.
      fold same. rewrite Hfirst. reflexivity. }
    exists first. split; [exact Hfirst|]. split; [exact Hunique|]. split.
    + destruct (filter_take same 5 unique) as [m Hm].
      fold surfaced in Hm. rewrite Hm, Hunique.
      destruct m as [|m]; [right; reflexivity|].
      left. cbn [take]. rewrite take_nil. reflexivity.
    + intros Hshort. unfold surfaced. rewrite take_ge by exact Hshort. exact Hunique.
Qed.

(** C5, as amended: every result built by the weather, earthquake, air
    quality, news and web search adapters of the safety check and by the
    environmental and network adapters of the self check has
    [ok = (alerts.length == 0)].  The result of the system health adapter has
    [ok] true exactly when every alert it holds has severity [info]. *)
Theorem ok_flag_of_adapter_results (w : world) (lat lon : value) :
  (exists v w', checkNWSAlerts lat lon w = (Returned v, w') /\ ok_matches_alerts v) /\
  (exists v w', checkEarthquakes CONFIG lat lon w = (Returned v, w') /\
                ok_matches_alerts v) /\
  (exists v w', checkAirQuality lat lon w = (Returned v, w') /\ ok_matches_alerts v) /\
  (exists v w', checkLocalNews CONFIG lat lon w = (Returned v, w') /\
                ok_matches_alerts v) /\
  (exists v w', searchBreakingNews lat lon w = (Returned v, w') /\ ok_matches_alerts v) /\
  (exists v w', checkEnvironmentalThreats lat lon w = (Returned v, w') /\
                ok_matches_alerts v) /\
  (exists v w', checkConnectivity w = (Returned v, w') /\ ok_matches_alerts v) /\
  (exists alerts,
     checkSystemHealth w
     = (Returned (VObj [("source", VStr "System");
                        ("ok", VBool (forallb is_info alerts));
                        ("alerts", VArr (hostAlert_value <$> alerts))]), w)).
Proof.
  repeat split.
  - destruct (checkNWSAlerts_spec lat lon w) as (v & ? & ?); eauto.
  - destruct (checkEarthquakes_spec CONFIG lat lon w) as (v & ? & ?); eauto.
  - destruct (checkAirQuality_spec lat lon w) as (v & ? & ?); eauto.
  - destruct (checkLocalNews_spec CONFIG lat lon w) as (v & ? & ?); eauto.
  - do 2 eexists. split; [reflexivity|]. exists []. split; reflexivity.
  - apply checkEnvironmentalThreats_spec.
  - apply checkConnectivity_spec.
  - destruct (systemHealth_spec w) as [alerts H]. exists alerts.
    unfold checkSystemHealth, bind. rewrite H. reflexivity.
Qed.

End AggregatorClaims.

Section EscalationRuns.
#[local] Existing Instance Sample.runtime.

(** An alert sent at 22:00:00 is still waiting at 22:14:59, with one minute
    left, and is escalated at 22:15:00. *)
Lemma escalation_threshold_witness :
  (exists out,
     run (Sample.offline (Sample.t0 + 899000) {[ STATE_FILE := Sample.pending_state ]})
     = (Returned tt,
        add_stdout out
          (Sample.offline (Sample.t0 + 899000) {[ STATE_FILE := Sample.pending_state ]})) /\
     getPropOpt out "action" = VStr "waiting" /\
     getPropOpt out "minutesRemaining" = VInt 1) /\
  (exists out,
     run (Sample.offline (Sample.t0 + 900000) {[ STATE_FILE := Sample.pending_state ]})
     = (Returned tt,
        add_stdout out
          (Sample.offline (Sample.t0 + 900000) {[ STATE_FILE := Sample.pending_state ]})) /\
     getPropOpt out "action" = VStr "escalate").
Proof.
  split.
  - destruct (escalation_threshold
                (Sample.offline (Sample.t0 + 899000) {[ STATE_FILE := Sample.pending_state ]})
                Sample.pending_state Sample.t0)
      as (out & Hrun & _ & Hwait & Hone); try reflexivity.
    exists out. split; [exact Hrun|].
    split; [apply Hwait; reflexivity | apply Hone; reflexivity].
  - destruct (escalation_threshold
                (Sample.offline (Sample.t0 + 900000) {[ STATE_FILE := Sample.pending_state ]})
                Sample.pending_state Sample.t0)
      as (out & Hrun & Hescalate & _); try reflexivity.
    exists out. split; [exact Hrun|].
    apply Hescalate. discriminate.
Defined.

(** An alert sent at 22:00:00, acknowledged at 22:19:00 and checked at
    22:20:00. *)
Lemma acknowledged_alert_never_escalates_witness :
  exists out,
    run (Sample.offline (Sample.t0 + 1200000) {[ STATE_FILE := Sample.acknowledged_state ]})
    = (Returned tt,
       add_stdout out
         (Sample.offline (Sample.t0 + 1200000) {[ STATE_FILE := Sample.acknowledged_state ]})) /\
    getPropOpt out "action" = VStr "none".
Proof.
  apply (acknowledged_alert_never_escalates (rt := Sample.runtime)
           (Sample.offline (Sample.t0 + 1200000) {[ STATE_FILE := Sample.acknowledged_state ]})
           Sample.acknowledged_state); reflexivity.
Defined.

(** Two runs at 22:20:00 on the unacknowledged alert. *)
Lemma escalation_check_is_a_pure_read_witness :
  exists r,
    run (Sample.offline (Sample.t0 + 1200000) {[ STATE_FILE := Sample.pending_state ]})
    = emit r (Sample.offline (Sample.t0 + 1200000) {[ STATE_FILE := Sample.pending_state ]}) /\
    run (snd (run (Sample.offline (Sample.t0 + 1200000) {[ STATE_FILE := Sample.pending_state ]})))
    = emit r (snd (run (Sample.offline (Sample.t0 + 1200000)
                          {[ STATE_FILE := Sample.pending_state ]}))).
Proof.
  destruct (escalation_check_is_a_pure_read (rt := Sample.runtime)
              (Sample.offline (Sample.t0 + 1200000) {[ STATE_FILE := Sample.pending_state ]}))
    as (r & Hsame & _ & Hagain).
  exists r. split; [apply Hsame; reflexivity | exact Hagain].
Defined.

End EscalationRuns.

Section AggregatorRuns.
#[local] Existing Instance Sample.runtime.
#[local] Existing Instance Sample.news_runtime.

(** The system health adapter on a machine whose only finding is an uptime
    of 31 days: [ok] is true and [alerts] holds the uptime notice. *)
Lemma system_health_ok_with_an_alert :
  exists v,
    fst (checkSystemHealth Sample.long_uptime) = Returned v /\
    getPropOpt v "ok" = VBool true /\
    getPropOpt v "alerts"
    = VArr [VObj [("type", VStr "uptime"); ("severity", VStr "info");
                  ("message",
                   VStr "System has been up 31 days - consider a restart soon")]] /\
    ~ ok_matches_alerts v.
Proof.
  eexists. split; [vm_compute; reflexivity|].
  split; [reflexivity|]. split; [reflexivity|].
  intros (alerts & Halerts & Hok). cbn in Halerts, Hok.
  injection Halerts as <-. discriminate Hok.
Qed.

(** Seven items of one feed, each of which survives the filters: five
    stories, then two items for the same story.  The alerts of these two
    share their key, and none of the two is among the alerts returned. *)
Lemma duplicates_beyond_the_cap :
  let found := omap (item_alert default_config Sample.t0 Sample.king5_feed)
                    Sample.busy_items in
  found = Sample.busy_feed /\
  length found = 7%nat /\
  exists a b,
    a ∈ found /\ b ∈ found /\
    title a <> title b /\
    dedupe_key a = dedupe_key b /\
    filter (fun c => dedupe_key c = dedupe_key a) (take 5 (dedupe ∅ found)) = [].
Proof.
  assert (Hfound : omap (item_alert default_config Sample.t0 Sample.king5_feed)
                        Sample.busy_items = Sample.busy_feed)
    by (vm_compute; reflexivity).
  cbv zeta. rewrite Hfound.
  split; [reflexivity|]. split; [reflexivity|].
  exists (Sample.headline "Gas leak prompts evacuation order in the Ballard area of Seattle"),
    (Sample.headline
       "GAS LEAK prompts evacuation order in the Ballard area of Seattle - update").
  split; [do 5 apply list_elem_of_further; apply list_elem_of_here|].
  split; [do 6 apply list_elem_of_further; apply list_elem_of_here|].
  split; [discriminate|]. split; [vm_compute; reflexivity|].
  vm_compute. reflexivity.
Qed.

(** The run of the news adapter on that feed: five alerts are returned, one
    for each of the first five stories. *)
Example busy_feed_run :
  fst (checkLocalNews (nrt := Sample.busy_news_runtime) Sample.king5_only
         (getPropOpt Sample.seattle "lat") (getPropOpt Sample.seattle "lon")
         {| clock := Sample.t0; fs := ∅;
            http := fun _ => Returned "<rss></rss>";
            exec := fun _ => Thrown "spawnSync /bin/sh ENOENT";
            requests := []; stdout := []; stderr := [] |})
  = Returned (VObj [("source", VStr "LocalNews"); ("ok", VBool false);
                    ("alerts",
                     VArr (newsAlert_value <$> take 5 Sample.busy_feed))]).
Proof. vm_compute. reflexivity. Qed.



(** A run with no location.json. *)
Lemma no_location_is_a_distinct_error_witness :
  exists r,
    runSafetyCheck default_config (Sample.offline Sample.t0 ∅)
    = (Returned r, Sample.offline Sample.t0 ∅) /\
    getPropOpt r "error" = VStr "No location data available" /\
    getPropOpt r "status" = VUndefined /\
    getPropOpt r "checks" = VUndefined.
Proof.
  apply (no_location_is_a_distinct_error default_config (Sample.offline Sample.t0 ∅)).
  left. reflexivity.
Defined.

(** A run at the Royal Observatory, longitude 0. *)
Lemma zero_coordinate_is_no_location_witness :
  runSafetyCheck default_config
    (Sample.offline Sample.t0 {[ LOCATION_FILE := Sample.greenwich ]})
  = (Returned (VObj [("error", VStr "No location data available");
                     ("timestamp", VStr "2026-01-29T22:00:00.000Z")]),
     Sample.offline Sample.t0 {[ LOCATION_FILE := Sample.greenwich ]}).
Proof.
  rewrite (zero_coordinate_is_no_location default_config
             (Sample.offline Sample.t0 {[ LOCATION_FILE := Sample.greenwich ]})
             Sample.greenwich (inject_Z 0));
    [reflexivity | reflexivity | right; reflexivity | reflexivity].
Defined.

(** The story that comes first in the busy feed is returned. *)
Lemma dedupe_first_wins_then_cap_witness :
  let a := Sample.headline "Flash flood warning in effect for King County rivers" in
  let same b := dedupe_key b = dedupe_key a in
  exists first,
    head (filter same Sample.busy_feed) = Some first /\
    filter same (dedupe ∅ Sample.busy_feed) = [first] /\
    (filter same (take 5 (dedupe ∅ Sample.busy_feed)) = [first] \/
     filter same (take 5 (dedupe ∅ Sample.busy_feed)) = []) /\
    ((length (dedupe ∅ Sample.busy_feed) <= 5)%nat ->
     filter same (take 5 (dedupe ∅ Sample.busy_feed)) = [first]).
Proof.
  apply (proj2 (proj2 (dedupe_first_wins_then_cap default_config Sample.busy_feed))).
  apply list_elem_of_here.
Defined.

(** The end-to-end scenario: Seattle, the earthquake scenario injected one
    minute ago, the other sources clear. *)
Example earthquake_scenario_run :
  exists r quake,
    fst (runSafetyCheck default_config
           (Sample.offline (Sample.t0 + 60000)
              {[ LOCATION_FILE := Sample.seattle;
                 TEST_OVERRIDE_FILE := Sample.earthquake_override ]})) = Returned r /\
    getPropOpt r "status" = VStr "ALERTS_FOUND" /\
    getPropOpt (getPropOpt (getPropOpt r "checks") "usgs") "alerts" = VArr [quake].
Proof.
  do 2 eexists. split; [vm_compute; reflexivity|]. split; reflexivity.
Qed.

(** The same files two hours later: the override is expired, the file is
    removed and the verdict is that of the real sources. *)
Example expired_scenario_run :
  exists r w',
    runSafetyCheck default_config
      (Sample.offline (Sample.t0 + 7200000)
         {[ LOCATION_FILE := Sample.seattle;
            TEST_OVERRIDE_FILE := Sample.earthquake_override ]}) = (Returned r, w') /\
    getPropOpt r "status" = VStr "ALL_CLEAR" /\
    fs w' !! TEST_OVERRIDE_FILE = None.
Proof.
  do 2 eexists. split; [vm_compute; reflexivity|]. split; [reflexivity|].
  vm_compute. reflexivity.
Qed.

End AggregatorRuns.

(** ** The location webhook *)

Lemma truthy_jsonify (v : value) : truthy (jsonify v) = truthy v.
Proof. destruct v as [| | |[q|]| | |]; reflexivity. Qed.


Section ServerFacts.
Context {rt : JSRuntime}.
Variable SECRET_KEY : string.

Lemma right_key (k : option string) :
  wrong_key SECRET_KEY k = false -> k = Some SECRET_KEY.
Proof.
  destruct k as [k|]; simpl; [|discriminate].
  intros H. apply negb_false_iff, String.eqb_eq in H. congruence.
Qed.

(** The ways the update route can end: an exception before anything is
    written, a message that is skipped, or the record written and reported. *)
Lemma update_location_cases (text : string) (w : world) :
  (exists e w', update_location text w = (Thrown e, w') /\ fs w' = fs w) \/
  (exists type w',
     update_location text w
     = (Returned (send_json 200 (VObj [("success", VBool true); ("skipped", type)])), w') /\
     fs w' = fs w) \/
  (exists data location w',
     JSON_parse text = Returned data /\
     location_record data (clock w) = Returned location /\
     update_location text w
     = (Returned (send_json 200 (VObj [("success", VBool true);
                                       ("location", location)])), w') /\
     fs w' = <[LOCATION_FILE := jsonify location]> (fs w)).
Proof.
  unfold update_location, bind, lift, console_log, Date_now, writeJSON, ret.
  destruct (JSON_parse text) as [data|e]; [|left; eauto].
  destruct (getProp data "_type") as [type|e]; [|left; eauto].
  destruct (truthy type && _); [right; left; eauto|].
  cbn [clock add_stdout].
  destruct (location_record data (clock w)) as [location|e] eqn:Hrec; [|left; eauto].
  right. right. exists data, location. eexists.
  split; [reflexivity|]. split; [exact Hrec|]. split; reflexivity.
Qed.

(** Every request whose target has been parsed is answered; the answer
    carries the cross-origin headers; the files are left as they were unless
    the request is a POST of /location with the right key that is answered
    200, which writes location.json. *)
Lemma handle_cases (req : request) (w : world) :
  exists res w',
    handle SECRET_KEY req w = (Returned res, w') /\
    (exists more, headers res = (CORS_HEADERS ++ more)%list) /\
    (fs w' = fs w \/
     (method req = "POST" /\ pathname req = "/location" /\
      key req = Some SECRET_KEY /\ statusCode res = 200 /\
      exists location, fs w' = <[LOCATION_FILE := location]> (fs w))).
Proof.
  unfold handle.
  destruct (String.eqb (method req) "OPTIONS").
  { do 2 eexists. split; [reflexivity|]. split; [exists []; reflexivity | left; reflexivity]. }
  destruct (String.eqb (pathname req) "/health").
  { do 2 eexists. split; [reflexivity|]. split; [eexists; reflexivity | left; reflexivity]. }
  destruct (String.eqb (method req) "GET" && String.eqb (pathname req) "/location").
  { destruct (wrong_key SECRET_KEY (key req)).
    - do 2 eexists. split; [reflexivity|].
      split; [eexists; reflexivity | left; reflexivity].
    - unfold bind, attempt, readJSON, ret.
      destruct (fs w !! LOCATION_FILE);
        (do 2 eexists; split; [reflexivity|];
         split; [eexists; reflexivity | left; reflexivity]). }
  destruct (String.eqb (method req) "POST" && String.eqb (pathname req) "/location") eqn:Hpost.
  2:{ do 2 eexists. split; [reflexivity|].
      split; [eexists; reflexivity | left; reflexivity]. }
  apply andb_true_iff in Hpost as [Hm Hp].
  apply String.eqb_eq in Hm, Hp.
  destruct (wrong_key SECRET_KEY (key req)) eqn:Hkey.
  { do 2 eexists. split; [reflexivity|].
    split; [eexists; reflexivity | left; reflexivity]. }
  apply right_key in Hkey.
  unfold bind, attempt, ret.
  destruct (update_location_cases (body req) w)
    as [(e & w' & -> & Hfs)|[(type & w' & -> & Hfs)|(data & location & w' & _ & _ & -> & Hfs)]].
  - do 2 eexists. split; [reflexivity|].
    split; [eexists; reflexivity | left; exact Hfs].
  - do 2 eexists. split; [reflexivity|].
    split; [eexists; reflexivity | left; exact Hfs].
  - do 2 eexists. split; [reflexivity|].
    split; [eexists; reflexivity|]. right. eauto 10.
Qed.

End ServerFacts.


Section ServerProperties.
Context {rt : JSRuntime} {nrt : NewsRuntime} {web : WebRuntime}.
Variable SECRET_KEY : string.
Variable CONFIG : config.

Lemma wrong_key_other (k : option string) :
  k <> Some SECRET_KEY -> wrong_key SECRET_KEY k = true.
Proof.
  destruct k as [k|]; simpl; [|reflexivity].
  intros H. apply negb_true_iff. destruct (String.eqb_spec k SECRET_KEY); congruence.
Qed.



(** X1: a GET or a POST of /location whose key is not the secret key is
    answered 401 and changes nothing: no file, no log line. *)
Theorem location_needs_the_key (req : request) (w : world) :
  pathname req = "/location" ->
  method req = "GET" \/ method req = "POST" ->
  key req <> Some SECRET_KEY ->
  handle SECRET_KEY req w
  = (Returned (send_json 401 (VObj [("error", VStr "unauthorized")])), w).
Proof.
  intros Hp Hm Hk. unfold handle.
  rewrite Hp, (wrong_key_other _ Hk).
  destruct Hm as [-> | ->]; reflexivity.
Qed.

(** X2: the callback answers every OPTIONS request and every request whose
    target parses as a URL.  On any other request the exception of [new URL]
    escapes the callback: the request is not answered, and nothing is
    written or logged.  The only file the callback ever changes is
    location.json, and only on a POST whose target parses to the path
    /location with the secret key. *)
Theorem only_an_authorized_post_writes (req : incoming) (w : world) :
  let w' := snd (on_request SECRET_KEY req w) in
  (in_method req = "OPTIONS" \/ (exists url, URL_parse (in_url req) = Returned url) ->
   exists res, fst (on_request SECRET_KEY req w) = Returned res) /\
  (forall e, in_method req <> "OPTIONS" -> URL_parse (in_url req) = Thrown e ->
             on_request SECRET_KEY req w = (Thrown e, w)) /\
  (forall path, path <> LOCATION_FILE -> fs w' !! path = fs w !! path) /\
  (fs w' !! LOCATION_FILE <> fs w !! LOCATION_FILE ->
   in_method req = "POST" /\
   URL_parse (in_url req) = Returned ("/location", Some SECRET_KEY)).
Proof.
  unfold on_request.
  destruct (String.eqb_spec (in_method req) "OPTIONS") as [Hoptions|Hother].
  { cbn [snd fst ret]. split; [eauto|]. split; [congruence|].
    split; [reflexivity|]. intros H. exfalso. apply H. reflexivity. }
  unfold bind, lift.
  destruct (URL_parse (in_url req)) as [[path k]|e0] eqn:Hurl.
  2:{ cbn [snd fst]. split; [intros [H|[url H]]; congruence|].
      split; [intros e _ [= <-]; reflexivity|].
      split; [reflexivity|]. intros H. exfalso. apply H. reflexivity. }
  cbn [fst snd].
  destruct (handle_cases SECRET_KEY
              {| method := in_method req; pathname := path; key := k;
                 body := in_body req |} w)
    as (res & w' & Hrun & _ & [Hfs|(Hm & Hp & Hk & _ & location & Hfs)]);
    rewrite Hrun; cbn [fst snd method pathname key] in *; rewrite Hfs.
  - split; [eauto|]. split; [discriminate|].
    split; [reflexivity|]. intros H. exfalso. apply H. reflexivity.
  - split; [eauto|]. split; [discriminate|].
    split; [intros p Hp'; apply lookup_insert_ne; congruence|].
    intros _. split; [exact Hm|]. rewrite Hp, Hk. reflexivity.
Qed.


(** X4: every answer, whatever the route, the key and the outcome, carries
    the three cross-origin headers, the first of which allows any origin. *)
Theorem every_answer_allows_any_origin (req : request) (w : world) :
  exists res more,
    fst (handle SECRET_KEY req w) = Returned res /\
    headers res
    = (("Access-Control-Allow-Origin", "*") ::
       ("Access-Control-Allow-Methods", "GET, POST, OPTIONS") ::
       ("Access-Control-Allow-Headers", "Content-Type") :: more).
Proof.
  destruct (handle_cases SECRET_KEY req w) as (res & w' & Hrun & [more Hh] & _).
  exists res, more. rewrite Hrun. split; [reflexivity | exact Hh].
Qed.






End ServerProperties.

Section ServerRuns.
#[local] Existing Instance Wire.runtime.
#[local] Existing Instance Wire.web_runtime.
#[local] Existing Instance Sample.news_runtime.

(** A GET with a guessed key. *)
Lemma location_needs_the_key_witness :
  handle Wire.secret (Wire.get (Some "guess")) Wire.fresh
  = (Returned (send_json 401 (VObj [("error", VStr "unauthorized")])), Wire.fresh).
Proof.
  apply location_needs_the_key; [reflexivity | left; reflexivity | discriminate].
Defined.

(** A request whose target is two slashes, and the update that creates
    location.json. *)
Lemma only_an_authorized_post_writes_witness :
  on_request Wire.secret
    {| in_method := "GET"; in_url := "//"; in_body := "" |} Wire.fresh
  = (Thrown "Invalid URL", Wire.fresh) /\
  (exists res,
     fst (on_request Wire.secret
            {| in_method := "POST"; in_url := "/location?key=" ++ Wire.secret;
               in_body := Wire.seattle_fix |} Wire.fresh) = Returned res).
Proof.
  split.
  - apply (proj1 (proj2 (only_an_authorized_post_writes Wire.secret
                           {| in_method := "GET"; in_url := "//"; in_body := "" |}
                           Wire.fresh)));
      [discriminate | reflexivity].
  - apply (proj1 (only_an_authorized_post_writes Wire.secret
                    {| in_method := "POST"; in_url := "/location?key=" ++ Wire.secret;
                       in_body := Wire.seattle_fix |} Wire.fresh)).
    right. eexists. vm_compute. reflexivity.
Defined.

(** The update that creates location.json, as it arrives. *)
Example keyed_update_run :
  exists res w',
    on_request Wire.secret
      {| in_method := "POST"; in_url := "/location?key=" ++ Wire.secret;
         in_body := Wire.seattle_fix |} Wire.fresh = (Returned res, w') /\
    statusCode res = 200 /\
    fs Wire.fresh !! LOCATION_FILE = None /\
    fs w' !! LOCATION_FILE <> None.
Proof.
  do 2 eexists. split; [vm_compute; reflexivity|].
  split; [reflexivity|]. split; [reflexivity|]. vm_compute. discriminate.
Qed.


(** A fix whose time reads "soon". *)
Example unreadable_tst_run :
  exists w',
    handle Wire.secret
      (Wire.post (Some Wire.secret)
         ("{" ++ Wire.quoted "lat" ++ ":47.6062," ++ Wire.quoted "lon" ++
          ":-122.3321," ++ Wire.quoted "tst" ++ ":" ++ Wire.quoted "soon" ++ "}"))
      Wire.fresh
    = (Returned (send_json 400 (VObj [("error", VStr "invalid json");
                                      ("message", VStr "Invalid time value")])), w') /\
    fs w' = fs Wire.fresh.
Proof. eexists. split; [vm_compute; reflexivity | reflexivity]. Qed.





End ServerRuns.

(** ** Independence of the checks *)

Lemma surroundings_eq w1 w2 :
  surroundings w1 = surroundings w2 ->
  clock w1 = clock w2 /\ http w1 = http w2 /\ exec w1 = exec w2.
Proof. unfold surroundings. intros [= -> -> ->]. repeat split. Qed.

Lemma ros_ret {A} (a : A) : reads_only_surroundings (ret a).
Proof. split; reflexivity. Qed.

Lemma ros_lift {A} (o : outcome A) : reads_only_surroundings (lift o).
Proof. split; reflexivity. Qed.

Lemma ros_bind {A B} (c : M A) (k : A -> M B) :
  reads_only_surroundings c -> (forall a, reads_only_surroundings (k a)) ->
  reads_only_surroundings (bind c k).
Proof.
  intros [Hc1 Hc2] Hk. split.
  - intros w. unfold bind. specialize (Hc1 w).
    destruct (c w) as [[a|e] w']; simpl in *; [|exact Hc1].
    rewrite (proj1 (Hk a) w'). exact Hc1.
  - intros w1 w2 Hsame. unfold bind.
    pose proof (Hc1 w1) as H1. pose proof (Hc1 w2) as H2.
    specialize (Hc2 w1 w2 Hsame).
    destruct (c w1) as [[a1|e1] w1'], (c w2) as [[a2|e2] w2']; simpl in *;
      try discriminate.
    + injection Hc2 as ->. apply (proj2 (Hk a2)). congruence.
    + injection Hc2 as ->. reflexivity.
Qed.

Lemma ros_attempt {A} (c : M A) :
  reads_only_surroundings c -> reads_only_surroundings (attempt c).
Proof.
  intros [Hc1 Hc2]. split.
  - intros w. unfold attempt. specialize (Hc1 w). destruct (c w). exact Hc1.
  - intros w1 w2 Hsame. unfold attempt. specialize (Hc2 w1 w2 Hsame).
    destruct (c w1), (c w2). simpl in *. congruence.
Qed.

Lemma ros_Date_now : reads_only_surroundings Date_now.
Proof.
  split; [reflexivity|]. intros w1 w2 H. apply surroundings_eq in H as (H & _).
  unfold Date_now. simpl. rewrite H. reflexivity.
Qed.

Lemma ros_fetch url : reads_only_surroundings (fetch url).
Proof.
  split; [reflexivity|]. intros w1 w2 H. apply surroundings_eq in H as (_ & H & _).
  unfold fetch. simpl. rewrite H. reflexivity.
Qed.

Lemma ros_execSync cmd : reads_only_surroundings (execSync cmd).
Proof.
  split; [reflexivity|]. intros w1 w2 H. apply surroundings_eq in H as (_ & _ & H).
  unfold execSync. simpl. rewrite H. reflexivity.
Qed.

Lemma ros_console_error s : reads_only_surroundings (console_error s).
Proof. split; reflexivity. Qed.

Lemma ros_console_log v : reads_only_surroundings (console_log v).
Proof. split; reflexivity. Qed.

Lemma ros_match {A B} (o : outcome A) (f : A -> M B) (g : string -> M B) :
  (forall a, reads_only_surroundings (f a)) -> (forall e, reads_only_surroundings (g e)) ->
  reads_only_surroundings (match o with Returned a => f a | Thrown e => g e end).
Proof. intros Hf Hg. destruct o; auto. Qed.

(** Solves goals [reads_only_surroundings c] for a computation built from
    the primitives above. *)
Ltac ros :=
  repeat first
    [ apply ros_ret | apply ros_lift | apply ros_Date_now | apply ros_fetch
    | apply ros_execSync | apply ros_console_error | apply ros_console_log
    | apply ros_attempt
    | apply ros_bind; [|intros ?]
    | apply ros_match; intros ?
    | match goal with
      | |- reads_only_surroundings (let (_, _) := ?p in _) => destruct p
      | |- reads_only_surroundings (if ?b then _ else _) => destruct b
      | |- reads_only_surroundings (match ?x with _ => _ end) => destruct x
      end ].

Section Independence.
Context {rt : JSRuntime} {nrt : NewsRuntime}.
Variable CONFIG : config.

Lemma ros_checkNWSAlerts lat lon : reads_only_surroundings (checkNWSAlerts lat lon).
Proof. unfold checkNWSAlerts. ros. Qed.

Lemma ros_checkEarthquakes lat lon :
  reads_only_surroundings (checkEarthquakes CONFIG lat lon).
Proof. unfold checkEarthquakes. ros. Qed.

Lemma ros_checkAirQuality lat lon : reads_only_surroundings (checkAirQuality lat lon).
Proof. unfold checkAirQuality. ros. Qed.

Lemma ros_all_feed_alerts urls : reads_only_surroundings (all_feed_alerts CONFIG urls).
Proof.
  induction urls as [|url urls IH]; simpl; [apply ros_ret|].
  apply ros_bind; [unfold feed_alerts; ros|]. intros found.
  apply ros_bind; [exact IH|]. intros more. apply ros_ret.
Qed.

Lemma ros_checkLocalNews lat lon :
  reads_only_surroundings (checkLocalNews CONFIG lat lon).
Proof.
  unfold checkLocalNews. apply ros_bind; [apply ros_all_feed_alerts|].
  intros alerts. apply ros_ret.
Qed.

Lemma ros_systemHealth : reads_only_surroundings systemHealth.
Proof. unfold systemHealth, probe. ros. Qed.

Lemma ros_environmentalThreats lat lon :
  reads_only_surroundings (environmentalThreats lat lon).
Proof. unfold environmentalThreats, threats_from. ros. Qed.

Lemma ros_connectivity : reads_only_surroundings connectivity.
Proof. unfold connectivity. ros. Qed.

End Independence.

Section IndependenceProperties.
Context {rt : JSRuntime} {nrt : NewsRuntime}.
Variable CONFIG : config.

Lemma getTestOverride_surroundings w :
  surroundings (snd (getTestOverride w)) = surroundings w.
Proof.
  unfold getTestOverride, bind, attempt, readJSON, lift, Date_now, ret,
    console_error, unlinkSync.
  destruct (fs w !! TEST_OVERRIDE_FILE) as [override|] eqn:Hfs; [|reflexivity].
  destruct (getProp override "_expiresAt") as [expiresAt|]; [|reflexivity].
  destruct (truthy expiresAt && date_before expiresAt (clock w)).
  - rewrite Hfs. reflexivity.
  - destruct (getProp override "_scenario"); reflexivity.
Qed.

(** What [getTestOverride] hands back is [null] or the content of the
    override file. *)
Lemma getTestOverride_value w :
  exists ov, fst (getTestOverride w) = Returned ov /\
             (ov = VNull \/ fs w !! TEST_OVERRIDE_FILE = Some ov).
Proof.
  unfold getTestOverride, bind, attempt, readJSON, lift, Date_now, ret,
    console_error, unlinkSync.
  destruct (fs w !! TEST_OVERRIDE_FILE) as [override|] eqn:Hfs; [|eauto].
  destruct (getProp override "_expiresAt") as [expiresAt|]; [|eauto].
  destruct (truthy expiresAt && date_before expiresAt (clock w)).
  - rewrite Hfs. eauto.
  - destruct (getProp override "_scenario"); eauto.
Qed.

Lemma runSafetyCheck_alone (w : world) (location : value) :
  fs w !! LOCATION_FILE = Some location ->
  truthy location = true ->
  truthy (getPropOpt location "lat") = true ->
  truthy (getPropOpt location "lon") = true ->
  let lat := getPropOpt location "lat" in
  let lon := getPropOpt location "lon" in
  exists ov nws usgs aqi news,
    fst (getTestOverride w) = Returned ov /\
    fst (checkNWSAlerts lat lon w) = Returned nws /\
    fst (checkEarthquakes CONFIG lat lon w) = Returned usgs /\
    fst (checkAirQuality lat lon w) = Returned aqi /\
    fst (checkLocalNews CONFIG lat lon w) = Returned news /\
    fst (runSafetyCheck CONFIG w)
    = Returned (VObj (report (clock w) location
                        (apply_override ov "nws" nws)
                        (apply_override ov "usgs" usgs)
                        (apply_override ov "aqi" aqi)
                        (apply_override ov "news" news))).
Proof.
  intros Hfs Hloc Hlat Hlon lat lon.
  destruct (runSafetyCheck_report CONFIG w location Hfs Hloc Hlat Hlon)
    as (ov & w1 & msg & nws & w2 & usgs & w3 & aqi & w4 & news & w5 & wf
        & Hov & Hnws & Husgs & Haqi & Hnews & Hrun).
  fold lat lon in Hnws, Husgs, Haqi, Hnews.
  pose proof (getTestOverride_surroundings w) as S1. rewrite Hov in S1. cbn [snd] in S1.
  assert (S2 : surroundings w2 = surroundings w).
  { pose proof (proj1 (ros_checkNWSAlerts lat lon) (add_stderr msg w1)) as H.
    rewrite Hnws in H. cbn [snd] in H. rewrite H. exact S1. }
  assert (S3 : surroundings w3 = surroundings w).
  { pose proof (proj1 (ros_checkEarthquakes CONFIG lat lon) w2) as H.
    rewrite Husgs in H. cbn [snd] in H. congruence. }
  assert (S4 : surroundings w4 = surroundings w).
  { pose proof (proj1 (ros_checkAirQuality lat lon) w3) as H.
    rewrite Haqi in H. cbn [snd] in H. congruence. }
  exists ov, nws, usgs, aqi, news.
  split; [rewrite Hov; reflexivity|].
  split; [rewrite <- (proj2 (ros_checkNWSAlerts lat lon) (add_stderr msg w1) w S1), Hnws;
          reflexivity|].
  split; [rewrite <- (proj2 (ros_checkEarthquakes CONFIG lat lon) w2 w S2), Husgs;
          reflexivity|].
  split; [rewrite <- (proj2 (ros_checkAirQuality lat lon) w3 w S3), Haqi; reflexivity|].
  split; [rewrite <- (proj2 (ros_checkLocalNews CONFIG lat lon) w4 w S4), Hnews;
          reflexivity|].
  rewrite Hrun. reflexivity.
Qed.


End IndependenceProperties.

(** ** The verdict of the safety check *)

Section Verdict.
Context {rt : JSRuntime} {nrt : NewsRuntime}.
Variable CONFIG : config.


End Verdict.

Section VerdictRuns.
#[local] Existing Instance Wire.runtime.
#[local] Existing Instance Sample.news_runtime.


(** In that run the earthquake check is not satisfied and the status is
    ALERTS_FOUND; with every service out of reach the status is ALL_CLEAR. *)
Example one_alert_is_enough :
  (exists r,
     fst (runSafetyCheck default_config
            (Wire.serving Sample.t0 {[ LOCATION_FILE := Sample.seattle ]}
               Wire.quake_reply)) = Returned r /\
     getPropOpt (getPropOpt (getPropOpt r "checks") "usgs") "ok" = VBool false /\
     getPropOpt (getPropOpt (getPropOpt r "checks") "aqi") "ok" = VBool true /\
     getPropOpt r "status" = VStr "ALERTS_FOUND") /\
  (exists r,
     fst (runSafetyCheck default_config
            (Sample.offline Sample.t0 {[ LOCATION_FILE := Sample.seattle ]}))
     = Returned r /\
     getPropOpt r "status" = VStr "ALL_CLEAR").
Proof.
  split; eexists; (split; [vm_compute; reflexivity|]); repeat split.
Qed.

End VerdictRuns.


(** ** The scenario injector *)

Section InjectorFacts.
Context {rt : JSRuntime} {nrt : NewsRuntime}.
Variable CONFIG : config.

(** The override written at time [now] for a scenario with these entries. *)
Lemma inject_spec (scenario : string) (entries : list (string * value)) (w : world) :
  scenario <> "" -> scenario <> "clear" ->
  override_entries (clock w) scenario = Some entries ->
  exists w',
    test_scenarios (Some scenario) w = (Returned 0, w') /\
    fs w' = <[TEST_OVERRIDE_FILE :=
                jsonify (VObj (entries ++
                               [("_test", VBool true);
                                ("_scenario", VStr scenario);
                                ("_createdAt", VStr (toISOString (clock w)));
                                ("_expiresAt",
                                 VStr (toISOString (clock w + 3600000)))]))]> (fs w).
Proof.
  intros Hne Hclear Hentries.
  destruct scenario as [|c s]; [congruence|].
  unfold test_scenarios.
  destruct (String.eqb_spec (String c s) "clear") as [E|_]; [congruence|].
  unfold bind, Date_now. rewrite Hentries.
  unfold writeJSON, console_log_lines, bind, console_log, ret.
  eexists. split; reflexivity.
Qed.

Lemma scenario_key_cases (scenario k : string) :
  lookup_name scenario scenario_keys = Some k ->
  k = "nws" \/ k = "usgs" \/ k = "aqi" \/ k = "news" \/ k = "system".
Proof.
  unfold scenario_keys. cbn [lookup_name].
  repeat match goal with |- context [String.eqb scenario ?x] =>
           destruct (String.eqb scenario x) end;
    intros [= <-]; auto 10.
Qed.

(** The expiry recorded in the file an accepted scenario leaves. *)
Lemma injected_expiry (now : Z) (scenario : string) (entries : list (string * value)) :
  override_entries now scenario = Some entries ->
  exists fields,
    jsonify (VObj (entries ++
                   [("_test", VBool true);
                    ("_scenario", VStr scenario);
                    ("_createdAt", VStr (toISOString now));
                    ("_expiresAt", VStr (toISOString (now + 3600000)))])) = VObj fields /\
    assoc "_expiresAt" fields = VStr (toISOString (now + 3600000)) /\
    (forall k, In k ["nws"; "usgs"; "aqi"; "news"] ->
       assoc k fields = match lookup_name k entries with
                        | Some content => content
                        | None => VUndefined
                        end).
Proof.
  unfold override_entries.
  destruct (String.eqb scenario "all").
  { intros [= <-]. eexists. split; [reflexivity|]. split; [reflexivity|].
    intros k [<-|[<-|[<-|[<-|[]]]]]; reflexivity. }
  destruct (lookup_name scenario (scenarios now)) as [content|] eqn:Hcontent;
    [destruct (lookup_name scenario scenario_keys) as [key|] eqn:Hkey|].
  - intros [= <-].
    assert (Hown : In content (List.map snd (scenarios now))).
    { clear Hkey. revert Hcontent. unfold scenarios. cbn [lookup_name].
      repeat match goal with |- context [String.eqb scenario ?x] =>
               destruct (String.eqb scenario x) end;
        intros [= <-]; cbn; auto 10. }
    apply scenario_key_cases in Hkey.
    cbn in Hown.
    destruct Hown as [<-|[<-|[<-|[<-|[<-|[<-|[]]]]]]];
      destruct Hkey as [->|[->|[->|[->| ->]]]];
      (eexists; split; [reflexivity|]; split; [reflexivity|];
       intros k [<-|[<-|[<-|[<-|[]]]]]; reflexivity).
  - destruct (existsb _ _); [|destruct (String.eqb scenario "__proto__")];
      intros [= <-];
      (eexists; split; [reflexivity|]; split; [reflexivity|];
       intros k [<-|[<-|[<-|[<-|[]]]]]; reflexivity).
  - destruct (existsb _ _); [|destruct (String.eqb scenario "__proto__")];
      intros [= <-];
      (eexists; split; [reflexivity|]; split; [reflexivity|];
       intros k [<-|[<-|[<-|[<-|[]]]]]; reflexivity).
Qed.

End InjectorFacts.

Section InjectorProperties.
Context {rt : JSRuntime} {nrt : NewsRuntime}.
Variable CONFIG : config.

(** What an accepted scenario leaves on disk, as the safety check reads it. *)
Lemma injected_file (scenario : string) (entries : list (string * value)) (w : world) :
  scenario <> "" -> scenario <> "clear" ->
  override_entries (clock w) scenario = Some entries ->
  exists w1 ov,
    test_scenarios (Some scenario) w = (Returned 0, w1) /\
    fs w1 = <[TEST_OVERRIDE_FILE := ov]> (fs w) /\
    truthy ov = true /\
    getPropOpt ov "_expiresAt" = VStr (toISOString (clock w + 3600000)) /\
    (forall k, In k ["nws"; "usgs"; "aqi"; "news"] ->
       getPropOpt ov k = match lookup_name k entries with
                         | Some content => content
                         | None => VUndefined
                         end).
Proof.
  intros Hne Hclear Hentries.
  destruct (inject_spec scenario entries w Hne Hclear Hentries) as (w1 & Hrun & Hfs).
  destruct (injected_expiry (clock w) scenario entries Hentries)
    as (fields & Hfields & Hexp & Hkeys).
  exists w1, (VObj fields). rewrite Hfields in Hfs.
  repeat split; assumption.
Qed.



End InjectorProperties.

(** ** Computations that write no file *)

Lemma kf_ret {A} (a : A) : keeps_files (ret a).
Proof. intros w. reflexivity. Qed.

Lemma kf_lift {A} (o : outcome A) : keeps_files (lift o).
Proof. intros w. reflexivity. Qed.

Lemma kf_bind {A B} (c : M A) (k : A -> M B) :
  keeps_files c -> (forall a, keeps_files (k a)) -> keeps_files (bind c k).
Proof.
  intros Hc Hk w. unfold bind. specialize (Hc w).
  destruct (c w) as [[a|e] w']; simpl in *; [|exact Hc].
  rewrite (Hk a w'). exact Hc.
Qed.

Lemma kf_attempt {A} (c : M A) : keeps_files c -> keeps_files (attempt c).
Proof. intros Hc w. unfold attempt. specialize (Hc w). destruct (c w). exact Hc. Qed.

Lemma kf_Date_now : keeps_files Date_now.
Proof. intros w. reflexivity. Qed.

Lemma kf_fetch url : keeps_files (fetch url).
Proof. intros w. reflexivity. Qed.

Lemma kf_execSync cmd : keeps_files (execSync cmd).
Proof. intros w. reflexivity. Qed.

Lemma kf_console_error s : keeps_files (console_error s).
Proof. intros w. reflexivity. Qed.

Lemma kf_console_log v : keeps_files (console_log v).
Proof. intros w. reflexivity. Qed.

Lemma kf_readJSON path : keeps_files (readJSON path).
Proof. intros w. unfold readJSON. destruct (fs w !! path); reflexivity. Qed.

Lemma kf_match {A B} (o : outcome A) (f : A -> M B) (g : string -> M B) :
  (forall a, keeps_files (f a)) -> (forall e, keeps_files (g e)) ->
  keeps_files (match o with Returned a => f a | Thrown e => g e end).
Proof. intros Hf Hg. destruct o; auto. Qed.

(** Solves goals [keeps_files c] for a computation built from the primitives
    above. *)
Ltac kf :=
  repeat first
    [ apply kf_ret | apply kf_lift | apply kf_Date_now | apply kf_fetch
    | apply kf_execSync | apply kf_console_error | apply kf_console_log
    | apply kf_readJSON | apply kf_attempt
    | apply kf_bind; [|intros ?]
    | apply kf_match; intros ?
    | match goal with
      | |- keeps_files (let (_, _) := ?p in _) => destruct p
      | |- keeps_files (if ?b then _ else _) => destruct b
      | |- keeps_files (match ?x with _ => _ end) => destruct x
      end ].

Section NoWrites.
Context {rt : JSRuntime} {nrt : NewsRuntime}.
Variable CONFIG : config.

Lemma kf_checkNWSAlerts lat lon : keeps_files (checkNWSAlerts lat lon).
Proof. unfold checkNWSAlerts. kf. Qed.

Lemma kf_checkEarthquakes lat lon : keeps_files (checkEarthquakes CONFIG lat lon).
Proof. unfold checkEarthquakes. kf. Qed.

Lemma kf_checkAirQuality lat lon : keeps_files (checkAirQuality lat lon).
Proof. unfold checkAirQuality. kf. Qed.

Lemma kf_all_feed_alerts urls : keeps_files (all_feed_alerts CONFIG urls).
Proof.
  induction urls as [|url urls IH]; simpl; [apply kf_ret|].
  apply kf_bind; [unfold feed_alerts; kf|]. intros found.
  apply kf_bind; [exact IH|]. intros more. apply kf_ret.
Qed.

Lemma kf_checkLocalNews lat lon : keeps_files (checkLocalNews CONFIG lat lon).
Proof.
  unfold checkLocalNews. apply kf_bind; [apply kf_all_feed_alerts|].
  intros alerts. apply kf_ret.
Qed.

Lemma kf_systemHealth : keeps_files systemHealth.
Proof. unfold systemHealth, probe. kf. Qed.

Lemma kf_environmentalThreats lat lon : keeps_files (environmentalThreats lat lon).
Proof. unfold environmentalThreats, threats_from. kf. Qed.

Lemma kf_connectivity : keeps_files connectivity.
Proof. unfold connectivity. kf. Qed.

Lemma kf_runSelfCheck : keeps_files runSelfCheck.
Proof.
  unfold runSelfCheck, console_log_json.
  apply kf_bind; [kf|]. intros r. apply kf_match; [|intros e; kf].
  intros myLocation.
  apply kf_bind; [kf|]. intros lat. apply kf_bind; [kf|]. intros lon.
  apply kf_bind; [kf|]. intros _.
  apply kf_bind; [apply kf_systemHealth|]. intros system.
  apply kf_bind; [apply kf_environmentalThreats|]. intros environment.
  apply kf_bind; [apply kf_connectivity|]. intros network.
  kf.
Qed.

(** A computation that reads one file and then only the surroundings. *)
Lemma read_then_surroundings {B} (path : string) (k : outcome value -> M B)
    (w1 w2 : world) :
  (forall r, reads_only_surroundings (k r)) ->
  surroundings w1 = surroundings w2 ->
  fs w1 !! path = fs w2 !! path ->
  fst (bind (attempt (readJSON path)) k w1) = fst (bind (attempt (readJSON path)) k w2).
Proof.
  intros Hk Hsame Hfile. unfold bind, attempt, readJSON. rewrite Hfile.
  destruct (fs w2 !! path); apply (proj2 (Hk _)); exact Hsame.
Qed.

Lemma runSelfCheck_depends (w1 w2 : world) :
  surroundings w1 = surroundings w2 ->
  fs w1 !! MY_LOCATION_FILE = fs w2 !! MY_LOCATION_FILE ->
  fst (runSelfCheck w1) = fst (runSelfCheck w2).
Proof.
  intros Hsame Hfile.
  unfold runSelfCheck. apply read_then_surroundings; [|exact Hsame|exact Hfile].
  intros [myLocation|e]; [|ros].
  unfold console_log_json.
  apply ros_bind; [ros|]. intros lat. apply ros_bind; [ros|]. intros lon.
  apply ros_bind; [ros|]. intros _.
  apply ros_bind; [apply ros_systemHealth|]. intros system.
  apply ros_bind; [apply ros_environmentalThreats|]. intros environment.
  apply ros_bind; [apply ros_connectivity|]. intros network.
  ros.
Qed.

End NoWrites.

Section InjectorEffects.
Context {rt : JSRuntime} {nrt : NewsRuntime}.
Variable CONFIG : config.

Lemma apply_override_unnamed ov k c :
  truthy (getPropOpt ov k) = false -> apply_override ov k c = c.
Proof. intros H. unfold apply_override. rewrite H. reflexivity. Qed.

(** An override that names none of the four sources changes no report. *)
Lemma run_without_override (w : world) :
  (forall ov, fst (getTestOverride w) = Returned ov ->
     forall k, In k ["nws"; "usgs"; "aqi"; "news"] -> truthy (getPropOpt ov k) = false) ->
  fst (runSafetyCheck CONFIG w)
  = fst (runSafetyCheck CONFIG (set_fs (delete TEST_OVERRIDE_FILE) w)).
Proof.
  intros Hnone.
  set (w' := set_fs (delete TEST_OVERRIDE_FILE) w).
  assert (Hloc' : fs w' !! LOCATION_FILE = fs w !! LOCATION_FILE).
  { unfold w'. cbn [fs set_fs]. apply lookup_delete_ne. discriminate. }
  pose proof (runSafetyCheck_no_location CONFIG w) as Hno.
  pose proof (runSafetyCheck_no_location CONFIG w') as Hno'.
  cbv zeta in Hno, Hno'. rewrite Hloc' in Hno'.
  destruct (fs w !! LOCATION_FILE) as [location|] eqn:Hfs;
    [|rewrite Hno, Hno' by reflexivity; reflexivity].
  destruct (truthy location && truthy (getPropOpt location "lat")
            && truthy (getPropOpt location "lon")) eqn:Hvalid;
    [|rewrite Hno, Hno' by reflexivity; reflexivity].
  clear Hno Hno'.
  apply andb_true_iff in Hvalid as [Hvalid Hlon].
  apply andb_true_iff in Hvalid as [Hloc Hlat].
  destruct (runSafetyCheck_alone CONFIG w location Hfs Hloc Hlat Hlon)
    as (ov & nws & usgs & aqi & news & Hov & Hnws & Husgs & Haqi & Hnews & Hrun).
  destruct (runSafetyCheck_alone CONFIG w' location Hloc' Hloc Hlat Hlon)
    as (ov' & nws' & usgs' & aqi' & news' & Hov' & Hnws' & Husgs' & Haqi' & Hnews'
        & Hrun').
  assert (Hsame : surroundings w' = surroundings w) by reflexivity.
  rewrite (proj2 (ros_checkNWSAlerts _ _) w' w Hsame), Hnws in Hnws'.
  rewrite (proj2 (ros_checkEarthquakes CONFIG _ _) w' w Hsame), Husgs in Husgs'.
  rewrite (proj2 (ros_checkAirQuality _ _) w' w Hsame), Haqi in Haqi'.
  rewrite (proj2 (ros_checkLocalNews CONFIG _ _) w' w Hsame), Hnews in Hnews'.
  injection Hnws' as <-. injection Husgs' as <-. injection Haqi' as <-.
  injection Hnews' as <-.
  rewrite (getTestOverride_absent w') in Hov' by apply lookup_delete_eq.
  injection Hov' as <-.
  rewrite Hrun, Hrun'.
  rewrite !(apply_override_unnamed ov) by (apply (Hnone ov Hov); simpl; auto 10).
  reflexivity.
Qed.

(** X11: once the clock has passed the hour, the first look at the override
    an accepted scenario left removes the file, and the safety check reports
    what it reports without any override. *)
Theorem injected_override_expires (scenario : string) (entries : list (string * value))
    (w w2 : world) :
  scenario <> "" -> scenario <> "clear" ->
  override_entries (clock w) scenario = Some entries ->
  toISOString (clock w + 3600000) <> "" ->
  DateValue (VStr (toISOString (clock w + 3600000))) = Some (clock w + 3600000) ->
  fs w2 !! TEST_OVERRIDE_FILE
  = fs (snd (test_scenarios (Some scenario) w)) !! TEST_OVERRIDE_FILE ->
  clock w + 3600000 < clock w2 ->
  getTestOverride w2 = (Returned VNull, set_fs (delete TEST_OVERRIDE_FILE) w2) /\
  fst (runSafetyCheck CONFIG w2)
  = fst (runSafetyCheck CONFIG (set_fs (delete TEST_OVERRIDE_FILE) w2)).
Proof.
  intros Hne Hclear Hentries Hiso Hparse Hkept Hclock.
  destruct (injected_file scenario entries w Hne Hclear Hentries)
    as (w1 & ov & Hrun & Hfs & Hov & Hexp & Hkeys).
  rewrite Hrun in Hkept. cbn [snd] in Hkept.
  rewrite Hfs, lookup_insert_eq in Hkept.
  assert (Hget : getTestOverride w2
                 = (Returned VNull, set_fs (delete TEST_OVERRIDE_FILE) w2)).
  { apply (getTestOverride_expired w2 ov Hkept); rewrite Hexp.
    - destruct (toISOString (clock w + 3600000)); [congruence | reflexivity].
    - unfold date_before. rewrite Hparse. apply Z.ltb_lt. exact Hclock. }
  split; [exact Hget|].
  apply run_without_override. intros ov'. rewrite Hget. intros [= <-] k _. reflexivity.
Qed.

(** X12: the disk and memory scenarios reach neither script: with the
    override file as the injector left it, the safety check and the self check
    both report what they report without it. *)
Theorem host_scenarios_reach_no_script (scenario : string) (w w2 : world) :
  In scenario ["disk"; "memory"] ->
  fs w2 !! TEST_OVERRIDE_FILE
  = fs (snd (test_scenarios (Some scenario) w)) !! TEST_OVERRIDE_FILE ->
  fst (runSafetyCheck CONFIG w2)
  = fst (runSafetyCheck CONFIG (set_fs (delete TEST_OVERRIDE_FILE) w2)) /\
  fst (runSelfCheck w2) = fst (runSelfCheck (set_fs (delete TEST_OVERRIDE_FILE) w2)).
Proof.
  intros Hscenario Hkept. split.
  - assert (Hacc : scenario <> "" /\ scenario <> "clear" /\
                   exists entries, override_entries (clock w) scenario = Some entries /\
                     forall k, In k ["nws"; "usgs"; "aqi"; "news"] ->
                               lookup_name k entries = None).
    { destruct Hscenario as [<-|[<-|[]]];
        (split; [discriminate|]; split; [discriminate|]; eexists;
         split; [reflexivity|]; intros k [<-|[<-|[<-|[<-|[]]]]]; reflexivity). }
    destruct Hacc as (Hne & Hclear & entries & Hentries & Hnone).
    destruct (injected_file scenario entries w Hne Hclear Hentries)
      as (w1 & ov & Hrun & Hfs & Hov & Hexp & Hkeys).
    rewrite Hrun in Hkept. cbn [snd] in Hkept.
    rewrite Hfs, lookup_insert_eq in Hkept.
    apply run_without_override. intros ov' Hov' k Hk.
    destruct (getTestOverride_value w2) as (ov'' & Hget & Hcases).
    rewrite Hov' in Hget. injection Hget as <-.
    destruct Hcases as [->|Hfile]; [reflexivity|].
    rewrite Hkept in Hfile. injection Hfile as <-.
    rewrite (Hkeys k Hk), (Hnone k Hk). reflexivity.
  - apply runSelfCheck_depends; [reflexivity|].
    cbn [fs set_fs]. symmetry. apply lookup_delete_ne. discriminate.
Qed.

(** X13: the self check writes no file, and its report is determined by
    my-location.json, the clock, the replies of the network and the output of
    the commands: no other file, the override of the scenario injector
    included, has any influence on it. *)
Theorem self_check_reads_one_file (w1 w2 : world) :
  surroundings w1 = surroundings w2 ->
  fs w1 !! MY_LOCATION_FILE = fs w2 !! MY_LOCATION_FILE ->
  fst (runSelfCheck w1) = fst (runSelfCheck w2) /\
  fs (snd (runSelfCheck w1)) = fs w1.
Proof.
  intros Hsame Hfile. split.
  - apply runSelfCheck_depends; assumption.
  - apply kf_runSelfCheck.
Qed.

Lemma kf_console_log_lines lines : keeps_files (console_log_lines lines).
Proof. induction lines; simpl; kf. exact IHlines. Qed.

(** X14: whatever its argument, the injector leaves every file other than
    test-override.json as it was and exits with 0 or 1; when it exits with 1
    (no argument, or an unknown scenario) it has written nothing at all, and
    after [clear] there is no override file. *)
Theorem injector_touches_one_file (arg : option string) (w : world) :
  (forall path, path <> TEST_OVERRIDE_FILE ->
     fs (snd (test_scenarios arg w)) !! path = fs w !! path) /\
  (fst (test_scenarios arg w) = Returned 0 \/
   fst (test_scenarios arg w) = Returned 1 /\ fs (snd (test_scenarios arg w)) = fs w) /\
  (arg = Some "clear" ->
   fst (test_scenarios arg w) = Returned 0 /\
   fs (snd (test_scenarios arg w)) !! TEST_OVERRIDE_FILE = None).
Proof.
  assert (Husage : forall w0, fst ((console_log_lines usage ;;; ret 1) w0) = Returned 1 /\
                              fs (snd ((console_log_lines usage ;;; ret 1) w0)) = fs w0).
  { intros w0. split; [reflexivity|].
    assert (H : keeps_files (console_log_lines usage ;;; ret 1)).
    { apply kf_bind; [apply kf_console_log_lines | intros ?; apply kf_ret]. }
    apply H. }
  destruct arg as [[|c s]|].
  1,3: cbn [test_scenarios]; destruct (Husage w) as [-> ->]; repeat split; auto;
       discriminate.
  destruct (String.eqb_spec (String c s) "clear") as [->|Hclear].
  - unfold test_scenarios. cbn [String.eqb Ascii.eqb Bool.eqb].
    unfold bind, attempt, unlinkSync, console_log, ret.
    destruct (fs w !! TEST_OVERRIDE_FILE) eqn:Hfile; cbn [fst snd fs set_fs add_stdout].
    + split; [intros path Hpath; apply lookup_delete_ne; congruence|].
      split; [left; reflexivity|]. intros _. split; [reflexivity|].
      apply lookup_delete_eq.
    + split; [reflexivity|]. split; [left; reflexivity|]. intros _.
      split; [reflexivity | exact Hfile].
  - destruct (override_entries (clock w) (String c s)) as [entries|] eqn:Hentries.
    + destruct (inject_spec (String c s) entries w ltac:(discriminate) Hclear Hentries)
        as (w1 & -> & Hfs).
      cbn [fst snd]. rewrite Hfs.
      split; [intros path Hpath; apply lookup_insert_ne; congruence|].
      split; [left; reflexivity|]. intros [= E]. congruence.
    + unfold test_scenarios.
      destruct (String.eqb_spec (String c s) "clear") as [E|_]; [congruence|].
      unfold bind, Date_now. rewrite Hentries.
      unfold console_error, ret. cbn [fst snd fs add_stderr].
      split; [reflexivity|]. split; [right; split; reflexivity|].
      intros [= E]. congruence.
Qed.

End InjectorEffects.

Section InjectorRuns.
#[local] Existing Instance Sample.runtime.
#[local] Existing Instance Sample.news_runtime.


(** test-override.json as the injector writes it at 22:00:00 is the file
    shown in [Sample.earthquake_override]. *)
Example earthquake_scenario_file :
  fs (snd (test_scenarios (Some "earthquake") (Sample.offline Sample.t0 ∅)))
    !! TEST_OVERRIDE_FILE
  = Some Sample.earthquake_override.
Proof. vm_compute. reflexivity. Qed.


(** The same scenario, and a run two hours after the injection. *)
Lemma injected_override_expires_witness :
  getTestOverride
    (Sample.offline (Sample.t0 + 7200000)
       {[ LOCATION_FILE := Sample.seattle;
          TEST_OVERRIDE_FILE := Sample.earthquake_override ]})
  = (Returned VNull,
     set_fs (delete TEST_OVERRIDE_FILE)
       (Sample.offline (Sample.t0 + 7200000)
          {[ LOCATION_FILE := Sample.seattle;
             TEST_OVERRIDE_FILE := Sample.earthquake_override ]})) /\
  fst (runSafetyCheck default_config
         (Sample.offline (Sample.t0 + 7200000)
            {[ LOCATION_FILE := Sample.seattle;
               TEST_OVERRIDE_FILE := Sample.earthquake_override ]}))
  = fst (runSafetyCheck default_config
           (set_fs (delete TEST_OVERRIDE_FILE)
              (Sample.offline (Sample.t0 + 7200000)
                 {[ LOCATION_FILE := Sample.seattle;
                    TEST_OVERRIDE_FILE := Sample.earthquake_override ]}))).
Proof.
  refine (injected_override_expires default_config "earthquake"
            [("usgs", assoc "earthquake" (scenarios Sample.t0))]
            (Sample.offline Sample.t0 ∅)
            (Sample.offline (Sample.t0 + 7200000)
               {[ LOCATION_FILE := Sample.seattle;
                  TEST_OVERRIDE_FILE := Sample.earthquake_override ]})
            _ _ _ _ _ _ _).
  - discriminate.
  - discriminate.
  - reflexivity.
  - vm_compute. discriminate.
  - vm_compute. reflexivity.
  - vm_compute. reflexivity.
  - vm_compute. reflexivity.
Defined.

(** The disk scenario injected on a machine in Seattle. *)
Lemma host_scenarios_reach_no_script_witness :
  let w := Sample.offline Sample.t0 {[ LOCATION_FILE := Sample.seattle;
                                       MY_LOCATION_FILE := Sample.seattle ]} in
  let w2 := snd (test_scenarios (Some "disk") w) in
  fst (runSafetyCheck default_config w2)
  = fst (runSafetyCheck default_config (set_fs (delete TEST_OVERRIDE_FILE) w2)) /\
  fst (runSelfCheck w2) = fst (runSelfCheck (set_fs (delete TEST_OVERRIDE_FILE) w2)).
Proof.
  refine (host_scenarios_reach_no_script default_config "disk"
            (Sample.offline Sample.t0 {[ LOCATION_FILE := Sample.seattle;
                                         MY_LOCATION_FILE := Sample.seattle ]})
            (snd (test_scenarios (Some "disk")
                    (Sample.offline Sample.t0 {[ LOCATION_FILE := Sample.seattle;
                                                 MY_LOCATION_FILE := Sample.seattle ]})))
            _ _).
  - left. reflexivity.
  - reflexivity.
Defined.

(** Two machines in Seattle, one of them with an override on file. *)
Lemma self_check_reads_one_file_witness :
  fst (runSelfCheck (Sample.offline Sample.t0 {[ MY_LOCATION_FILE := Sample.seattle ]}))
  = fst (runSelfCheck
           (Sample.offline Sample.t0
              {[ MY_LOCATION_FILE := Sample.seattle;
                 TEST_OVERRIDE_FILE := Sample.earthquake_override ]})) /\
  fs (snd (runSelfCheck
             (Sample.offline Sample.t0 {[ MY_LOCATION_FILE := Sample.seattle ]})))
  = fs (Sample.offline Sample.t0 {[ MY_LOCATION_FILE := Sample.seattle ]}).
Proof.
  refine (self_check_reads_one_file
            (Sample.offline Sample.t0 {[ MY_LOCATION_FILE := Sample.seattle ]})
            (Sample.offline Sample.t0
               {[ MY_LOCATION_FILE := Sample.seattle;
                  TEST_OVERRIDE_FILE := Sample.earthquake_override ]})
            _ _).
  - reflexivity.
  - vm_compute. reflexivity.
Defined.

End InjectorRuns.

(** ** What the adapters return *)

Lemma mapM_Forall2 {A B} (f : A -> outcome B) (l : list A) (bs : list B) :
  mapM f l = Returned bs -> Forall2 (fun a b => f a = Returned b) l bs.
Proof.
  revert bs. induction l as [|a l IH]; intros bs; simpl.
  - intros [= <-]. constructor.
  - destruct (f a) as [b|e] eqn:Hb; [|discriminate].
    destruct (mapM f l) as [bs'|e]; [|discriminate].
    intros [= <-]. constructor; [exact Hb | apply IH; reflexivity].
Qed.

Lemma mapM_thrown {A B} (f : A -> outcome B) (l : list A) (a : A) (e : string) :
  In a l -> f a = Thrown e -> exists e', mapM f l = Thrown e'.
Proof.
  induction l as [|x l IH]; intros Hin Ha; [destruct Hin|].
  simpl. destruct Hin as [->|Hin].
  - rewrite Ha. eauto.
  - destruct (f x); [|eauto]. destruct (IH Hin Ha) as [e' ->]. eauto.
Qed.

Lemma filterM_thrown {A} (p : A -> outcome bool) (l : list A) (a : A) (e : string) :
  In a l -> p a = Thrown e -> exists e', filterM p l = Thrown e'.
Proof.
  induction l as [|x l IH]; intros Hin Ha; [destruct Hin|].
  simpl. destruct Hin as [->|Hin].
  - rewrite Ha. eauto.
  - destruct (p x); [|eauto]. destruct (IH Hin Ha) as [e' ->]. eauto.
Qed.

Lemma filterM_filter {A} (p : A -> outcome bool) (q : A -> bool) (l kept : list A) :
  (forall a b, p a = Returned b -> q a = b) ->
  filterM p l = Returned kept -> kept = List.filter q l.
Proof.
  intros Hq. revert kept. induction l as [|a l IH]; intros kept; simpl.
  - intros [= <-]. reflexivity.
  - destruct (p a) as [b|e] eqn:Hb; [|discriminate].
    destruct (filterM p l) as [kept'|e]; [|discriminate].
    intros [= <-]. rewrite (Hq a b Hb), (IH kept' eq_refl). reflexivity.
Qed.

Lemma Returned_inj {A} (a b : A) : Returned a = Returned b -> a = b.
Proof. intros [= ->]. reflexivity. Qed.

Lemma utf16_length_app (s t : string) :
  utf16_length (s ++ t) = (utf16_length s + utf16_length t)%nat.
Proof. induction s as [|c s IH]; simpl; [reflexivity|]. rewrite IH. lia. Qed.

Lemma utf16_length_continuation (s : string) : utf16_length (fst (continuation s)) = 0%nat.
Proof.
  induction s as [|c s IH]; [reflexivity|]. simpl.
  destruct (is_continuation c) eqn:Hc; [|reflexivity].
  destruct (continuation s) as [t r]. simpl in *.
  unfold utf16_units. rewrite Hc. exact IH.
Qed.

Lemma utf16_units_continuation (n : N) :
  (n < 64)%N -> utf16_units (ascii_of_N (128 + n)) = 0%nat.
Proof.
  intros Hn. unfold utf16_units, is_continuation.
  rewrite N_ascii_embedding by lia.
  destruct (N.leb_spec 128 (128 + n)); [|lia].
  destruct (N.ltb_spec (128 + n) 192); [reflexivity | lia].
Qed.

Lemma utf16_length_high_surrogate (c : ascii) (tail : string) :
  utf16_length (high_surrogate c tail) = 1%nat.
Proof.
  unfold high_surrogate. cbn [utf16_length].
  rewrite !utf16_units_continuation by (apply N.mod_lt; discriminate).
  reflexivity.
Qed.

(** The cut of a string at [n] code units has at most [n] of them. *)
Lemma utf16_length_slice0 (n : nat) (s : string) : (utf16_length (slice0 n s) <= n)%nat.
Proof.
  revert s. induction n as [n IH] using lt_wf_ind. intros s.
  destruct n as [|n]; [destruct s; simpl; lia|].
  destruct s as [|c s]; [simpl; lia|].
  cbn [slice0].
  pose proof (utf16_length_continuation s) as Htail.
  destruct (continuation s) as [tail rest]. cbn [fst] in Htail.
  destruct (is_lead4 c) eqn:Hlead.
  - destruct n as [|n].
    + rewrite utf16_length_high_surrogate. lia.
    + cbn [utf16_length]. rewrite utf16_length_app, Htail.
      specialize (IH n ltac:(lia) rest).
      unfold utf16_units. rewrite Hlead. destruct (is_continuation c); lia.
  - cbn [utf16_length]. rewrite utf16_length_app, Htail.
    specialize (IH n ltac:(lia) rest).
    unfold utf16_units. rewrite Hlead. destruct (is_continuation c); lia.
Qed.

(** A letter with an accent is two bytes and one code unit; a character
    outside the basic plane is four bytes and two code units, and a cut
    between the two keeps the first of them. *)
Example slice0_counts_code_units :
  slice0 4 "café au lait" = "café" /\
  String.length "café" = 5%nat /\ utf16_length "café" = 4%nat /\
  slice0 3 "a😀b" = "a😀" /\ utf16_length "a😀b" = 4%nat /\
  utf16_length (slice0 2 "a😀b") = 2%nat /\
  slice0 19 "2026-01-29T22-00-00-000Z" = "2026-01-29T22-00-00".
Proof. vm_compute. repeat split. Qed.

Section AdapterResults.
Context {rt : JSRuntime} {nrt : NewsRuntime}.
Variable CONFIG : config.



(** X16: the earthquake adapter either fails open or reports, in the order
    of the reply, exactly the features whose magnitude is at least 2.5: one
    alert each, with the magnitude and the place of the feature and its time
    in ISO form; it is satisfied exactly when there is none. *)
Theorem earthquakes_at_least_2_5 (lat lon : value) (w : world) :
  let mag f := getPropOpt (getPropOpt f "properties") "mag" in
  let place f := getPropOpt (getPropOpt f "properties") "place" in
  let time f := getPropOpt (getPropOpt f "properties") "time" in
  (exists e, fst (checkEarthquakes CONFIG lat lon w) = Returned (fail_open "USGS" e)) \/
  (exists text data features items alerts,
     http w (usgs_url CONFIG lat lon (clock w)) = Returned text /\
     JSON_parse text = Returned data /\
     getProp data "features" = Returned features /\
     js_or features (VArr []) = VArr items /\
     fst (checkEarthquakes CONFIG lat lon w)
     = Returned (VObj [("source", VStr "USGS"); ("ok", VBool (is_empty alerts));
                       ("alerts", VArr alerts)]) /\
     Forall2 (fun f alert =>
                exists t, DateValue (time f) = Some t /\
                  alert = VObj [("magnitude", mag f); ("place", place f);
                                ("time", VStr (toISOString t)); ("distance", place f)])
             (List.filter (fun f => js_ge (mag f) (5 # 2)) items) alerts).
Proof.
  intros mag place time.
  unfold checkEarthquakes, bind, attempt, fetch, lift, ret, Date_now. cbn [fst].
  destruct (http w (usgs_url CONFIG lat lon (clock w))) as [text|e] eqn:Hhttp;
    [|left; eauto].
  destruct (JSON_parse text) as [data|e] eqn:Hparse; [|left; eauto].
  destruct (getProp data "features") as [features|e] eqn:Hfeatures; [|left; eauto].
  destruct (as_array _ (js_or features (VArr []))) as [items|e] eqn:Hitems;
    [|left; eauto].
  destruct (filterM notable_quake items) as [notable|e] eqn:Hnotable; [|left; eauto].
  destruct (mapM quake_alert notable) as [alerts|e] eqn:Halerts; [|left; eauto].
  right. exists text, data, features, items, alerts.
  assert (Harr : js_or features (VArr []) = VArr items).
  { destruct (js_or features (VArr [])); try discriminate Hitems.
    injection Hitems as ->. reflexivity. }
  repeat (split; [first [reflexivity | assumption]|]).
  assert (Hprops : forall f p, getProp f "properties" = Returned p ->
                               forall k v, getProp p k = Returned v ->
                               getPropOpt (getPropOpt f "properties") k = v).
  { intros f p Hp k v Hv.
    assert (p = getPropOpt f "properties") as <-.
    { destruct f; simpl in *; congruence. }
    destruct p; simpl in *; congruence. }
  rewrite <- (filterM_filter notable_quake (fun f => js_ge (mag f) (5 # 2))
                items notable); [|clear -Hprops|exact Hnotable].
  - apply mapM_Forall2 in Halerts.
    eapply Forall2_impl; [exact Halerts|].
    intros f alert. unfold quake_alert, obind.
    destruct (getProp f "properties") as [p|] eqn:Hp; [|discriminate].
    destruct (getProp p "mag") as [m|] eqn:Hm; [|discriminate].
    destruct (getProp p "place") as [pl|] eqn:Hpl; [|discriminate].
    destruct (getProp p "time") as [ti|] eqn:Hti; [|discriminate].
    destruct (DateValue ti) as [t|] eqn:Ht; [|discriminate].
    intros [= <-]. exists t. unfold mag, place, time.
    rewrite (Hprops f p Hp "mag" m Hm), (Hprops f p Hp "place" pl Hpl),
      (Hprops f p Hp "time" ti Hti).
    split; [exact Ht | reflexivity].
  - intros f b. unfold notable_quake, obind.
    destruct (getProp f "properties") as [p|] eqn:Hp; [|discriminate].
    destruct (getProp p "mag") as [m|] eqn:Hm; [|discriminate].
    intros [= <-]. unfold mag. rewrite (Hprops f p Hp "mag" m Hm). reflexivity.
Qed.

(** X17: the weather adapter either fails open or reports every feature of
    the reply, in order and whatever its severity: one alert each, with the
    event, severity, headline and expiry of the feature and a description cut
    to its first 500 code units; it is satisfied exactly when the reply has
    no feature. *)
Theorem weather_reports_every_feature (lat lon : value) (w : world) :
  let prop f k := getPropOpt (getPropOpt f "properties") k in
  (exists e, fst (checkNWSAlerts lat lon w) = Returned (fail_open "NWS" e)) \/
  (exists text data features items alerts,
     http w (nws_url lat lon) = Returned text /\
     JSON_parse text = Returned data /\
     getProp data "features" = Returned features /\
     js_or features (VArr []) = VArr items /\
     fst (checkNWSAlerts lat lon w)
     = Returned (VObj [("source", VStr "NWS"); ("ok", VBool (is_empty items));
                       ("alerts", VArr alerts)]) /\
     Forall2 (fun f alert =>
                exists description,
                  alert = VObj [("event", prop f "event");
                                ("severity", prop f "severity");
                                ("headline", prop f "headline");
                                ("description", description);
                                ("expires", prop f "expires")] /\
                  match prop f "description" with
                  | VStr d => description = VStr (slice0 500 d) /\
                              (utf16_length (slice0 500 d) <= 500)%nat
                  | VArr l => description = VArr (take 500 l)
                  | _ => description = VUndefined
                  end)
             items alerts).
Proof.
  intros prop.
  unfold checkNWSAlerts, bind, attempt, fetch, lift, ret. cbn [fst].
  destruct (http w (nws_url lat lon)) as [text|e] eqn:Hhttp; [|left; eauto].
  destruct (JSON_parse text) as [data|e] eqn:Hparse; [|left; eauto].
  destruct (getProp data "features") as [features|e] eqn:Hfeatures; [|left; eauto].
  destruct (as_array _ (js_or features (VArr []))) as [items|e] eqn:Hitems;
    [|left; eauto].
  destruct (mapM nws_alert items) as [alerts|e] eqn:Halerts; [|left; eauto].
  right. exists text, data, features, items, alerts.
  assert (Harr : js_or features (VArr []) = VArr items).
  { destruct (js_or features (VArr [])); try discriminate Hitems.
    injection Hitems as ->. reflexivity. }
  apply mapM_Forall2 in Halerts.
  assert (Hempty : is_empty alerts = is_empty items).
  { destruct Halerts; reflexivity. }
  rewrite Hempty.
  repeat (split; [first [reflexivity | assumption]|]).
  assert (Hprops : forall f p, getProp f "properties" = Returned p ->
                               forall k v, getProp p k = Returned v ->
                               getPropOpt (getPropOpt f "properties") k = v).
  { intros f p Hp k v Hv.
    assert (p = getPropOpt f "properties") as <-.
    { destruct f; simpl in *; congruence. }
    destruct p; simpl in *; congruence. }
  eapply Forall2_impl; [exact Halerts|].
  intros f alert. unfold nws_alert, obind.
  destruct (getProp f "properties") as [p|] eqn:Hp; [|discriminate].
  destruct (getProp p "event") as [ev|] eqn:Hev; [|discriminate].
  destruct (getProp p "severity") as [sev|] eqn:Hsev; [|discriminate].
  destruct (getProp p "headline") as [hl|] eqn:Hhl; [|discriminate].
  destruct (getProp p "description") as [d|] eqn:Hd; [|discriminate].
  destruct (description_slice d) as [description|] eqn:Hslice; [|discriminate].
  destruct (getProp p "expires") as [ex|] eqn:Hex; [|discriminate].
  intros [= <-]. exists description. unfold prop.
  rewrite (Hprops f p Hp "event" ev Hev), (Hprops f p Hp "severity" sev Hsev),
    (Hprops f p Hp "headline" hl Hhl), (Hprops f p Hp "description" d Hd),
    (Hprops f p Hp "expires" ex Hex).
  split; [reflexivity|].
  destruct d as [| |b|n|d|l|o]; unfold description_slice in Hslice;
    try discriminate Hslice; apply Returned_inj in Hslice; subst description.
  - reflexivity.
  - reflexivity.
  - split; [reflexivity | apply utf16_length_slice0].
  - reflexivity.
Qed.

(** X18: a single feature without [properties], anywhere in the reply, makes
    the weather adapter, and likewise the earthquake adapter, fail open: the
    result is satisfied and has no alert, whatever the other features of the
    reply are. *)
Theorem feature_without_properties_hides_the_rest (quakes : bool) (lat lon : value)
    (w : world) (text : string) (data f : value) (items : list value) :
  http w (if quakes then usgs_url CONFIG lat lon (clock w) else nws_url lat lon)
  = Returned text ->
  JSON_parse text = Returned data ->
  getProp data "features" = Returned (VArr items) ->
  In f items ->
  getPropOpt f "properties" = VUndefined \/ getPropOpt f "properties" = VNull ->
  exists e,
    fst ((if quakes then checkEarthquakes CONFIG lat lon else checkNWSAlerts lat lon) w)
    = Returned (fail_open (if quakes then "USGS" else "NWS") e).
Proof.
  intros Hhttp Hparse Hfeatures Hin Hbare.
  assert (Hthrows : forall k, exists e,
            (p <~ getProp f "properties" ;; getProp p k) = Thrown e).
  { intros k. unfold obind.
    destruct f; simpl in *; try (destruct Hbare as [->| ->]); simpl; eauto. }
  destruct quakes.
  - destruct (Hthrows "mag") as [e0 He0].
    destruct (filterM_thrown notable_quake items f e0 Hin) as [e He].
    { unfold notable_quake, obind in *.
      destruct (getProp f "properties"); [|injection He0 as <-; reflexivity].
      rewrite He0. reflexivity. }
    exists e. unfold checkEarthquakes, bind, attempt, fetch, lift, ret, Date_now.
    rewrite Hhttp, Hparse, Hfeatures. cbn [js_or truthy as_array]. rewrite He.
    reflexivity.
  - destruct (Hthrows "event") as [e0 He0].
    destruct (mapM_thrown nws_alert items f e0 Hin) as [e He].
    { unfold nws_alert, obind in *.
      destruct (getProp f "properties"); [|exact He0]. rewrite He0. reflexivity. }
    exists e. unfold checkNWSAlerts, bind, attempt, fetch, lift, ret.
    rewrite Hhttp, Hparse, Hfeatures. cbn [js_or truthy as_array]. rewrite He.
    reflexivity.
Qed.

Lemma all_feed_alerts_found (urls : list string) (w : world) :
  fst (all_feed_alerts CONFIG urls w)
  = Returned (concat (List.map
      (fun url => match http w url with
                  | Returned xml =>
                      omap (item_alert CONFIG (clock w) url) (take 15 (rss_items xml))
                  | Thrown _ => []
                  end) urls)).
Proof.
  revert w. induction urls as [|url urls IH]; intros w; [reflexivity|].
  cbn [all_feed_alerts List.map concat]. unfold bind at 1.
  assert (Hfeed : feed_alerts CONFIG url w
                  = (Returned (match http w url with
                               | Returned xml =>
                                   omap (item_alert CONFIG (clock w) url)
                                        (take 15 (rss_items xml))
                               | Thrown _ => []
                               end), add_request url w)).
  { unfold feed_alerts, bind, attempt, fetch, Date_now, ret.
    destruct (http w url); reflexivity. }
  rewrite Hfeed. unfold bind, ret.
  specialize (IH (add_request url w)).
  destruct (all_feed_alerts CONFIG urls (add_request url w)) as [[more|e] w'];
    cbn [fst] in *; [|discriminate].
  injection IH as ->. reflexivity.
Qed.

Lemma dedupe_nil (alerts : list newsAlert) : dedupe ∅ alerts = [] <-> alerts = [].
Proof.
  split; [|intros ->; reflexivity].
  destruct alerts as [|a alerts]; [reflexivity|]. cbn [dedupe].
  destruct (decide (dedupe_key a ∈ (∅ : gset string))) as [Hin|_]; [|discriminate].
  apply not_elem_of_empty in Hin. destruct Hin.
Qed.

Lemma item_alert_qualifies (now : Z) (feedUrl : string) (item : rssItem) :
  (exists a, item_alert CONFIG now feedUrl item = Some a) <->
  (let content := toLowerCase (item_title item ++ " " ++ item_desc item) in
   existsb (includes content) concerningKeywords = true /\
   existsb (includes content) (keywords CONFIG) = true /\
   existsb (includes content) excludeKeywords = false /\
   exists t, Date_parse (item_pubDate item) = Some t /\ now - t < 86400000).
Proof.
  unfold item_alert. cbv zeta.
  set (content := toLowerCase (item_title item ++ " " ++ item_desc item)).
  destruct (existsb (includes content) concerningKeywords);
    [|split; [intros [a [=]] | intros [[=] _]]].
  destruct (existsb (includes content) (keywords CONFIG));
    [|split; [intros [a [=]] | intros (_ & [=] & _)]].
  destruct (existsb (includes content) excludeKeywords);
    [rewrite andb_false_r; split; [intros [a [=]] | intros (_ & _ & [=] & _)]|].
  destruct (Date_parse (item_pubDate item)) as [t|];
    [|split; [intros [a [=]] | intros (_ & _ & _ & t & [=] & _)]].
  cbn [fmap option_fmap option_map andb negb].
  destruct (Z.ltb_spec (now - t) 86400000) as [Hlt|Hge].
  - split; [|eauto]. intros _. repeat split. exists t. split; [reflexivity | exact Hlt].
  - split; [intros [a [=]]|]. intros (_ & _ & _ & t' & [= <-] & Hlt). lia.
Qed.

(** X19: the news adapter always returns a result, and it raises the alarm
    exactly when one of the configured feeds answers and holds, among its
    first 15 items, one whose title and description, in lower case, contain
    a concerning keyword and a location keyword and no excluding keyword, and
    whose date parses to a time less than 24 hours before now (a date in the
    future included). *)
Theorem news_alarm_condition (lat lon : value) (w : world) :
  exists (ok : bool) (alerts : list value),
    fst (checkLocalNews CONFIG lat lon w)
    = Returned (VObj [("source", VStr "LocalNews"); ("ok", VBool ok);
                      ("alerts", VArr alerts)]) /\
    (ok = false <->
     exists url xml item t,
       In url (feeds CONFIG) /\
       http w url = Returned xml /\
       In item (take 15 (rss_items xml)) /\
       let content := toLowerCase (item_title item ++ " " ++ item_desc item) in
       existsb (includes content) concerningKeywords = true /\
       existsb (includes content) (keywords CONFIG) = true /\
       existsb (includes content) excludeKeywords = false /\
       Date_parse (item_pubDate item) = Some t /\
       clock w - t < 86400000).
Proof.
  pose proof (all_feed_alerts_found (feeds CONFIG) w) as Hfound.
  unfold checkLocalNews, bind, ret.
  destruct (all_feed_alerts CONFIG (feeds CONFIG) w) as [[found|e] w'];
    cbn [fst] in *; [|discriminate].
  injection Hfound as Hfound.
  do 2 eexists. split; [reflexivity|].
  assert (Hempty : is_empty (dedupe ∅ found) = false <-> exists a, In a found).
  { destruct found as [|a found].
    - split; [discriminate | intros [a []]].
    - split; [intros _; exists a; left; reflexivity|]. intros _.
      destruct (dedupe ∅ (a :: found)) eqn:E; [|reflexivity].
      apply dedupe_nil in E. discriminate. }
  rewrite Hempty, Hfound. split.
  - intros (a & Ha). apply in_concat in Ha as (l & Hl & Ha).
    apply in_map_iff in Hl as (url & <- & Hurl).
    destruct (http w url) as [xml|] eqn:Hxml; [|destruct Ha].
    apply list_elem_of_In, list_elem_of_omap in Ha as (item & Hitem & Halert).
    apply list_elem_of_In in Hitem.
    destruct (proj1 (item_alert_qualifies (clock w) url item) (ex_intro _ a Halert))
      as (Hc & Hl & Hx & t & Ht & Hrecent).
    exists url, xml, item, t. repeat split; assumption.
  - intros (url & xml & item & t & Hurl & Hxml & Hitem & Hc & Hl & Hx & Ht & Hrecent).
    destruct (proj2 (item_alert_qualifies (clock w) url item)) as [a Ha].
    { repeat split; try assumption. exists t. split; assumption. }
    exists a. apply in_concat. eexists. split.
    + apply in_map_iff. exists url. split; [reflexivity | exact Hurl].
    + rewrite Hxml. apply list_elem_of_In, list_elem_of_omap.
      exists item. split; [apply list_elem_of_In; exact Hitem | exact Ha].
Qed.

End AdapterResults.

(** ** What a run of the safety check does to the machine *)

Section SafetyCheckEffects.
Context {rt : JSRuntime} {nrt : NewsRuntime}.
Variable CONFIG : config.





End SafetyCheckEffects.

(** ** The answers of the escalation check *)

Section EscalationAnswers.
Context {rt : JSRuntime}.



End EscalationAnswers.

(** ** The verdict of the self check *)

Section SelfCheckVerdict.
Context {rt : JSRuntime} {nrt : NewsRuntime}.



Lemma is_critical_not_info (a : hostAlert) : is_critical a = true -> is_info a = false.
Proof.
  unfold is_critical, is_info. intros H. apply String.eqb_eq in H. rewrite H. reflexivity.
Qed.




End SelfCheckVerdict.

(** ** Runs of the adapters on replies of the services *)

Section AdapterRuns.
#[local] Existing Instance Wire.runtime.
#[local] Existing Instance Sample.news_runtime.


(** The earthquake service answers with two earthquakes: the one of
    magnitude 5.2 is reported, the one of magnitude 1.8 is not. *)
Example two_earthquakes_run :
  fst (checkEarthquakes default_config
         (getPropOpt Sample.seattle "lat") (getPropOpt Sample.seattle "lon")
         (Wire.serving Sample.t0 ∅ Wire.quake_reply))
  = Returned (VObj [("source", VStr "USGS"); ("ok", VBool false);
                    ("alerts", VArr [VObj [
                       ("magnitude", VNum (Some (52 # 10)));
                       ("place", VStr "3km NE of Redmond, Washington");
                       ("time", VStr "2026-01-29T21:00:00.000Z");
                       ("distance", VStr "3km NE of Redmond, Washington")]])]).
Proof. vm_compute. reflexivity. Qed.

(** The weather service answers with one advisory of minor severity. *)
Example minor_advisory_run :
  fst (checkNWSAlerts (getPropOpt Sample.seattle "lat") (getPropOpt Sample.seattle "lon")
         (Wire.serving Sample.t0 ∅ Wire.advisory_reply))
  = Returned (VObj [("source", VStr "NWS"); ("ok", VBool false);
                    ("alerts", VArr [VObj [
                       ("event", VStr "Wind Advisory");
                       ("severity", VStr "Minor");
                       ("headline", VStr "Wind Advisory until 10PM PST");
                       ("description", VStr "South winds 20 to 30 mph.");
                       ("expires", VStr "2026-01-30T06:00:00Z")]])]).
Proof. vm_compute. reflexivity. Qed.

(** The earthquake of magnitude 5.2, followed by a feature that has no
    properties. *)
Lemma feature_without_properties_hides_the_rest_witness :
  exists e,
    fst (checkEarthquakes default_config
           (getPropOpt Sample.seattle "lat") (getPropOpt Sample.seattle "lon")
           (Wire.serving Sample.t0 ∅ Wire.broken_reply))
    = Returned (fail_open "USGS" e).
Proof.
  refine (feature_without_properties_hides_the_rest default_config true
            (getPropOpt Sample.seattle "lat") (getPropOpt Sample.seattle "lon")
            (Wire.serving Sample.t0 ∅ Wire.broken_reply) Wire.broken_reply
            (VObj [("features",
                    VArr [VObj [("properties",
                                 VObj [("mag", VNum (Some (52 # 10)));
                                       ("place", VStr "3km NE of Redmond, Washington");
                                       ("time", VInt 1769720400000)])];
                          VObj [("id", VStr "uw62071141")]])])
            (VObj [("id", VStr "uw62071141")])
            [VObj [("properties",
                    VObj [("mag", VNum (Some (52 # 10)));
                          ("place", VStr "3km NE of Redmond, Washington");
                          ("time", VInt 1769720400000)])];
             VObj [("id", VStr "uw62071141")]]
            _ _ _ _ _).
  - reflexivity.
  - vm_compute. reflexivity.
  - reflexivity.
  - right. left. reflexivity.
  - left. reflexivity.
Defined.



(** The log of a run at 22:00:00 is logs/2026-01-29T22-00-00_safety.json. *)
Example log_file_name :
  fs (snd (runSafetyCheck default_config
             (Sample.offline Sample.t0 {[ LOCATION_FILE := Sample.seattle ]})))
    !! "logs/2026-01-29T22-00-00_safety.json" <> None.
Proof. vm_compute. discriminate. Qed.


(** A state file that holds [null]. *)
Example null_state_run :
  exists e,
    run (Sample.offline Sample.t0 {[ STATE_FILE := VNull ]})
    = (Thrown e, Sample.offline Sample.t0 {[ STATE_FILE := VNull ]}).
Proof. vm_compute. eauto. Qed.


Example self_check_critical_run :
  exists result,
    fst (runSelfCheck (Wire.serving Sample.t0 {[ MY_LOCATION_FILE := Sample.seattle ]}
                         Wire.quake_reply)) = Returned result /\
    getPropOpt result "status" = VStr "CRITICAL".
Proof. eexists. split; vm_compute; reflexivity. Qed.

End AdapterRuns.

(** ** Probes that tell nothing *)

Section QuietProbes.
Context {rt : JSRuntime} {nrt : NewsRuntime}.

Lemma span_digits_none (s : string) :
  forallb (fun c => negb (is_digit c)) (list_ascii_of_string s) = true ->
  span_digits s = ("", s).
Proof.
  destruct s as [|c s]; [reflexivity|]. simpl.
  intros H. apply andb_true_iff in H as [Hc _].
  destruct (is_digit c); [discriminate | reflexivity].
Qed.

Lemma match_percent_none (s : string) :
  forallb (fun c => negb (is_digit c)) (list_ascii_of_string s) = true ->
  match_percent s = None.
Proof.
  induction s as [|c s IH]; [reflexivity|]. intros H.
  cbn [match_percent]. rewrite (span_digits_none _ H).
  apply IH. simpl in H. apply andb_true_iff in H as [_ H]. exact H.
Qed.

Lemma match_decimal_none (s : string) :
  forallb (fun c => negb (is_digit c)) (list_ascii_of_string s) = true ->
  match_decimal s = None.
Proof.
  induction s as [|c s IH]; [reflexivity|]. intros H.
  cbn [match_decimal]. rewrite (span_digits_none _ H).
  apply IH. simpl in H. apply andb_true_iff in H as [_ H]. exact H.
Qed.

Lemma match_up_days_none (s : string) :
  forallb (fun c => negb (is_digit c)) (list_ascii_of_string s) = true ->
  match_up_days s = None.
Proof.
  induction s as [|c s IH]; [reflexivity|]. intros H.
  assert (Hs : match_up_days s = None).
  { apply IH. simpl in H. apply andb_true_iff in H as [_ H]. exact H. }
  assert (Htail : forall r, s = String "p" (String " " r) -> span_digits r = ("", r)).
  { intros r ->. apply span_digits_none.
    simpl in H. repeat (apply andb_true_iff in H as [_ H]). exact H. }
  cbn [match_up_days].
  destruct c as [[] [] [] [] [] [] [] []]; try exact Hs.
  destruct s as [|[[] [] [] [] [] [] [] []] s]; try exact Hs.
  destruct s as [|[[] [] [] [] [] [] [] []] s]; try exact Hs.
  rewrite (Htail s eq_refl). exact Hs.
Qed.

(** X25: the system health adapter is silent about what it cannot measure:
    when each of its four commands either fails or prints a text without any
    digit, it raises no alert and is satisfied. *)
Theorem system_probes_fail_quiet (w : world) :
  (forall cmd, In cmd [MEMORY_CMD; DISK_CMD; TEMPERATURE_CMD; UPTIME_CMD] ->
     match exec w cmd with
     | Returned out =>
         forallb (fun c => negb (is_digit c)) (list_ascii_of_string out) = true
     | Thrown _ => True
     end) ->
  checkSystemHealth w
  = (Returned (VObj [("source", VStr "System"); ("ok", VBool true);
                     ("alerts", VArr [])]), w).
Proof.
  intros Hquiet.
  pose proof (Hquiet MEMORY_CMD ltac:(simpl; auto)) as Hmem.
  pose proof (Hquiet DISK_CMD ltac:(simpl; auto)) as Hdisk.
  pose proof (Hquiet TEMPERATURE_CMD ltac:(simpl; auto)) as Htemp.
  pose proof (Hquiet UPTIME_CMD ltac:(simpl; auto 10)) as Hup.
  unfold checkSystemHealth, systemHealth, probe, bind, attempt, execSync, ret.
  destruct (exec w MEMORY_CMD) as [mem|]; destruct (exec w DISK_CMD) as [disk|];
    destruct (exec w TEMPERATURE_CMD) as [temp|]; destruct (exec w UPTIME_CMD) as [up|];
    unfold memory_alerts, disk_alerts, temperature_alerts, uptime_alerts;
    rewrite ?(match_percent_none _ Hmem), ?(match_percent_none _ Hdisk),
      ?(match_decimal_none _ Htemp), ?(match_up_days_none _ Hup);
    reflexivity.
Qed.

End QuietProbes.

Section QuietRuns.
#[local] Existing Instance Sample.runtime.
#[local] Existing Instance Sample.news_runtime.

(** A machine on which no command can be run. *)
Lemma system_probes_fail_quiet_witness :
  checkSystemHealth (Sample.offline Sample.t0 ∅)
  = (Returned (VObj [("source", VStr "System"); ("ok", VBool true);
                     ("alerts", VArr [])]), Sample.offline Sample.t0 ∅).
Proof.
  refine (system_probes_fail_quiet (Sample.offline Sample.t0 ∅) _).
  intros cmd _. exact I.
Defined.

End QuietRuns.
